(** * YouTube Content Optimizer: session, history and prompt assembly

    A shallow embedding of the client logic of the application:
    - [geminiService]      (request assembly and response decoding for the
                            hosted model),
    - [TitleGenerator]     (the title form),
    - [App]                (the top-level session: topic, titles, selection),
    - [ThumbnailGenerator] (the thumbnail workspace: uploads, style analysis,
                            generation, editing, linear undo/redo history).

    JavaScript strings are sequences of UTF-16 code units, arrays are lists,
    numbers that the code only uses as integers are [Z].  Calls to the hosted
    model go through one primitive, [generateContent], whose answers are given
    by an arbitrary backend and whose requests are recorded in a call log. *)

From Stdlib Require Import ZArith NArith List String Ascii Bool Lia DecimalString.
Import ListNotations.
Open Scope Z_scope.

(** ** The JavaScript primitives the code relies on *)

Module JS.

(** A string is the list of its UTF-16 code units. *)
Definition jsstring := list N.

(** An ASCII literal of the source, as code units. *)
Definition str (s : string) : jsstring := map N_of_ascii (list_ascii_of_string s).
Arguments str : simpl never.

(** The double quote and the line feed, which the literals below splice in. *)
Definition dq : jsstring := [34%N].
Definition nl : jsstring := [10%N].

(** Truthiness of a string: only the empty string is falsy. *)
Definition truthy (s : jsstring) : bool :=
  match s with [] => false | _ :: _ => true end.

(** Truthiness of [string | null]. *)
Definition truthy_opt (o : option jsstring) : bool :=
  match o with Some s => truthy s | None => false end.

(** Truthiness of [object | null]. *)
Definition is_object {A} (o : option A) : bool :=
  match o with Some _ => true | None => false end.

(** ECMAScript WhiteSpace and LineTerminator code units, as stripped by
    [String.prototype.trim]. *)
Definition isWhiteSpace (c : N) : bool :=
  ((9 <=? c) && (c <=? 13) || (c =? 32) || (c =? 160) || (c =? 5760)
   || (8192 <=? c) && (c <=? 8202) || (c =? 8232) || (c =? 8233)
   || (c =? 8239) || (c =? 8287) || (c =? 12288) || (c =? 65279))%N.

Fixpoint trimStart (s : jsstring) : jsstring :=
  match s with
  | c :: s' => if isWhiteSpace c then trimStart s' else s
  | [] => []
  end.

Definition trimEnd (s : jsstring) : jsstring := rev (trimStart (rev s)).

Definition trim (s : jsstring) : jsstring := trimEnd (trimStart s).

(** [s.indexOf(c)] for a one-unit search string: the first position of [c],
    or -1. *)
Fixpoint indexOf_from (s : jsstring) (c : N) (i : Z) : Z :=
  match s with
  | [] => -1
  | x :: s' => if (x =? c)%N then i else indexOf_from s' c (i + 1)
  end.

Definition indexOf (s : jsstring) (c : N) : Z := indexOf_from s c 0.

Definition clamp (len i : Z) : Z := Z.min (Z.max i 0) len.

(** [s.substring(a, b)]: both ends are clamped to [0, length] and swapped
    when out of order. *)
Definition substring (s : jsstring) (a b : Z) : jsstring :=
  let len := Z.of_nat (List.length s) in
  let a' := clamp len a in
  let b' := clamp len b in
  let from := Z.min a' b' in
  let to := Z.max a' b' in
  firstn (Z.to_nat (to - from)) (skipn (Z.to_nat from) s).

(** [s.substring(a)]: to the end of the string. *)
Definition substring_from (s : jsstring) (a : Z) : jsstring :=
  substring s a (Z.of_nat (List.length s)).

Fixpoint startsWith (s p : jsstring) {struct p} : bool :=
  match p, s with
  | [], _ => true
  | _ :: _, [] => false
  | a :: p', b :: s' => (a =? b)%N && startsWith s' p'
  end.

(** [s.includes(p)]: [p] occurs in [s] as a contiguous run of code units. *)
Fixpoint includes (s p : jsstring) : bool :=
  startsWith s p ||
  match s with
  | [] => false
  | _ :: s' => includes s' p
  end.

(** [s === t] on strings. *)
Fixpoint strict_eq (s t : jsstring) : bool :=
  match s, t with
  | [], [] => true
  | a :: s', b :: t' => (a =? b)%N && strict_eq s' t'
  | _, _ => false
  end.

(** Number-to-string conversion of an integer-valued number, as a template
    literal performs it. *)
Definition toString (n : Z) : jsstring := str (NilZero.string_of_int (Z.to_int n)).
Arguments toString : simpl never.

(** A relative index of [Array.prototype.slice]: negative counts from the
    end, and the result is clamped to [0, len]. *)
Definition relative (len i : Z) : Z :=
  if i <? 0 then Z.max (len + i) 0 else Z.min i len.

(** [l.slice(start, end)]. *)
Definition slice {A} (l : list A) (start end_ : Z) : list A :=
  let len := Z.of_nat (List.length l) in
  let k := relative len start in
  let final := relative len end_ in
  firstn (Z.to_nat (final - k)) (skipn (Z.to_nat k) l).

(** [l[i]]: [undefined] outside the array. *)
Definition at_index {A} (l : list A) (i : Z) : option A :=
  if i <? 0 then None else nth_error l (Z.to_nat i).

(** [l.filter((_, index) => index !== k)]. *)
Fixpoint filter_index_from {A} (l : list A) (k i : Z) : list A :=
  match l with
  | [] => []
  | x :: l' =>
      if i =? k then filter_index_from l' k (i + 1)
      else x :: filter_index_from l' k (i + 1)
  end.

Definition filter_index_neq {A} (l : list A) (k : Z) : list A :=
  filter_index_from l k 0.

End JS.
Import JS.

(** ** types.ts *)

Inductive AppState := TITLE_INPUT | GENERATING_TITLES | TITLES_DISPLAYED | THUMBNAIL_INPUT.

Inductive Language := en | ar.

(** A file handle of the platform; the code reads only its size. *)
Record File := { size : Z; name : jsstring }.

Record UploadedImage := { file : File; preview : jsstring }.

(** ** Effects: exceptions over a threaded world

    An [async] function that awaits and may throw is a function from the
    world before to an outcome and the world after.  State written before a
    throw stays written, as in the source. *)

Module Eff.

Record Error := mkError { message : jsstring }.

Definition M (W A : Type) : Type := W -> (Error + A) * W.

Definition ret {W A} (a : A) : M W A := fun w => (inr a, w).

Definition throw {W A} (e : Error) : M W A := fun w => (inl e, w).

Definition bind {W A B} (c : M W A) (k : A -> M W B) : M W B :=
  fun w =>
    match c w with
    | (inr a, w') => k a w'
    | (inl e, w') => (inl e, w')
    end.

(** [try { body } catch (e) { handler }] *)
Definition try_catch {W A} (body : M W A) (handler : Error -> M W A) : M W A :=
  fun w =>
    match body w with
    | (inl e, w') => handler e w'
    | r => r
    end.

(** [try { body } finally { fin }] *)
Definition try_finally {W A} (body : M W A) (fin : M W unit) : M W A :=
  fun w =>
    let (r, w') := body w in
    match fin w' with
    | (inr _, w'') => (r, w'')
    | (inl e, w'') => (inl e, w'')
    end.

(** The world a computation leaves. *)
Definition exec {W A} (c : M W A) (w : W) : W := snd (c w).

(** [Promise.all(l.map(f))] for sequentially modelled calls: the first
    rejection rejects the whole. *)
Fixpoint all {W A B} (f : A -> M W B) (l : list A) : M W (list B) :=
  match l with
  | [] => ret []
  | a :: l' => bind (f a) (fun b => bind (all f l') (fun bs => ret (b :: bs)))
  end.

End Eff.

Declare Scope eff_scope.
Delimit Scope eff_scope with eff.
Notation "x <- c1 ;; c2" := (Eff.bind c1 (fun x => c2))
  (at level 61, c1 at next level, right associativity) : eff_scope.
Notation "c1 ;; c2" := (Eff.bind c1 (fun _ => c2))
  (at level 61, right associativity) : eff_scope.

(** ** The hosted model's request and response shapes (the parts the code
    builds and reads) *)

Module genai.

Record Blob := { data : option jsstring; mimeType : option jsstring }.

Record Part := { text : option jsstring; inlineData : option Blob }.

Record Content := { parts : option (list Part) }.

Record Candidate := { content : option Content }.

(** [response.text] is an accessor of the client library; it is kept as a
    field of its own. *)
Record GenerateContentResponse :=
  { candidates : option (list Candidate); response_text : option jsstring }.

Inductive Modality := IMAGE.

(** [{ type: Type.ARRAY, items: { type: Type.STRING } }] *)
Inductive Schema := ARRAY_of_STRING.

Record Config :=
  { responseMimeType : option jsstring;
    responseSchema : option Schema;
    responseModalities : option (list Modality) }.

Inductive Contents :=
| contents_string (prompt : jsstring)
| contents_parts (ps : list Part).

Record GenerateContentParameters :=
  { model : jsstring; contents : Contents; config : option Config }.

(** [{ text: prompt }] and [{ inlineData: { data, mimeType } }] *)
Definition text_part (prompt : jsstring) : Part :=
  {| text := Some prompt; inlineData := None |}.

Definition inline_part (d m : jsstring) : Part :=
  {| text := None; inlineData := Some {| data := Some d; mimeType := Some m |} |}.

(** What [JSON.parse] produces. *)
#[local] Unset Elimination Schemes.
Inductive JSON :=
| JNull
| JBool (b : bool)
| JNumber (n : Z)
| JString (s : jsstring)
| JArray (l : list JSON)
| JObject (l : list (jsstring * JSON)).
#[local] Set Elimination Schemes.

(** The calls made so far, oldest first. *)
Definition Log := list GenerateContentParameters.

(** The hosted model: its answer to a request may depend on the calls that
    came before.  [inl] is a rejected promise. *)
Definition Backend := Log -> GenerateContentParameters -> Eff.Error + GenerateContentResponse.

End genai.

(** ** services/geminiService.ts *)

Module geminiService.
Import Eff genai.
Local Open Scope eff_scope.

Definition isArray (v : JSON) : bool :=
  match v with JArray _ => true | _ => false end.

Definition typeof_string (v : JSON) : bool :=
  match v with JString _ => true | _ => false end.

Definition every_string (v : JSON) : bool :=
  match v with JArray l => forallb typeof_string l | _ => false end.

(** The array, read at type [string[]]. *)
Definition strings (v : JSON) : list jsstring :=
  match v with
  | JArray l => flat_map (fun x => match x with JString s => [s] | _ => [] end) l
  | _ => []
  end.

(** [`${x}`] for [x : string | undefined]. *)
Definition template_opt (o : option jsstring) : jsstring :=
  match o with Some s => s | None => str "undefined" end.

(** The media type and the payload of a data URL, as the code cuts them. *)
Definition mimeType_of (b64 : jsstring) : jsstring :=
  substring b64 (indexOf b64 58%N + 1) (indexOf b64 59%N).

Definition pureBase64_of (b64 : jsstring) : jsstring :=
  substring_from b64 (indexOf b64 44%N + 1).

Definition image_part (b64 : jsstring) : Part :=
  inline_part (pureBase64_of b64) (mimeType_of b64).

(** [response?.candidates?.[0]?.content?.parts?.[0]] *)
Definition first_part (response : GenerateContentResponse) : option Part :=
  match candidates response with
  | None => None
  | Some cs =>
      match at_index cs 0 with
      | None => None
      | Some c =>
          match content c with
          | None => None
          | Some ct =>
              match parts ct with
              | None => None
              | Some ps => at_index ps 0
              end
          end
      end
  end.

Definition json_config : Config :=
  {| responseMimeType := Some (str "application/json");
     responseSchema := Some ARRAY_of_STRING;
     responseModalities := None |}.

Definition image_config : Config :=
  {| responseMimeType := None;
     responseSchema := None;
     responseModalities := Some [IMAGE] |}.

(** *** Request assembly *)

Definition generateTitles_prompt (topic : jsstring) (language : Language) : jsstring :=
  let languagePrompt :=
    match language with
    | ar => str "You are an expert YouTube content strategist specializing in the Middle East and North Africa (MENA) region. Generate 20 diverse, click-worthy YouTube titles in Arabic for the topic"
    | en => str "You are an expert YouTube content strategist. Generate 20 diverse, click-worthy YouTube titles for the topic"
    end in
  languagePrompt ++ str ": " ++ dq ++ topic ++ dq ++ str ". The titles must be under 70 characters, use proven engagement patterns (curiosity gaps, numbers, emotional triggers), and vary in style (how-tos, questions, listicles, bold statements). Ensure they are authentic to the content. Return the result as a JSON array of strings.".

Definition generateTitles_request (topic : jsstring) (language : Language)
  : GenerateContentParameters :=
  {| model := str "gemini-2.5-flash";
     contents := contents_string (generateTitles_prompt topic language);
     config := Some json_config |}.

(** The body of [generateThumbnail] up to the call: the parts pushed and the
    prompt accumulated, in the order of the source. *)
Definition generateThumbnail_parts_prompt
    (title : jsstring) (language : Language) (numSubjects : Z)
    (mainSubject1Base64 mainSubject2Base64 : option jsstring)
    (backgroundImages : list jsstring) (layout : jsstring)
    (styleDescription : option jsstring) (styleStrength : Z)
  : list Part * jsstring :=
  let parts : list Part := [] in
  let prompt := str "**CRITICAL INSTRUCTION**: You are a professional graphic designer creating a complete YouTube thumbnail. The final output image MUST be exactly 1280x720 pixels with a 16:9 aspect ratio." ++ nl ++ nl in
  let prompt := prompt ++ str "The video title is " ++ dq ++ title ++ dq ++ str "." ++ nl ++ nl in
  let prompt :=
    match language with
    | ar => prompt ++ str "**Text Language**: Any text on the thumbnail must be in Arabic. Use a bold, modern, and highly readable Arabic font (like Cairo or Tajawal) suitable for headlines. Render all Arabic text correctly in RTL (right-to-left) format." ++ nl ++ nl
    | en => prompt ++ str "**Text Language**: Any text on the thumbnail must be in English. Use a bold, sans-serif font that's easy to read." ++ nl ++ nl
    end in
  let prompt := prompt ++ str "**Main Subjects**: You are provided with " ++ toString numSubjects ++ str " image(s) of the main subject(s). You MUST use these images in the thumbnail. **CRITICAL RULE: DO NOT alter the facial features, expression, or likeness of the people in these photos.** You may perform background removal, cropping, and place them within the composition, but the person themselves must remain unchanged." ++ nl ++ nl in
  let '(parts, prompt) :=
    match mainSubject1Base64 with
    | Some b64 =>
        if truthy b64
        then (parts ++ [image_part b64], prompt ++ str "- Image 1 is the main subject (or subject 1)." ++ nl)
        else (parts, prompt)
    | None => (parts, prompt)
    end in
  let '(parts, prompt) :=
    match mainSubject2Base64 with
    | Some b64 =>
        if truthy b64 && (numSubjects =? 2)
        then (parts ++ [image_part b64], prompt ++ str "- Image 2 is subject 2." ++ nl)
        else (parts, prompt)
    | None => (parts, prompt)
    end in
  let prompt := prompt ++ nl ++ str "**Layout**: Arrange the subject(s) according to the " ++ dq ++ layout ++ dq ++ str " layout. " in
  let prompt :=
    if strict_eq layout (str "Versus/Comparison") && (numSubjects =? 2)
    then prompt ++ str "Create a composition with the two subjects on opposing sides. "
    else if strict_eq layout (str "Collaboration") && (numSubjects =? 2)
    then prompt ++ str "Place the two subjects side-by-side in a friendly composition. "
    else prompt ++ str "Place the main subject(s) prominently. " in
  let prompt := prompt ++ str "The title text must be placed strategically and be highly visible." ++ nl ++ nl in
  let '(parts, prompt) :=
    if 0 <? Z.of_nat (List.length backgroundImages)
    then (parts ++ map image_part backgroundImages, prompt ++ str "**Provided Background/Context Images**: You are also provided with context images. Integrate them artfully into the background design. They can be faded, blurred, or part of a collage to add depth." ++ nl ++ nl)
    else (parts, prompt) in
  let prompt :=
    match styleDescription with
    | Some styleDescription =>
        if truthy styleDescription
        then prompt ++ str "**Design Style**: Adhere to the following design style with approximately " ++ toString styleStrength ++ str "% strength. This style should influence the colors, text, effects, and overall mood: " ++ nl ++ styleDescription ++ nl ++ nl
        else prompt
    | None => prompt
    end in
  let prompt := prompt ++ str "Remember, generate a polished, professional, complete thumbnail, strictly adhering to the 1280x720 resolution and the rule about not altering the main subjects' faces." in
  (text_part prompt :: parts, prompt).

Definition generateThumbnail_request
    (title : jsstring) (language : Language) (numSubjects : Z)
    (mainSubject1Base64 mainSubject2Base64 : option jsstring)
    (backgroundImages : list jsstring) (layout : jsstring)
    (styleDescription : option jsstring) (styleStrength : Z)
  : GenerateContentParameters :=
  {| model := str "gemini-2.5-flash-image";
     contents :=
       contents_parts
         (fst (generateThumbnail_parts_prompt title language numSubjects
                 mainSubject1Base64 mainSubject2Base64 backgroundImages layout
                 styleDescription styleStrength));
     config := Some image_config |}.

Definition analyzeStyleReferences_request (imagesBase64 : list jsstring)
  : GenerateContentParameters :=
  let imageParts := map image_part imagesBase64 in
  let prompt := str "You are a professional graphic designer specializing in YouTube thumbnails. Analyze the following thumbnail image(s) and extract the core style elements. Provide a concise, bulleted list covering:" ++ nl ++ str "- **Color Palette:** Describe the dominant and accent colors." ++ nl ++ str "- **Typography:** Describe the font style (e.g., bold, sans-serif, handwritten), weight, case (e.g., all caps), and typical placement." ++ nl ++ str "- **Composition:** Describe the layout (e.g., centered subject, rule of thirds, text on left)." ++ nl ++ str "- **Effects & Vibe:** Describe any notable effects like glows, drop shadows, borders, or background styles (e.g., gradient, noisy texture) and the overall mood (e.g., energetic, professional, mysterious)." in
  {| model := str "gemini-2.5-flash";
     contents := contents_parts (text_part prompt :: imageParts);
     config := None |}.

Definition editThumbnail_request
    (currentThumbnailBase64 instruction : jsstring) (language : Language)
  : GenerateContentParameters :=
  let mimeType := mimeType_of currentThumbnailBase64 in
  let pureBase64 := pureBase64_of currentThumbnailBase64 in
  let prompt := str "You are an expert image editor. Take the provided YouTube thumbnail and apply this specific user instruction: " ++ dq ++ instruction ++ dq ++ str ". " ++ nl ++ str "For example, 'change the " ++ (match language with ar => str "Arabic" | en => str "English" end) ++ str " text to red' or 'make the background more vibrant'." ++ nl ++ str "**IMPORTANT**: If the instruction is about the person in the thumbnail (e.g., 'make my face look more excited'), you MUST NOT alter their original facial features. Instead, add effects AROUND them (like energy lines, glows) to convey the emotion. Preserve the original likeness." ++ nl ++ str "The output image must be a modified version of the original, maintaining the exact 1280x720 pixel dimensions and 16:9 aspect ratio." in
  {| model := str "gemini-2.5-flash-image";
     contents := contents_parts [inline_part pureBase64 mimeType; text_part prompt];
     config := Some image_config |}.

Definition getImprovementSuggestions_request (title : jsstring) (language : Language)
  : GenerateContentParameters :=
  let prompt := str "You are a YouTube growth expert. Analyze the video title: " ++ dq ++ title ++ dq ++ str ". " ++ nl ++ str "Provide 3 short, actionable suggestions in " ++ (match language with ar => str "Arabic" | en => str "English" end) ++ str " to improve a thumbnail for this video. " ++ nl ++ str "The suggestions should be phrased as simple commands a user could give to an AI editor for editing the thumbnail. " ++ nl ++ str "For example: " ++ dq ++ str "Add a glowing outline around the text" ++ dq ++ str " or " ++ dq ++ str "Use a brighter, more eye-catching background color" ++ dq ++ str ". " ++ nl ++ str "Return the result as a JSON array of 3 unique string suggestions." in
  {| model := str "gemini-2.5-flash";
     contents := contents_string prompt;
     config := Some json_config |}.

(** *** Response decoding *)

(** The tail shared by [generateThumbnail] and [editThumbnail]: the first
    part of the first candidate, when it carries inline data. *)
Definition decode_image {W} (failure : jsstring) (response : GenerateContentResponse)
  : M W jsstring :=
  let imagePart := first_part response in
  match imagePart with
  | Some p =>
      match inlineData p with
      | Some blob =>
          let base64ImageBytes := template_opt (data blob) in
          ret (str "data:image/png;base64," ++ base64ImageBytes)
      | None => throw (mkError failure)
      end
  | None => throw (mkError failure)
  end.

Definition no_thumbnail : jsstring :=
  str "No thumbnail was generated by the model. The response may have been blocked due to safety settings.".

Definition no_edited_thumbnail : jsstring :=
  str "No edited thumbnail was generated by the model. The response may have been blocked due to safety settings.".

Section Service.

(** The hosted model and the platform's JSON parser ([None]: a
    [SyntaxError]). *)
Variable backend : Backend.
Variable JSON_parse : jsstring -> option JSON.

(** [await ai.models.generateContent(params)]: one request, one answer; the
    request is appended to the log whatever the answer. *)
Definition generateContent (params : GenerateContentParameters)
  : M Log GenerateContentResponse :=
  fun log => (backend log params, log ++ [params]).

(** [response.text.trim()]: a [TypeError] when there is no text. *)
Definition text_trim (response : GenerateContentResponse) : M Log jsstring :=
  match response_text response with
  | Some t => ret (trim t)
  | None => throw (mkError (str "TypeError"))
  end.

(** The [try]/[catch] that parses a list of strings, shared in shape by
    [generateTitles] and [getImprovementSuggestions]. *)
Definition parse_strings (invalid failure jsonText : jsstring) : M Log (list jsstring) :=
  try_catch
    (match JSON_parse jsonText with
     | Some v =>
         if isArray v && every_string v then ret (strings v)
         else throw (mkError invalid)
     | None => throw (mkError (str "SyntaxError"))
     end)
    (fun e => throw (mkError failure)).

Definition generateTitles (topic : jsstring) (language : Language)
  : M Log (list jsstring) :=
  response <- generateContent (generateTitles_request topic language) ;;
  jsonText <- text_trim response ;;
  parse_strings (str "Invalid response format")
    (str "Could not parse the generated titles from the AI. Please try again.")
    jsonText.

Definition generateThumbnail
    (title : jsstring) (language : Language) (numSubjects : Z)
    (mainSubject1Base64 mainSubject2Base64 : option jsstring)
    (backgroundImages : list jsstring) (layout : jsstring)
    (styleDescription : option jsstring) (styleStrength : Z)
  : M Log jsstring :=
  response <- generateContent
                (generateThumbnail_request title language numSubjects
                   mainSubject1Base64 mainSubject2Base64 backgroundImages layout
                   styleDescription styleStrength) ;;
  decode_image no_thumbnail response.

(** Returns [response.text], which may be [undefined]. *)
Definition analyzeStyleReferences (imagesBase64 : list jsstring)
  : M Log (option jsstring) :=
  response <- generateContent (analyzeStyleReferences_request imagesBase64) ;;
  ret (response_text response).

Definition editThumbnail
    (currentThumbnailBase64 instruction : jsstring) (language : Language)
  : M Log jsstring :=
  response <- generateContent
                (editThumbnail_request currentThumbnailBase64 instruction language) ;;
  decode_image no_edited_thumbnail response.

Definition getImprovementSuggestions (title : jsstring) (language : Language)
  : M Log (list jsstring) :=
  response <- generateContent (getImprovementSuggestions_request title language) ;;
  jsonText <- text_trim response ;;
  parse_strings (str "Invalid response format for suggestions.")
    (str "Could not parse suggestions from the AI.")
    jsonText.

End Service.

End geminiService.

(** ** Component state under React

    A component's state is a record; a handler is run on the render it was
    created in: it reads the values of that render (its closure) and its
    [set...] calls write the current state.  [calls] is the log of requests
    sent to the hosted model. *)

Module React.
Import Eff genai.

Record World (S : Type) := { ui : S; calls : Log }.
Arguments ui {S} _.
Arguments calls {S} _.

Definition setState {S} (f : S -> S) : M (World S) unit :=
  fun w => (inr tt, {| ui := f (ui w); calls := calls w |}).

(** Awaiting a service call: it runs on the call log and leaves the
    component state alone. *)
Definition await {S A} (c : M Log A) : M (World S) A :=
  fun w => let (r, log) := c (calls w) in (r, {| ui := ui w; calls := log |}).

(** An event fires a handler of the current render. *)
Definition dispatch {S A} (handler : S -> M (World S) A) : M (World S) A :=
  fun w => handler (ui w) w.

End React.

(** ** components/TitleGenerator.tsx *)

Module TitleGenerator.
Import Eff.

(** The form's own state. *)
Record State :=
  { topic : jsstring; language : Language; copiedIndex : option Z }.

(** [handleSubmit], with the [onGenerate] and [isLoading] props. *)
Definition handleSubmit {W} (onGenerate : jsstring -> Language -> M W unit)
    (isLoading : bool) (s : State) : M W unit :=
  if truthy (trim (topic s)) && negb isLoading
  then onGenerate (topic s) (language s)
  else ret tt.

End TitleGenerator.

(** ** App.tsx *)

Module App.
Import Eff genai React.
Local Open Scope eff_scope.

Record State :=
  { appState : AppState;
    topic : jsstring;
    generatedTitles : list jsstring;
    selectedTitle : option jsstring;
    language : Language;
    error : option jsstring }.

(** The [useState] initial values. *)
Definition initial : State :=
  {| appState := TITLE_INPUT; topic := []; generatedTitles := [];
     selectedTitle := None; language := en; error := None |}.

Definition set_appState (v : AppState) (s : State) : State :=
  {| appState := v; topic := topic s; generatedTitles := generatedTitles s;
     selectedTitle := selectedTitle s; language := language s; error := error s |}.

Definition set_topic (v : jsstring) (s : State) : State :=
  {| appState := appState s; topic := v; generatedTitles := generatedTitles s;
     selectedTitle := selectedTitle s; language := language s; error := error s |}.

Definition set_generatedTitles (v : list jsstring) (s : State) : State :=
  {| appState := appState s; topic := topic s; generatedTitles := v; selectedTitle :=
     selectedTitle s; language := language s; error := error s |}.

Definition set_selectedTitle (v : option jsstring) (s : State) : State :=
  {| appState := appState s; topic := topic s; generatedTitles := generatedTitles s;
     selectedTitle := v; language := language s; error := error s |}.

Definition set_language (v : Language) (s : State) : State :=
  {| appState := appState s; topic := topic s; generatedTitles := generatedTitles s;
     selectedTitle := selectedTitle s; language := v; error := error s |}.

Definition set_error (v : option jsstring) (s : State) : State :=
  {| appState := appState s; topic := topic s; generatedTitles := generatedTitles s;
     selectedTitle := selectedTitle s; language := language s; error := v |}.

Definition setAppState (v : AppState) : M (World State) unit := setState (set_appState v).
Definition setTopic (v : jsstring) : M (World State) unit := setState (set_topic v).
Definition setGeneratedTitles (v : list jsstring) : M (World State) unit := setState (set_generatedTitles v).
Definition setSelectedTitle (v : option jsstring) : M (World State) unit := setState (set_selectedTitle v).
Definition setLanguage (v : Language) : M (World State) unit := setState (set_language v).
Definition setError (v : option jsstring) : M (World State) unit := setState (set_error v).


Section Handlers.

Variable backend : Backend.
Variable JSON_parse : jsstring -> option JSON.

(** [handleGenerateTitles], up to its [await]. *)
Definition handleGenerateTitles_begin (newTopic : jsstring) (lang : Language)
  : M (World State) unit :=
  setTopic newTopic ;;
  setLanguage lang ;;
  setAppState GENERATING_TITLES ;;
  setError None.

(** [handleGenerateTitles], from its [try] on. *)
Definition handleGenerateTitles_settle (newTopic : jsstring) (lang : Language)
  : M (World State) unit :=
  try_catch
    (titles <- await (geminiService.generateTitles backend JSON_parse newTopic lang) ;;
     setGeneratedTitles titles ;;
     setAppState TITLES_DISPLAYED)
    (fun err =>
       setError (Some (str "Failed to generate titles. Please try again.")) ;;
       setAppState TITLE_INPUT).

Definition handleGenerateTitles (newTopic : jsstring) (lang : Language)
  : M (World State) unit :=
  handleGenerateTitles_begin newTopic lang ;;
  handleGenerateTitles_settle newTopic lang.

Definition handleTitleSelect (title : jsstring) : M (World State) unit :=
  setSelectedTitle (Some title) ;;
  setAppState THUMBNAIL_INPUT.

Definition handleStartOver : M (World State) unit :=
  setAppState TITLE_INPUT ;;
  setTopic [] ;;
  setGeneratedTitles [] ;;
  setSelectedTitle None ;;
  setError None.

(** The [onBack] callback handed to the thumbnail workspace. *)
Definition onBack : M (World State) unit :=
  setAppState TITLES_DISPLAYED.

(** A submission of the title form as [renderContent] wires it: the form is
    on screen in every state but the thumbnail workspace, with
    [onGenerate] the title handler and [isLoading] true while titles are
    being generated. *)
Definition submitTitleForm (form : TitleGenerator.State) (s : State)
  : M (World State) unit :=
  match appState s with
  | THUMBNAIL_INPUT => ret tt
  | _ =>
      TitleGenerator.handleSubmit handleGenerateTitles
        (match appState s with GENERATING_TITLES => true | _ => false end)
        form
  end.

End Handlers.

End App.

(** ** components/ThumbnailGenerator.tsx *)

Module ThumbnailGenerator.
Import Eff genai React.
Local Open Scope eff_scope.

Inductive LoadingState := NONE | ANALYZING | GENERATING | EDITING | SUGGESTING.

Inductive LayoutPreset := Default | Versus_Comparison | Collaboration | Explainer.

(** The string each preset is. *)
Definition LayoutPreset_string (p : LayoutPreset) : jsstring :=
  match p with
  | Default => str "Default"
  | Versus_Comparison => str "Versus/Comparison"
  | Collaboration => str "Collaboration"
  | Explainer => str "Explainer"
  end.

Inductive UploadType := main1 | main2 | background | reference.

Record Props := { title : jsstring; language : Language }.

Record State :=
  { numSubjects : Z;
    mainSubject1 : option UploadedImage;
    mainSubject2 : option UploadedImage;
    backgroundImages : list UploadedImage;
    layoutPreset : LayoutPreset;
    referenceFiles : list File;
    referencePreviews : list jsstring;
    analyzedStyle : option jsstring;
    styleStrength : Z;
    thumbnailHistory : list jsstring;
    currentIndex : Z;
    editInstruction : jsstring;
    suggestions : list jsstring;
    loading : LoadingState;
    error : option jsstring }.

(** The [useState] initial values. *)
Definition initial : State :=
  {| numSubjects := 1; mainSubject1 := None; mainSubject2 := None;
     backgroundImages := []; layoutPreset := Default;
     referenceFiles := []; referencePreviews := []; analyzedStyle := None;
     styleStrength := 80;
     thumbnailHistory := []; currentIndex := -1;
     editInstruction := []; suggestions := [];
     loading := NONE; error := None |}.

Definition set_numSubjects (v : Z) (s : State) : State :=
  {| numSubjects := v; mainSubject1 := mainSubject1 s; mainSubject2 := mainSubject2 s;
     backgroundImages := backgroundImages s; layoutPreset := layoutPreset s;
     referenceFiles := referenceFiles s; referencePreviews := referencePreviews s;
     analyzedStyle := analyzedStyle s; styleStrength := styleStrength s;
     thumbnailHistory := thumbnailHistory s; currentIndex := currentIndex s;
     editInstruction := editInstruction s; suggestions := suggestions s; loading :=
     loading s; error := error s |}.

Definition set_mainSubject1 (v : option UploadedImage) (s : State) : State :=
  {| numSubjects := numSubjects s; mainSubject1 := v; mainSubject2 := mainSubject2 s;
     backgroundImages := backgroundImages s; layoutPreset := layoutPreset s;
     referenceFiles := referenceFiles s; referencePreviews := referencePreviews s;
     analyzedStyle := analyzedStyle s; styleStrength := styleStrength s;
     thumbnailHistory := thumbnailHistory s; currentIndex := currentIndex s;
     editInstruction := editInstruction s; suggestions := suggestions s; loading :=
     loading s; error := error s |}.

Definition set_mainSubject2 (v : option UploadedImage) (s : State) : State :=
  {| numSubjects := numSubjects s; mainSubject1 := mainSubject1 s; mainSubject2 := v;
     backgroundImages := backgroundImages s; layoutPreset := layoutPreset s;
     referenceFiles := referenceFiles s; referencePreviews := referencePreviews s;
     analyzedStyle := analyzedStyle s; styleStrength := styleStrength s;
     thumbnailHistory := thumbnailHistory s; currentIndex := currentIndex s;
     editInstruction := editInstruction s; suggestions := suggestions s; loading :=
     loading s; error := error s |}.

Definition set_backgroundImages (v : list UploadedImage) (s : State) : State :=
  {| numSubjects := numSubjects s; mainSubject1 := mainSubject1 s; mainSubject2 :=
     mainSubject2 s; backgroundImages := v; layoutPreset := layoutPreset s;
     referenceFiles := referenceFiles s; referencePreviews := referencePreviews s;
     analyzedStyle := analyzedStyle s; styleStrength := styleStrength s;
     thumbnailHistory := thumbnailHistory s; currentIndex := currentIndex s;
     editInstruction := editInstruction s; suggestions := suggestions s; loading :=
     loading s; error := error s |}.

Definition set_layoutPreset (v : LayoutPreset) (s : State) : State :=
  {| numSubjects := numSubjects s; mainSubject1 := mainSubject1 s; mainSubject2 :=
     mainSubject2 s; backgroundImages := backgroundImages s; layoutPreset := v;
     referenceFiles := referenceFiles s; referencePreviews := referencePreviews s;
     analyzedStyle := analyzedStyle s; styleStrength := styleStrength s;
     thumbnailHistory := thumbnailHistory s; currentIndex := currentIndex s;
     editInstruction := editInstruction s; suggestions := suggestions s; loading :=
     loading s; error := error s |}.

Definition set_referenceFiles (v : list File) (s : State) : State :=
  {| numSubjects := numSubjects s; mainSubject1 := mainSubject1 s; mainSubject2 :=
     mainSubject2 s; backgroundImages := backgroundImages s; layoutPreset :=
     layoutPreset s; referenceFiles := v; referencePreviews := referencePreviews s;
     analyzedStyle := analyzedStyle s; styleStrength := styleStrength s;
     thumbnailHistory := thumbnailHistory s; currentIndex := currentIndex s;
     editInstruction := editInstruction s; suggestions := suggestions s; loading :=
     loading s; error := error s |}.

Definition set_referencePreviews (v : list jsstring) (s : State) : State :=
  {| numSubjects := numSubjects s; mainSubject1 := mainSubject1 s; mainSubject2 :=
     mainSubject2 s; backgroundImages := backgroundImages s; layoutPreset :=
     layoutPreset s; referenceFiles := referenceFiles s; referencePreviews := v;
     analyzedStyle := analyzedStyle s; styleStrength := styleStrength s;
     thumbnailHistory := thumbnailHistory s; currentIndex := currentIndex s;
     editInstruction := editInstruction s; suggestions := suggestions s; loading :=
     loading s; error := error s |}.

Definition set_analyzedStyle (v : option jsstring) (s : State) : State :=
  {| numSubjects := numSubjects s; mainSubject1 := mainSubject1 s; mainSubject2 :=
     mainSubject2 s; backgroundImages := backgroundImages s; layoutPreset :=
     layoutPreset s; referenceFiles := referenceFiles s; referencePreviews :=
     referencePreviews s; analyzedStyle := v; styleStrength := styleStrength s;
     thumbnailHistory := thumbnailHistory s; currentIndex := currentIndex s;
     editInstruction := editInstruction s; suggestions := suggestions s; loading :=
     loading s; error := error s |}.

Definition set_styleStrength (v : Z) (s : State) : State :=
  {| numSubjects := numSubjects s; mainSubject1 := mainSubject1 s; mainSubject2 :=
     mainSubject2 s; backgroundImages := backgroundImages s; layoutPreset :=
     layoutPreset s; referenceFiles := referenceFiles s; referencePreviews :=
     referencePreviews s; analyzedStyle := analyzedStyle s; styleStrength := v;
     thumbnailHistory := thumbnailHistory s; currentIndex := currentIndex s;
     editInstruction := editInstruction s; suggestions := suggestions s; loading :=
     loading s; error := error s |}.

Definition set_thumbnailHistory (v : list jsstring) (s : State) : State :=
  {| numSubjects := numSubjects s; mainSubject1 := mainSubject1 s; mainSubject2 :=
     mainSubject2 s; backgroundImages := backgroundImages s; layoutPreset :=
     layoutPreset s; referenceFiles := referenceFiles s; referencePreviews :=
     referencePreviews s; analyzedStyle := analyzedStyle s; styleStrength :=
     styleStrength s; thumbnailHistory := v; currentIndex := currentIndex s;
     editInstruction := editInstruction s; suggestions := suggestions s; loading :=
     loading s; error := error s |}.

Definition set_currentIndex (v : Z) (s : State) : State :=
  {| numSubjects := numSubjects s; mainSubject1 := mainSubject1 s; mainSubject2 :=
     mainSubject2 s; backgroundImages := backgroundImages s; layoutPreset :=
     layoutPreset s; referenceFiles := referenceFiles s; referencePreviews :=
     referencePreviews s; analyzedStyle := analyzedStyle s; styleStrength :=
     styleStrength s; thumbnailHistory := thumbnailHistory s; currentIndex := v;
     editInstruction := editInstruction s; suggestions := suggestions s; loading :=
     loading s; error := error s |}.

Definition set_editInstruction (v : jsstring) (s : State) : State :=
  {| numSubjects := numSubjects s; mainSubject1 := mainSubject1 s; mainSubject2 :=
     mainSubject2 s; backgroundImages := backgroundImages s; layoutPreset :=
     layoutPreset s; referenceFiles := referenceFiles s; referencePreviews :=
     referencePreviews s; analyzedStyle := analyzedStyle s; styleStrength :=
     styleStrength s; thumbnailHistory := thumbnailHistory s; currentIndex :=
     currentIndex s; editInstruction := v; suggestions := suggestions s; loading :=
     loading s; error := error s |}.

Definition set_suggestions (v : list jsstring) (s : State) : State :=
  {| numSubjects := numSubjects s; mainSubject1 := mainSubject1 s; mainSubject2 :=
     mainSubject2 s; backgroundImages := backgroundImages s; layoutPreset :=
     layoutPreset s; referenceFiles := referenceFiles s; referencePreviews :=
     referencePreviews s; analyzedStyle := analyzedStyle s; styleStrength :=
     styleStrength s; thumbnailHistory := thumbnailHistory s; currentIndex :=
     currentIndex s; editInstruction := editInstruction s; suggestions := v; loading :=
     loading s; error := error s |}.

Definition set_loading (v : LoadingState) (s : State) : State :=
  {| numSubjects := numSubjects s; mainSubject1 := mainSubject1 s; mainSubject2 :=
     mainSubject2 s; backgroundImages := backgroundImages s; layoutPreset :=
     layoutPreset s; referenceFiles := referenceFiles s; referencePreviews :=
     referencePreviews s; analyzedStyle := analyzedStyle s; styleStrength :=
     styleStrength s; thumbnailHistory := thumbnailHistory s; currentIndex :=
     currentIndex s; editInstruction := editInstruction s; suggestions := suggestions s;
     loading := v; error := error s |}.

Definition set_error (v : option jsstring) (s : State) : State :=
  {| numSubjects := numSubjects s; mainSubject1 := mainSubject1 s; mainSubject2 :=
     mainSubject2 s; backgroundImages := backgroundImages s; layoutPreset :=
     layoutPreset s; referenceFiles := referenceFiles s; referencePreviews :=
     referencePreviews s; analyzedStyle := analyzedStyle s; styleStrength :=
     styleStrength s; thumbnailHistory := thumbnailHistory s; currentIndex :=
     currentIndex s; editInstruction := editInstruction s; suggestions := suggestions s;
     loading := loading s; error := v |}.

Definition setNumSubjects (v : Z) : M (World State) unit := setState (set_numSubjects v).
Definition setMainSubject1 (v : option UploadedImage) : M (World State) unit := setState (set_mainSubject1 v).
Definition setMainSubject2 (v : option UploadedImage) : M (World State) unit := setState (set_mainSubject2 v).
Definition setBackgroundImages (v : list UploadedImage) : M (World State) unit := setState (set_backgroundImages v).
Definition setLayoutPreset (v : LayoutPreset) : M (World State) unit := setState (set_layoutPreset v).
Definition setReferenceFiles (v : list File) : M (World State) unit := setState (set_referenceFiles v).
Definition setReferencePreviews (v : list jsstring) : M (World State) unit := setState (set_referencePreviews v).
Definition setAnalyzedStyle (v : option jsstring) : M (World State) unit := setState (set_analyzedStyle v).
Definition setStyleStrength (v : Z) : M (World State) unit := setState (set_styleStrength v).
Definition setThumbnailHistory (v : list jsstring) : M (World State) unit := setState (set_thumbnailHistory v).
Definition setCurrentIndex (v : Z) : M (World State) unit := setState (set_currentIndex v).
Definition setEditInstruction (v : jsstring) : M (World State) unit := setState (set_editInstruction v).
Definition setSuggestions (v : list jsstring) : M (World State) unit := setState (set_suggestions v).
Definition setLoading (v : LoadingState) : M (World State) unit := setState (set_loading v).
Definition setError (v : option jsstring) : M (World State) unit := setState (set_error v).


(** [thumbnailHistory[currentIndex] || null] *)
Definition currentThumbnail (s : State) : option jsstring :=
  match at_index (thumbnailHistory s) (currentIndex s) with
  | Some t => if truthy t then Some t else None
  | None => None
  end.

Definition canUndo (s : State) : bool := 0 <? currentIndex s.

Definition canRedo (s : State) : bool :=
  currentIndex s <? Z.of_nat (List.length (thumbnailHistory s)) - 1.

Definition updateHistory (s : State) (newThumbnail : jsstring) : M (World State) unit :=
  let newHistory := slice (thumbnailHistory s) 0 (currentIndex s + 1) in
  let newHistory := newHistory ++ [newThumbnail] in
  setThumbnailHistory newHistory ;;
  setCurrentIndex (Z.of_nat (List.length newHistory) - 1).

Definition handleUndo (s : State) : M (World State) unit :=
  if canUndo s then setCurrentIndex (currentIndex s - 1) else ret tt.

Definition handleRedo (s : State) : M (World State) unit :=
  if canRedo s then setCurrentIndex (currentIndex s + 1) else ret tt.

Definition handleRemoveReference (indexToRemove : Z) (s : State) : M (World State) unit :=
  let newFiles := filter_index_neq (referenceFiles s) indexToRemove in
  let newPreviews := filter_index_neq (referencePreviews s) indexToRemove in
  setReferenceFiles newFiles ;;
  setReferencePreviews newPreviews ;;
  if truthy_opt (analyzedStyle s) then setAnalyzedStyle None else ret tt.

(** [setBackgroundImages(prev => ...)]: a functional update, on the current
    state. *)
Definition handleRemoveBackgroundImage (indexToRemove : Z) (s : State)
  : M (World State) unit :=
  setState (fun cur =>
    set_backgroundImages (filter_index_neq (backgroundImages cur) indexToRemove) cur).

Section Handlers.

Variable backend : Backend.
Variable JSON_parse : jsstring -> option JSON.

(** The image encoder of [utils/fileUtils]: a data URL, or a failed read. *)
Variable fileToBase64 : File -> Error + jsstring.

Variable props : Props.

Definition encode (f : File) : M (World State) jsstring :=
  fun w => (fileToBase64 f, w).

Definition handleFileChange (files : list File) (type : UploadType) (s : State)
  : M (World State) unit :=
  match files with
  | [] => ret tt
  | file :: _ =>
      match type with
      | reference =>
          let newFiles := slice (referenceFiles s ++ files) 0 3 in
          setReferenceFiles newFiles ;;
          previews <- all encode newFiles ;;
          setReferencePreviews previews ;;
          setAnalyzedStyle None
      | background =>
          newImages <- all (fun file =>
                              preview <- encode file ;;
                              ret {| file := file; preview := preview |}) files ;;
          setState (fun prev =>
            set_backgroundImages (slice (backgroundImages prev ++ newImages) 0 5) prev)
      | _ =>
          if 4 * 1024 * 1024 <? size file
          then setError (Some (str "Image file is too large. Max 4MB."))
          else
            setError None ;;
            preview <- encode file ;;
            let newImage := {| file := file; preview := preview |} in
            (match type with main1 => setMainSubject1 (Some newImage) | _ => ret tt end) ;;
            (match type with main2 => setMainSubject2 (Some newImage) | _ => ret tt end)
      end
  end.

Definition handleAnalyzeStyle (s : State) : M (World State) unit :=
  if Z.of_nat (List.length (referencePreviews s)) =? 0 then ret tt
  else
    setLoading ANALYZING ;;
    setError None ;;
    try_finally
      (try_catch
         (style <- await (geminiService.analyzeStyleReferences backend (referencePreviews s)) ;;
          setAnalyzedStyle style)
         (fun err => setError (Some (str "Failed to analyze style references."))))
      (setLoading NONE).

Definition handleGenerateClick (s : State) : M (World State) unit :=
  if negb (is_object (mainSubject1 s))
     || ((numSubjects s =? 2) && negb (is_object (mainSubject2 s)))
  then setError (Some (str "Please upload all main subject photos."))
  else
    setLoading GENERATING ;;
    setError None ;;
    setSuggestions [] ;;
    try_finally
      (try_catch
         (styleToUse <-
            (if (0 <? Z.of_nat (List.length (referencePreviews s)))
                && negb (truthy_opt (analyzedStyle s))
             then
               styleToUse <- await (geminiService.analyzeStyleReferences backend
                                      (referencePreviews s)) ;;
               setAnalyzedStyle styleToUse ;;
               ret styleToUse
             else ret (analyzedStyle s)) ;;
          let backgroundPreviews := map preview (backgroundImages s) in
          let mainSubject1B64 := option_map preview (mainSubject1 s) in
          let mainSubject2B64 := option_map preview (mainSubject2 s) in
          newThumbnail <- await (geminiService.generateThumbnail backend
                                   (title props) (language props) (numSubjects s)
                                   mainSubject1B64 mainSubject2B64 backgroundPreviews
                                   (LayoutPreset_string (layoutPreset s))
                                   styleToUse (styleStrength s)) ;;
          updateHistory s newThumbnail)
         (fun err => setError (Some (str "Failed to generate thumbnail."))))
      (setLoading NONE).

Definition handleApplyEdit (instruction : jsstring) (s : State) : M (World State) unit :=
  match currentThumbnail s with
  | None => ret tt
  | Some currentThumbnail =>
      if negb (truthy (trim instruction)) then ret tt
      else
        setLoading EDITING ;;
        setError None ;;
        try_finally
          (try_catch
             (newThumbnail <- await (geminiService.editThumbnail backend
                                       currentThumbnail instruction (language props)) ;;
              updateHistory s newThumbnail ;;
              setEditInstruction [])
             (fun err => setError (Some (str "Failed to apply the edit."))))
          (setLoading NONE)
  end.

Definition handleGetSuggestions (s : State) : M (World State) unit :=
  setLoading SUGGESTING ;;
  try_finally
    (try_catch
       (newSuggestions <- await (geminiService.getImprovementSuggestions backend JSON_parse
                                   (title props) (language props)) ;;
        setSuggestions newSuggestions)
       (fun err => ret tt))
    (setLoading NONE).

(** The effect that depends on [currentThumbnail]: it runs after a render in
    which the active thumbnail has changed. *)
Definition currentThumbnail_effect (s : State) : M (World State) unit :=
  if is_object (currentThumbnail s)
     && (Z.of_nat (List.length (suggestions s)) =? 0)
     && match loading s with NONE => true | _ => false end
  then handleGetSuggestions s
  else ret tt.

End Handlers.

End ThumbnailGenerator.

(** ** Notions the properties are stated with *)

Module Notions.
Import Eff genai React.


(** A data URL as the image encoder produces it. *)
Definition dataURL (mime payload : jsstring) : jsstring :=
  str "data:" ++ mime ++ str ";base64," ++ payload.

(** The code unit [c] does not occur in [s]. *)
Definition free_of (c : N) (s : jsstring) : bool :=
  forallb (fun x => negb (x =? c)%N) s.

(** A media type holds none of the separators of a data URL. *)
Definition media_type (mime : jsstring) : bool :=
  free_of 58 mime && free_of 59 mime && free_of 44 mime.

(** Every image payload of a response, in the order returned: the inline
    data of the parts of its candidates. *)
Definition image_payloads (response : GenerateContentResponse) : list Blob :=
  flat_map
    (fun c =>
       match content c with
       | Some ct =>
           flat_map
             (fun p => match inlineData p with Some b => [b] | None => [] end)
             (match parts ct with Some ps => ps | None => [] end)
       | None => []
       end)
    (match candidates response with Some cs => cs | None => [] end).

(** The first returned image payload, read off the whole response. *)
Definition first_image_payload (response : GenerateContentResponse) : option Blob :=
  hd_error (image_payloads response).

(** The data URL the client hands back for an image payload. *)
Definition png_url (b : Blob) : jsstring :=
  str "data:image/png;base64," ++ geminiService.template_opt (data b).

(** The three layout wordings of a thumbnail instruction. *)
Definition opposing : jsstring :=
  str "Create a composition with the two subjects on opposing sides. ".

Definition friendly : jsstring :=
  str "Place the two subjects side-by-side in a friendly composition. ".

Definition prominent : jsstring :=
  str "Place the main subject(s) prominently. ".

Section Workspace.
Import ThumbnailGenerator.

Variable backend : Backend.
Variable props : Props.

(** The history of [s] cut after its cursor, then [newThumbnail], with the
    cursor on this last entry. *)
Definition appended (s : State) (newThumbnail : jsstring) (s' : State) : Prop :=
  thumbnailHistory s' =
    firstn (Z.to_nat (currentIndex s + 1)) (thumbnailHistory s) ++ [newThumbnail]
  /\ currentIndex s' = Z.of_nat (List.length (thumbnailHistory s')) - 1.

(** The generate action passes its input validation. *)
Definition accepted (s : State) : bool :=
  negb (negb (is_object (mainSubject1 s))
        || ((numSubjects s =? 2) && negb (is_object (mainSubject2 s)))).

(** The generate action analyses the style references first. *)
Definition needs_analysis (s : State) : bool :=
  (0 <? Z.of_nat (List.length (referencePreviews s)))
  && negb (truthy_opt (analyzedStyle s)).

(** The thumbnail request the generate action builds from the render [s]. *)
Definition generation_request (s : State) (styleToUse : option jsstring)
  : GenerateContentParameters :=
  geminiService.generateThumbnail_request (title props) (language props) (numSubjects s)
    (option_map preview (mainSubject1 s)) (option_map preview (mainSubject2 s))
    (map preview (backgroundImages s)) (LayoutPreset_string (layoutPreset s))
    styleToUse (styleStrength s).

(** The service call of the generate action. *)
Definition generation (s : State) (styleToUse : option jsstring) : M Log jsstring :=
  geminiService.generateThumbnail backend (title props) (language props) (numSubjects s)
    (option_map preview (mainSubject1 s)) (option_map preview (mainSubject2 s))
    (map preview (backgroundImages s)) (LayoutPreset_string (layoutPreset s))
    styleToUse (styleStrength s).


End Workspace.

End Notions.

(** ** Concrete sessions, for the examples *)

Module Examples.
Import Eff genai React.

Definition A : jsstring := str "data:image/png;base64,QQ==".
Definition B : jsstring := str "data:image/png;base64,Qg==".
Definition C : jsstring := str "data:image/png;base64,Qw==".
Definition D : jsstring := str "data:image/png;base64,RA==".

Definition photo1 : UploadedImage :=
  {| file := {| size := 2048; name := str "host.png" |};
     preview := str "data:image/png;base64,UDE=" |}.

Definition photo2 : UploadedImage :=
  {| file := {| size := 4096; name := str "guest.jpg" |};
     preview := str "data:image/jpeg;base64,UDI=" |}.

Definition reference1 : File := {| size := 512; name := str "style.png" |}.

(** An encoder that reads every file. *)
Definition reads_all (f : File) : Error + jsstring :=
  inr (str "data:image/png;base64," ++ name f).

(** A response whose first candidate holds the given parts. *)
Definition response_of (ps : list Part) : GenerateContentResponse :=
  {| candidates := Some [ {| content := Some {| parts := Some ps |} |} ];
     response_text := None |}.

(** A text-only response. *)
Definition text_response (t : jsstring) : GenerateContentResponse :=
  {| candidates := None; response_text := Some t |}.

(** A model that always answers with one image. *)
Definition paints (payload : jsstring) : Backend :=
  fun _ _ => inr (response_of [inline_part payload (str "image/png")]).

(** A model that rejects every call. *)
Definition refuses : Backend :=
  fun _ _ => inl (mkError (str "503")).

(** A model that comments before it hands over the image. *)
Definition chatty_response : GenerateContentResponse :=
  response_of [text_part (str "Here is your thumbnail.");
               inline_part (str "RA==") (str "image/png")].

Definition chatty : Backend := fun _ _ => inr chatty_response.

(** A model that answers its first call with a list of one title and rejects
    the calls after it. *)
Definition one_title : jsstring := str "[" ++ dq ++ str "Learn React fast" ++ dq ++ str "]".

Definition flaky : Backend :=
  fun log _ =>
    match log with
    | [] => inr (text_response one_title)
    | _ :: _ => inl (mkError (str "503"))
    end.

(** A parser that knows this one text. *)
Definition parse_one_title (t : jsstring) : option JSON :=
  if strict_eq t one_title then Some (JArray [JString (str "Learn React fast")]) else None.

Definition props : ThumbnailGenerator.Props :=
  {| ThumbnailGenerator.title := str "Learn React fast";
     ThumbnailGenerator.language := en |}.

(** A workspace with history [A, B, C], the cursor on [A], one subject
    photo, and a suggestion on display. *)
Definition workspace : ThumbnailGenerator.State :=
  ThumbnailGenerator.set_suggestions [str "Make the text yellow"]
    (ThumbnailGenerator.set_mainSubject1 (Some photo1)
       (ThumbnailGenerator.set_currentIndex 0
          (ThumbnailGenerator.set_thumbnailHistory [A; B; C] ThumbnailGenerator.initial))).

(** Two-subject mode with only the first photo. *)
Definition one_of_two : ThumbnailGenerator.State :=
  ThumbnailGenerator.set_numSubjects 2 workspace.

(** A second photo left over from two-subject mode, and the versus layout,
    after the switch back to one subject. *)
Definition switched_back : ThumbnailGenerator.State :=
  ThumbnailGenerator.set_layoutPreset ThumbnailGenerator.Versus_Comparison
    (ThumbnailGenerator.set_mainSubject2 (Some photo2) workspace).

(** A workspace with one style reference and its analysis. *)
Definition styled : ThumbnailGenerator.State :=
  ThumbnailGenerator.set_analyzedStyle (Some (str "- bold yellow captions"))
    (ThumbnailGenerator.set_referencePreviews [str "data:image/png;base64,style.png"]
       (ThumbnailGenerator.set_referenceFiles [reference1] workspace)).

Definition at_start {S} (s : S) : World S := {| ui := s; calls := [] |}.

End Examples.

(** ** App.tsx: what is rendered *)

Module Render.
Import Eff genai React App.
Local Open Scope eff_scope.

(** The component [renderContent] returns, with the props it passes. *)
Inductive View :=
| TitleGeneratorView (titles : list jsstring) (isLoading : bool)
    (initialTopic : jsstring) (initialLanguage : Language)
| ThumbnailGeneratorView (title : jsstring) (language : Language)
| NoView.

(** [renderContent]: in the workspace state without a usable selected title
    it calls [handleStartOver] and renders nothing. *)
Definition renderContent (s : State) : M (World State) View :=
  match appState s with
  | THUMBNAIL_INPUT =>
      if negb (truthy_opt (selectedTitle s))
      then handleStartOver ;; ret NoView
      else
        ret (ThumbnailGeneratorView
               (match selectedTitle s with Some t => t | None => [] end)
               (language s))
  | _ =>
      ret (TitleGeneratorView (generatedTitles s)
             (match appState s with GENERATING_TITLES => true | _ => false end)
             (topic s) (language s))
  end.

(** The header shows the start-over button. *)
Definition startOverVisible (s : State) : bool :=
  match appState s with TITLE_INPUT => false | _ => true end.

End Render.

(** ** ThumbnailGenerator.tsx: the controls and what they call *)

Module Workflow.
Import Eff genai React ThumbnailGenerator.
Local Open Scope eff_scope.

(** What the user, or React, can fire in the workspace. *)
Inductive Event :=
| ClickSubjects (n : Z)
| ClickLayout (p : LayoutPreset)
| ChangeStrength (v : Z)
| TypeInstruction (t : jsstring)
| ChooseFiles (files : list File) (type : UploadType)
| RemoveReference (k : Z)
| RemoveBackground (k : Z)
| ClickAnalyze
| ClickGenerate
| ClickApplyEdit
| ClickSuggestion (suggestion : jsstring)
| ClickUndo
| ClickRedo
| ThumbnailChanged.

Section Controls.

Variable backend : Backend.
Variable JSON_parse : jsstring -> option JSON.
Variable fileToBase64 : File -> Error + jsstring.
Variable props : Props.

(** The handler each control is wired to, on the render [s]. *)
Definition react (e : Event) (s : State) : M (World State) unit :=
  match e with
  | ClickSubjects n => setNumSubjects n
  | ClickLayout p => setLayoutPreset p
  | ChangeStrength v => setStyleStrength v
  | TypeInstruction t => setEditInstruction t
  | ChooseFiles files type => handleFileChange fileToBase64 files type s
  | RemoveReference k => handleRemoveReference k s
  | RemoveBackground k => handleRemoveBackgroundImage k s
  | ClickAnalyze => handleAnalyzeStyle backend s
  | ClickGenerate => handleGenerateClick backend props s
  | ClickApplyEdit => handleApplyEdit backend props (editInstruction s) s
  | ClickSuggestion suggestion => handleApplyEdit backend props suggestion s
  | ClickUndo => handleUndo s
  | ClickRedo => handleRedo s
  | ThumbnailChanged => currentThumbnail_effect backend JSON_parse props s
  end.

(** One event, handled to its end on the current render. *)
Definition step (e : Event) (w : World State) : World State :=
  exec (dispatch (react e)) w.

(** The worlds a mounted workspace can be in between two events. *)
Inductive reachable : World State -> Prop :=
| reachable_mount (log : Log) : reachable {| ui := initial; calls := log |}
| reachable_step (w : World State) (e : Event) : reachable w -> reachable (step e w).

End Controls.

(** The cursor is on an entry of the history, or the history is empty and
    the cursor is -1. *)
Definition cursor_valid (s : State) : Prop :=
  (thumbnailHistory s = [] /\ currentIndex s = -1)
  \/ 0 <= currentIndex s < Z.of_nat (List.length (thumbnailHistory s)).

(** What holds of the workspace between two events. *)
Record settled (s : State) : Prop :=
  { settled_cursor : cursor_valid s;
    settled_entries : Forall (fun t => truthy t = true) (thumbnailHistory s);
    settled_backgrounds : (List.length (backgroundImages s) <= 5)%nat;
    settled_files : (List.length (referenceFiles s) <= 3)%nat;
    settled_previews : (List.length (referencePreviews s) <= 3)%nat;
    settled_idle : loading s = NONE }.

(** A file the encoder reads, and what it reads of it (nothing of a file it
    cannot read). *)
Definition readable (fileToBase64 : File -> Error + jsstring) (f : File) : bool :=
  match fileToBase64 f with inr _ => true | inl _ => false end.

Definition read (fileToBase64 : File -> Error + jsstring) (f : File) : jsstring :=
  match fileToBase64 f with inr p => p | inl _ => [] end.

(** The image a successful upload makes of a file. *)
Definition uploaded (fileToBase64 : File -> Error + jsstring) (f : File) : UploadedImage :=
  {| file := f; preview := read fileToBase64 f |}.

(** The reference previews are the encodings of the reference files, one
    for one. *)
Definition aligned (fileToBase64 : File -> Error + jsstring) (s : State) : Prop :=
  referencePreviews s = map (read fileToBase64) (referenceFiles s).

(** The list without its entry at index [k], if it has one. *)
Definition without {A} (k : Z) (l : list A) : list A :=
  if k <? 0 then l else firstn (Z.to_nat k) l ++ skipn (S (Z.to_nat k)) l.

(** An encoder that cannot read files above 1 KB. *)
Definition reads_small (f : File) : Error + jsstring :=
  if size f <=? 1024 then inr (str "data:image/png;base64," ++ name f)
  else inl (mkError (str "NotReadableError")).

(** Every code unit of [s] is white space. *)
Definition blank (s : jsstring) : bool := forallb isWhiteSpace s.

(** The style-analysis request for the previews of [s]. *)
Definition analysis_request (s : State) : GenerateContentParameters :=
  geminiService.analyzeStyleReferences_request (referencePreviews s).

(** The history and its cursor are the same before and after. *)
Definition same_history (w w' : World State) : Prop :=
  thumbnailHistory (ui w') = thumbnailHistory (ui w)
  /\ currentIndex (ui w') = currentIndex (ui w).

(** A model that answers with two style notes, then with an image. *)
Definition stylist : Backend :=
  fun log _ =>
    match log with
    | [] => inr {| candidates := None; response_text := Some (str "- bold captions") |}
    | _ :: _ => inr (Examples.response_of [inline_part (str "RA==") (str "image/png")])
    end.

(** A file above the size cap. *)
Definition big_file : File := {| size := 4 * 1024 * 1024 + 1; name := str "big.png" |}.

End Workflow.

(** * Properties

    ** Facts about the JavaScript primitives *)

Module JSFacts.

Lemma strict_eq_spec (s t : jsstring) : strict_eq s t = true <-> s = t.
Proof.
  revert t. induction s as [|a s IH]; intros [|b t]; simpl; try easy.
  rewrite andb_true_iff, N.eqb_eq, IH. split.
  - now intros [-> ->].
  - intros [= -> ->]. now split.
Qed.

Lemma strict_eq_refl (s : jsstring) : strict_eq s s = true.
Proof. now apply strict_eq_spec. Qed.

Lemma startsWith_app (p post : jsstring) : startsWith (p ++ post) p = true.
Proof.
  induction p as [|a p IH]; simpl; [reflexivity|].
  now rewrite N.eqb_refl, IH.
Qed.

Lemma includes_startsWith (s p : jsstring) :
  startsWith s p = true -> includes s p = true.
Proof. intros H. destruct s; simpl; rewrite H; reflexivity. Qed.

Lemma includes_app (pre p post : jsstring) :
  includes (pre ++ p ++ post) p = true.
Proof.
  induction pre as [|a pre IH]; simpl.
  - apply includes_startsWith, startsWith_app.
  - rewrite IH. apply orb_true_r.
Qed.

Lemma startsWith_prefix (p s t : jsstring) :
  startsWith s p = true -> startsWith (s ++ t) p = true.
Proof.
  revert s. induction p as [|a p IH]; intros [|b s]; simpl; try easy.
  intros H. apply andb_true_iff in H as [-> H]. now rewrite (IH _ H).
Qed.

Lemma includes_prefix (s t p : jsstring) :
  includes s p = true -> includes (s ++ t) p = true.
Proof.
  induction s as [|a s IH]; simpl; intros H.
  - rewrite orb_false_r in H. destruct p; [|discriminate].
    destruct t; reflexivity.
  - apply orb_true_iff in H as [H|H].
    + apply (startsWith_prefix _ _ t) in H. simpl in H. rewrite H. reflexivity.
    + rewrite (IH H). apply orb_true_r.
Qed.

Lemma includes_suffix (s t p : jsstring) :
  includes t p = true -> includes (s ++ t) p = true.
Proof.
  intros H. induction s as [|a s IH]; simpl; [destruct t; exact H|].
  rewrite IH. apply orb_true_r.
Qed.

Lemma slice_prefix {A} (l : list A) (e : Z) :
  0 <= e -> slice l 0 e = firstn (Z.to_nat e) l.
Proof.
  intros He. unfold slice, relative.
  change (0 <? 0) with false. cbv iota.
  replace (Z.min 0 (Z.of_nat (List.length l))) with 0 by lia.
  destruct (Z.ltb_spec e 0) as [Hlt|_]; [lia|].
  rewrite Z.sub_0_r. change (skipn (Z.to_nat 0) l) with l.
  destruct (Z.min_spec e (Z.of_nat (List.length l))) as [[_ ->]|[Hle ->]]; [reflexivity|].
  rewrite Nat2Z.id, firstn_all.
  symmetry. apply firstn_all2. lia.
Qed.

End JSFacts.

(** ** Running handlers *)

(** Unfolds the combinators and the state setters of a handler, down to the
    service calls. *)
Ltac run :=
  unfold Eff.exec, Eff.try_finally, Eff.try_catch, Eff.bind, Eff.ret, Eff.throw,
    React.await, React.dispatch, React.setState;
  repeat progress cbn [React.calls React.ui fst snd].

Module EffFacts.
Import Eff genai React Notions.

Section Frame.

Context {S : Type} (R : World S -> World S -> Prop).
Hypothesis R_refl : forall w, R w w.
Hypothesis R_trans : forall w1 w2 w3, R w1 w2 -> R w2 w3 -> R w1 w3.








End Frame.

(** The service layer sends exactly one request per call of
    [generateContent], whatever the answer. *)
Lemma generateContent_log (backend : Backend) (params : GenerateContentParameters) (log : Log) :
  geminiService.generateContent backend params log = (backend log params, log ++ [params]).
Proof. reflexivity. Qed.

End EffFacts.

(** ** Data URLs *)

Module DataURL.
Import genai Notions.

Lemma indexOf_from_app (c : N) (pre post : jsstring) (i : Z) :
  free_of c pre = true ->
  indexOf_from (pre ++ c :: post) c i = i + Z.of_nat (List.length pre).
Proof.
  revert i. induction pre as [|x pre IH]; intros i H; cbn [app indexOf_from].
  - rewrite N.eqb_refl. cbn. lia.
  - cbn in H. apply andb_true_iff in H as [Hx H].
    apply negb_true_iff in Hx. rewrite Hx, (IH _ H).
    cbn [List.length]. lia.
Qed.

Lemma indexOf_app (c : N) (pre post : jsstring) :
  free_of c pre = true ->
  indexOf (pre ++ c :: post) c = Z.of_nat (List.length pre).
Proof. intros H. unfold indexOf. now rewrite indexOf_from_app. Qed.

Lemma free_of_app (c : N) (s t : jsstring) :
  free_of c (s ++ t) = free_of c s && free_of c t.
Proof. apply forallb_app. Qed.

Lemma substring_app (pre mid post : jsstring) :
  substring (pre ++ mid ++ post)
    (Z.of_nat (List.length pre)) (Z.of_nat (List.length pre + List.length mid)) = mid.
Proof.
  unfold substring, clamp. rewrite !length_app.
  set (len := Z.of_nat (List.length pre + (List.length mid + List.length post))).
  replace (Z.min (Z.max (Z.of_nat (List.length pre)) 0) len)
    with (Z.of_nat (List.length pre)) by lia.
  replace (Z.min (Z.max (Z.of_nat (List.length pre + List.length mid)) 0) len)
    with (Z.of_nat (List.length pre + List.length mid)) by lia.
  replace (Z.min (Z.of_nat (List.length pre)) (Z.of_nat (List.length pre + List.length mid)))
    with (Z.of_nat (List.length pre)) by lia.
  replace (Z.max (Z.of_nat (List.length pre)) (Z.of_nat (List.length pre + List.length mid)))
    with (Z.of_nat (List.length pre + List.length mid)) by lia.
  rewrite Nat2Z.id.
  replace (Z.to_nat (Z.of_nat (List.length pre + List.length mid) - Z.of_nat (List.length pre)))
    with (List.length mid) by lia.
  rewrite skipn_app, skipn_all, Nat.sub_diag. cbn [app skipn].
  rewrite firstn_app, firstn_all, Nat.sub_diag. cbn [firstn]. apply app_nil_r.
Qed.

Lemma substring_from_app (pre post : jsstring) :
  substring_from (pre ++ post) (Z.of_nat (List.length pre)) = post.
Proof.
  pose proof (substring_app pre post []) as H. rewrite app_nil_r in H.
  unfold substring_from. rewrite length_app. exact H.
Qed.

(** The code cuts a data URL into its media type and its payload. *)
Lemma image_part_dataURL (mime payload : jsstring) :
  media_type mime = true ->
  geminiService.image_part (dataURL mime payload) = inline_part payload mime.
Proof.
  intros H. unfold media_type in H.
  apply andb_true_iff in H as [H Hcomma]. apply andb_true_iff in H as [Hcolon Hsemi].
  unfold geminiService.image_part, geminiService.mimeType_of, geminiService.pureBase64_of.
  assert (Ecolon : indexOf (dataURL mime payload) 58 = 4).
  { change (dataURL mime payload)
      with (str "data" ++ 58%N :: (mime ++ str ";base64," ++ payload)).
    now rewrite indexOf_app. }
  assert (Esemi : indexOf (dataURL mime payload) 59 = Z.of_nat (5 + List.length mime)).
  { replace (dataURL mime payload)
      with ((str "data:" ++ mime) ++ 59%N :: (str "base64," ++ payload))
      by (unfold dataURL; now rewrite <- app_assoc).
    rewrite indexOf_app, length_app; [reflexivity|].
    rewrite free_of_app, Hsemi. reflexivity. }
  assert (Ecomma : indexOf (dataURL mime payload) 44
                   = Z.of_nat (List.length (str "data:" ++ mime ++ str ";base64")) ).
  { replace (dataURL mime payload)
      with ((str "data:" ++ mime ++ str ";base64") ++ 44%N :: payload)
      by (unfold dataURL; now rewrite <- !app_assoc).
    rewrite indexOf_app; [reflexivity|].
    rewrite !free_of_app, Hcomma. reflexivity. }
  rewrite Ecolon, Esemi, Ecomma. f_equal.
  - replace (Z.of_nat (List.length (str "data:" ++ mime ++ str ";base64")) + 1)
      with (Z.of_nat (List.length (str "data:" ++ mime ++ str ";base64,")))
      by (rewrite !length_app;
          change (List.length (str ";base64,")) with 8%nat;
          change (List.length (str ";base64")) with 7%nat; lia).
    replace (dataURL mime payload) with ((str "data:" ++ mime ++ str ";base64,") ++ payload)
      by (unfold dataURL; now rewrite <- !app_assoc).
    apply substring_from_app.
  - change (4 + 1) with (Z.of_nat (List.length (str "data:"))).
    change (5 + List.length mime)%nat
      with (List.length (str "data:") + List.length mime)%nat.
    apply (substring_app (str "data:") mime (str ";base64," ++ payload)).
Qed.

End DataURL.

(** ** The thumbnail history: append, undo, redo *)

Module History.
Import Eff genai React Notions ThumbnailGenerator.

Ltac go :=
  unfold updateHistory, setNumSubjects, setMainSubject1, setMainSubject2,
    setBackgroundImages, setLayoutPreset, setReferenceFiles, setReferencePreviews,
    setAnalyzedStyle, setStyleStrength, setThumbnailHistory, setCurrentIndex,
    setEditInstruction, setSuggestions, setLoading, setError;
  run.

Lemma updateHistory_appended (s : State) (newThumbnail : jsstring) (w : World State) :
  -1 <= currentIndex s ->
  appended s newThumbnail (ui (exec (updateHistory s newThumbnail) w)).
Proof.
  intros H. unfold appended. go. cbn.
  rewrite JSFacts.slice_prefix by lia. split; reflexivity.
Qed.

Section Actions.

Variable backend : Backend.
Variable props : Props.

Lemma generate_success (s : State) (w : World State)
    (style : option jsstring) (log1 : Log) (newThumbnail : jsstring) :
  -1 <= currentIndex s ->
  accepted s = true ->
  (needs_analysis s = false /\ style = analyzedStyle s /\ log1 = calls w
   \/ needs_analysis s = true
      /\ geminiService.analyzeStyleReferences backend (referencePreviews s) (calls w)
         = (inr style, log1)) ->
  fst (generation backend props s style log1) = inr newThumbnail ->
  appended s newThumbnail (ui (exec (handleGenerateClick backend props s) w)).
Proof.
  intros Hidx Hacc Hstyle Hgen.
  unfold accepted in Hacc. apply negb_true_iff in Hacc.
  unfold handleGenerateClick. rewrite Hacc.
  unfold needs_analysis in Hstyle. unfold generation in Hgen.
  destruct Hstyle as [(Hn & -> & ->)|(Hn & Ha)]; rewrite Hn; go;
    [|rewrite Ha; cbn [calls ui fst snd]];
    destruct (geminiService.generateThumbnail _ _ _ _ _ _ _ _ _ _ _) as [r log'];
    cbn in Hgen; subst r; cbn;
    rewrite JSFacts.slice_prefix by lia; split; reflexivity.
Qed.

Lemma edit_success (s : State) (w : World State) (instruction cur newThumbnail : jsstring) :
  -1 <= currentIndex s ->
  currentThumbnail s = Some cur ->
  truthy (trim instruction) = true ->
  fst (geminiService.editThumbnail backend cur instruction (language props) (calls w))
    = inr newThumbnail ->
  appended s newThumbnail (ui (exec (handleApplyEdit backend props instruction s) w)).
Proof.
  intros Hidx Hcur Htrim Hedit.
  unfold handleApplyEdit. rewrite Hcur, Htrim. cbn [negb]. go.
  destruct (geminiService.editThumbnail _ _ _ _ _) as [r log'].
  cbn in Hedit. subst r. cbn.
  rewrite JSFacts.slice_prefix by lia. split; reflexivity.
Qed.

(** C1.  From any history and any cursor (none, written -1, or an index), a
    generation or an edit whose service call returns [newThumbnail] leaves
    the history cut to the prefix that ends at the cursor, followed by
    [newThumbnail], and the cursor on this new last entry; so does
    [updateHistory] itself.  With history [a, b, c] and the cursor on [a],
    appending [d] gives [a, d] with the cursor on [d]. *)
Theorem append_truncates_after_cursor
    (s : State) (w : World State) (newThumbnail : jsstring) :
  -1 <= currentIndex s ->
  appended s newThumbnail (ui (exec (updateHistory s newThumbnail) w))
  /\ (forall style log1,
        accepted s = true ->
        (needs_analysis s = false /\ style = analyzedStyle s /\ log1 = calls w
         \/ needs_analysis s = true
            /\ geminiService.analyzeStyleReferences backend (referencePreviews s) (calls w)
               = (inr style, log1)) ->
        fst (generation backend props s style log1) = inr newThumbnail ->
        appended s newThumbnail (ui (exec (handleGenerateClick backend props s) w)))
  /\ (forall instruction cur,
        currentThumbnail s = Some cur ->
        truthy (trim instruction) = true ->
        fst (geminiService.editThumbnail backend cur instruction (language props) (calls w))
          = inr newThumbnail ->
        appended s newThumbnail (ui (exec (handleApplyEdit backend props instruction s) w)))
  /\ (forall a b c,
        thumbnailHistory s = [a; b; c] -> currentIndex s = 0 ->
        let s' := ui (exec (updateHistory s newThumbnail) w) in
        thumbnailHistory s' = [a; newThumbnail]
        /\ currentIndex s' = 1
        /\ at_index (thumbnailHistory s') (currentIndex s') = Some newThumbnail).
Proof.
  intros Hidx. split; [|split; [|split]].
  - now apply updateHistory_appended.
  - intros style log1. now apply generate_success.
  - intros instruction cur. now apply edit_success.
  - intros a b c Hh Hc. cbn zeta. go. cbn.
    rewrite JSFacts.slice_prefix by lia. rewrite Hh, Hc. cbn.
    repeat split; reflexivity.
Qed.

End Actions.

(** C1 on the example workspace: history [A, B, C], cursor on [A]; the model
    paints [D]; the generate action leaves [A, D] with the cursor on [D]. *)
Lemma append_truncates_after_cursor_witness :
  -1 <= currentIndex Examples.workspace
  /\ appended Examples.workspace Examples.D
       (ui (exec (handleGenerateClick (Examples.paints (str "RA==")) Examples.props
                    Examples.workspace)
                 (Examples.at_start Examples.workspace)))
  /\ thumbnailHistory
       (ui (exec (updateHistory Examples.workspace Examples.D)
                 (Examples.at_start Examples.workspace)))
     = [Examples.A; Examples.D].
Proof.
  assert (H : -1 <= currentIndex Examples.workspace) by (cbn; lia).
  split; [exact H|].
  pose proof (append_truncates_after_cursor (Examples.paints (str "RA==")) Examples.props
                Examples.workspace (Examples.at_start Examples.workspace) Examples.D H)
    as (_ & Hgen & _ & Hex).
  split.
  - apply (Hgen None []).
    + reflexivity.
    + left. repeat split; reflexivity.
    + vm_compute. reflexivity.
  - apply (Hex Examples.A Examples.B Examples.C); reflexivity.
Defined.

(** C2.  Undo and redo leave the history alone and move the cursor by one
    position exactly when the move stays inside the history: undo steps back
    when the cursor is above 0, redo steps forward when it is below the last
    index.  A cursor inside [0, length-1] stays inside; undo at index 0 and
    redo at the last index change nothing, however often repeated. *)
Theorem undo_redo_within_bounds (w : World State) :
  let s := ui w in
  let last := Z.of_nat (List.length (thumbnailHistory s)) - 1 in
  let u := exec (dispatch handleUndo) w in
  let r := exec (dispatch handleRedo) w in
  thumbnailHistory (ui u) = thumbnailHistory s
  /\ thumbnailHistory (ui r) = thumbnailHistory s
  /\ currentIndex (ui u) = (if 0 <? currentIndex s then currentIndex s - 1 else currentIndex s)
  /\ currentIndex (ui r) = (if currentIndex s <? last then currentIndex s + 1 else currentIndex s)
  /\ (0 <= currentIndex s <= last ->
      0 <= currentIndex (ui u) <= last /\ 0 <= currentIndex (ui r) <= last)
  /\ (currentIndex s = 0 -> forall n, Nat.iter n (exec (dispatch handleUndo)) w = w)
  /\ (currentIndex s = last -> forall n, Nat.iter n (exec (dispatch handleRedo)) w = w).
Proof.
  intros s last u r.
  assert (Hu : currentIndex (ui u)
               = (if 0 <? currentIndex s then currentIndex s - 1 else currentIndex s)
               /\ thumbnailHistory (ui u) = thumbnailHistory s).
  { subst u. unfold dispatch, handleUndo, canUndo, exec. fold s.
    destruct (0 <? currentIndex s); split; reflexivity. }
  assert (Hr : currentIndex (ui r)
               = (if currentIndex s <? last then currentIndex s + 1 else currentIndex s)
               /\ thumbnailHistory (ui r) = thumbnailHistory s).
  { subst r. unfold dispatch, handleRedo, canRedo, exec. fold s. fold last.
    destruct (currentIndex s <? last); split; reflexivity. }
  destruct Hu as [Hu1 Hu2], Hr as [Hr1 Hr2].
  repeat split; try assumption.
  - rewrite Hu1. destruct (Z.ltb_spec 0 (currentIndex s)); lia.
  - rewrite Hu1. destruct (Z.ltb_spec 0 (currentIndex s)); lia.
  - rewrite Hr1. destruct (Z.ltb_spec (currentIndex s) last); lia.
  - rewrite Hr1. destruct (Z.ltb_spec (currentIndex s) last); lia.
  - intros H0 n. induction n as [|n IH]; [reflexivity|].
    rewrite Nat.iter_succ, IH.
    unfold dispatch, handleUndo, canUndo, exec. fold s. rewrite H0. reflexivity.
  - intros Hl n. induction n as [|n IH]; [reflexivity|].
    rewrite Nat.iter_succ, IH.
    unfold dispatch, handleRedo, canRedo, exec. fold s. fold last. rewrite Hl.
    rewrite Z.ltb_irrefl. reflexivity.
Qed.

(** C2 on the example workspace (three entries, cursor on the first): both
    moves stay inside [0, 2], and three undos in a row change nothing. *)
Lemma undo_redo_within_bounds_witness :
  let w := Examples.at_start Examples.workspace in
  0 <= currentIndex (ui w) <= 2
  /\ 0 <= currentIndex (ui (exec (dispatch handleUndo) w)) <= 2
  /\ 0 <= currentIndex (ui (exec (dispatch handleRedo) w)) <= 2
  /\ Nat.iter 3 (exec (dispatch handleUndo)) w = w.
Proof.
  intros w.
  assert (H : 0 <= currentIndex (ui w) <= 2) by (cbn; lia).
  split; [exact H|].
  pose proof (undo_redo_within_bounds w) as (_ & _ & _ & _ & Hin & Hundo & _).
  destruct (Hin H) as [Hu Hr].
  split; [exact Hu|]. split; [exact Hr|].
  apply Hundo. reflexivity.
Defined.

End History.

(** ** The session: title generation and start over *)

Module Session.
Import Eff genai React Notions App.

Ltac go :=
  unfold handleGenerateTitles, handleGenerateTitles_begin, handleGenerateTitles_settle,
    handleStartOver, handleTitleSelect,
    setAppState, setTopic, setGeneratedTitles, setSelectedTitle, setLanguage, setError;
  run.

(** C3, as the code has it.  Submitting title generation first shows
    GENERATING_TITLES with the error cleared and no request sent yet; then
    exactly one title request is made.  When it returns titles the session
    is TITLES_DISPLAYED with these titles stored; when it fails the session
    is back in TITLE_INPUT with the error message set and the list of titles
    as it was before the submission. *)
Theorem title_generation_outcomes
    (backend : Backend) (JSON_parse : jsstring -> option JSON)
    (newTopic : jsstring) (lang : Language) (w : World State) :
  let busy := exec (handleGenerateTitles_begin newTopic lang) w in
  let done := exec (handleGenerateTitles backend JSON_parse newTopic lang) w in
  let request := geminiService.generateTitles_request newTopic lang in
  ui busy = {| appState := GENERATING_TITLES; topic := newTopic;
               generatedTitles := generatedTitles (ui w);
               selectedTitle := selectedTitle (ui w);
               language := lang; error := None |}
  /\ calls busy = calls w
  /\ done = exec (handleGenerateTitles_settle backend JSON_parse newTopic lang) busy
  /\ calls done = calls w ++ [request]
  /\ ui done =
       match fst (geminiService.generateTitles backend JSON_parse newTopic lang (calls w)) with
       | inr titles =>
           {| appState := TITLES_DISPLAYED; topic := newTopic;
              generatedTitles := titles;
              selectedTitle := selectedTitle (ui w);
              language := lang; error := None |}
       | inl _ =>
           {| appState := TITLE_INPUT; topic := newTopic;
              generatedTitles := generatedTitles (ui w);
              selectedTitle := selectedTitle (ui w);
              language := lang;
              error := Some (str "Failed to generate titles. Please try again.") |}
       end.
Proof.
  cbn zeta. split; [reflexivity|]. split; [reflexivity|]. split; [reflexivity|].
  go.
  assert (Hlog : snd (geminiService.generateTitles backend JSON_parse newTopic lang (calls w))
                 = calls w ++ [geminiService.generateTitles_request newTopic lang]).
  { unfold geminiService.generateTitles, geminiService.text_trim,
      geminiService.parse_strings, geminiService.generateContent.
    run.
    destruct (backend (calls w) _) as [e|response]; [reflexivity|].
    destruct (response_text response) as [t|]; [|reflexivity].
    destruct (JSON_parse (trim t)) as [v|]; [|reflexivity].
    destruct (geminiService.isArray v && geminiService.every_string v); reflexivity. }
  destruct (geminiService.generateTitles backend JSON_parse newTopic lang (calls w))
    as [[e|titles] log]; cbn in Hlog |- *; subst log; split; reflexivity.
Qed.

(** C3 as stated fails: after one successful generation, a second
    submission of the title form that fails returns to TITLE_INPUT with the
    error set, and the titles of the first generation are still there. *)
Lemma failed_regeneration_keeps_titles :
  let submit topic :=
    dispatch (submitTitleForm Examples.flaky Examples.parse_one_title
                {| TitleGenerator.topic := topic; TitleGenerator.language := en;
                   TitleGenerator.copiedIndex := None |}) in
  let w1 := exec (submit (str "React")) (Examples.at_start initial) in
  let w2 := exec (submit (str "React hooks")) w1 in
  w1 = exec (handleGenerateTitles Examples.flaky Examples.parse_one_title
               (str "React") en) (Examples.at_start initial)
  /\ w2 = exec (handleGenerateTitles Examples.flaky Examples.parse_one_title
                  (str "React hooks") en) w1
  /\ appState (ui w1) = TITLES_DISPLAYED
  /\ appState (ui w2) = TITLE_INPUT
  /\ error (ui w2) <> None
  /\ generatedTitles (ui w2) = [str "Learn React fast"]
  /\ generatedTitles (ui w2) <> [].
Proof.
  vm_compute. repeat split; discriminate.
Qed.

(** C6, as the code has it.  From any session, start over leaves
    TITLE_INPUT with the topic empty, no titles, no selected title and no
    error; the language stays as it was, and no request is sent. *)
Theorem start_over_resets (w : World State) :
  handleStartOver w =
    (inr tt,
     {| ui := {| appState := TITLE_INPUT; topic := []; generatedTitles := [];
                 selectedTitle := None; language := language (ui w);
                 error := None |};
        calls := calls w |}).
Proof. reflexivity. Qed.

(** C6 as stated fails: once titles were generated in Arabic, start over
    does not bring the language back to its initial value. *)
Lemma start_over_keeps_language :
  let w1 := exec (handleGenerateTitles Examples.flaky Examples.parse_one_title
                    (str "React") ar) (Examples.at_start initial) in
  let w2 := exec handleStartOver w1 in
  language initial = en
  /\ language (ui w2) = ar
  /\ ui w2 <> initial.
Proof.
  vm_compute. repeat split; discriminate.
Qed.

End Session.

(** ** The workspace: validation, suggestions, style references *)

Module Workspace.
Import Eff genai React Notions ThumbnailGenerator.

Ltac go :=
  unfold updateHistory, setNumSubjects, setMainSubject1, setMainSubject2,
    setBackgroundImages, setLayoutPreset, setReferenceFiles, setReferencePreviews,
    setAnalyzedStyle, setStyleStrength, setThumbnailHistory, setCurrentIndex,
    setEditInstruction, setSuggestions, setLoading, setError;
  run.




Section Actions.

Variable backend : Backend.
Variable props : Props.
Variable JSON_parse : jsstring -> option JSON.
Variable fileToBase64 : File -> Error + jsstring.





(** C4.  Without a first subject photo, or in two-subject mode without the
    second one, the generate action only sets the validation message: no
    request is sent and the history and its cursor are as before. *)
Theorem generate_rejected_without_photos (s : State) (w : World State) :
  mainSubject1 s = None \/ (numSubjects s = 2 /\ mainSubject2 s = None) ->
  let w' := exec (handleGenerateClick backend props s) w in
  calls w' = calls w
  /\ error (ui w') = Some (str "Please upload all main subject photos.")
  /\ thumbnailHistory (ui w') = thumbnailHistory (ui w)
  /\ currentIndex (ui w') = currentIndex (ui w)
  /\ ui w' = set_error (Some (str "Please upload all main subject photos.")) (ui w).
Proof.
  intros H. cbn zeta.
  assert (Hv : negb (is_object (mainSubject1 s))
               || ((numSubjects s =? 2) && negb (is_object (mainSubject2 s))) = true).
  { destruct H as [->|[-> ->]]; [reflexivity|]. apply orb_true_r. }
  unfold handleGenerateClick. rewrite Hv. repeat split; reflexivity.
Qed.










End Actions.

(** C4 on the example workspace in two-subject mode with one photo. *)
Lemma generate_rejected_without_photos_witness :
  let s := Examples.one_of_two in
  let w' := exec (handleGenerateClick (Examples.paints (str "RA==")) Examples.props s)
              (Examples.at_start s) in
  (numSubjects s = 2 /\ mainSubject2 s = None)
  /\ calls w' = []
  /\ error (ui w') = Some (str "Please upload all main subject photos.")
  /\ thumbnailHistory (ui w') = [Examples.A; Examples.B; Examples.C].
Proof.
  intros s w'.
  assert (H : numSubjects s = 2 /\ mainSubject2 s = None) by (split; reflexivity).
  split; [exact H|].
  destruct (generate_rejected_without_photos (Examples.paints (str "RA==")) Examples.props
              s (Examples.at_start s) (or_intror H)) as (Hc & He & Hh & _).
  split; [exact Hc|]. split; [exact He|]. exact Hh.
Defined.



End Workspace.

(** ** Style references and the cached analysis *)

Module StyleReferences.
Import Eff genai React Notions ThumbnailGenerator.

Ltac go :=
  unfold setReferenceFiles, setReferencePreviews, setAnalyzedStyle, setError; run.

Section Encoder.

Variable fileToBase64 : File -> Error + jsstring.





End Encoder.



End StyleReferences.

(** ** The generation client: image calls *)

Module ImageCalls.
Import Eff genai React Notions.

(** The first part of the first candidate, when it is an image payload, is
    the first image payload of the response. *)
Lemma first_part_is_first_payload (response : GenerateContentResponse) (p : Part) (b : Blob) :
  geminiService.first_part response = Some p ->
  inlineData p = Some b ->
  first_image_payload response = Some b.
Proof.
  unfold geminiService.first_part, first_image_payload, image_payloads.
  destruct (candidates response) as [[|c cs]|]; cbn; try discriminate.
  destruct (content c) as [ct|]; try discriminate.
  destruct (parts ct) as [[|q ps]|]; cbn; try discriminate.
  intros [= ->] ->. reflexivity.
Qed.

Lemma decode_image_spec {W} (failure : jsstring) (response : GenerateContentResponse) (w : W) :
  (forall p b,
      geminiService.first_part response = Some p -> inlineData p = Some b ->
      geminiService.decode_image failure response w = (inr (png_url b), w))
  /\ (geminiService.first_part response = None
      \/ (exists p, geminiService.first_part response = Some p /\ inlineData p = None) ->
      geminiService.decode_image failure response w = (inl (mkError failure), w)).
Proof.
  unfold geminiService.decode_image. split.
  - intros p b -> ->. reflexivity.
  - intros [->|(p & -> & ->)]; reflexivity.
Qed.

Lemma no_payload_no_image_part (response : GenerateContentResponse) :
  image_payloads response = [] ->
  geminiService.first_part response = None
  \/ (exists p, geminiService.first_part response = Some p /\ inlineData p = None).
Proof.
  intros H. destruct (geminiService.first_part response) as [p|] eqn:Ep; [|now left].
  right. exists p. split; [reflexivity|].
  destruct (inlineData p) as [b|] eqn:Eb; [|reflexivity].
  pose proof (first_part_is_first_payload response p b Ep Eb) as F.
  unfold first_image_payload in F. rewrite H in F. discriminate.
Qed.

Section Client.

Variable backend : Backend.

(** C7, as the code has it.  A thumbnail generation and a thumbnail edit
    each send exactly one request, whatever the answer: nothing is retried.
    A rejected call is passed on.  When the first part of the first
    candidate is an image payload (it is then the first image payload of the
    response) the call returns it as a PNG data URL; when that part is
    missing or is not an image, and so whenever the response has no image
    payload at all, the call fails with the no-output error. *)
Theorem image_call_reads_first_part
    (log : Log) (title : jsstring) (language : Language) (numSubjects : Z)
    (mainSubject1Base64 mainSubject2Base64 : option jsstring)
    (backgroundImages : list jsstring) (layout : jsstring)
    (styleDescription : option jsstring) (styleStrength : Z)
    (currentThumbnailBase64 instruction : jsstring) :
  let generate :=
    geminiService.generateThumbnail backend title language numSubjects
      mainSubject1Base64 mainSubject2Base64 backgroundImages layout
      styleDescription styleStrength log in
  let generate_request :=
    geminiService.generateThumbnail_request title language numSubjects
      mainSubject1Base64 mainSubject2Base64 backgroundImages layout
      styleDescription styleStrength in
  let edit := geminiService.editThumbnail backend currentThumbnailBase64 instruction language log in
  let edit_request :=
    geminiService.editThumbnail_request currentThumbnailBase64 instruction language in
  let reads (failure : jsstring) (answer : Error + GenerateContentResponse)
            (result : Error + jsstring) : Prop :=
    (forall e, answer = inl e -> result = inl e)
    /\ (forall response p b,
          answer = inr response ->
          geminiService.first_part response = Some p -> inlineData p = Some b ->
          first_image_payload response = Some b /\ result = inr (png_url b))
    /\ (forall response,
          answer = inr response ->
          geminiService.first_part response = None
          \/ (exists p, geminiService.first_part response = Some p /\ inlineData p = None) ->
          result = inl (mkError failure))
    /\ (forall response,
          answer = inr response -> image_payloads response = [] ->
          result = inl (mkError failure)) in
  snd generate = log ++ [generate_request]
  /\ snd edit = log ++ [edit_request]
  /\ reads geminiService.no_thumbnail (backend log generate_request) (fst generate)
  /\ reads geminiService.no_edited_thumbnail (backend log edit_request) (fst edit).
Proof.
  cbn zeta.
  assert (G : forall failure request,
             let call := bind (geminiService.generateContent backend request)
                              (geminiService.decode_image failure) log in
             snd call = log ++ [request]
             /\ (forall e, backend log request = inl e -> fst call = inl e)
             /\ (forall response p b,
                   backend log request = inr response ->
                   geminiService.first_part response = Some p -> inlineData p = Some b ->
                   first_image_payload response = Some b /\ fst call = inr (png_url b))
             /\ (forall response,
                   backend log request = inr response ->
                   geminiService.first_part response = None
                   \/ (exists p, geminiService.first_part response = Some p
                                 /\ inlineData p = None) ->
                   fst call = inl (mkError failure))
             /\ (forall response,
                   backend log request = inr response -> image_payloads response = [] ->
                   fst call = inl (mkError failure))).
  { intros failure request. cbn zeta.
    unfold bind. rewrite EffFacts.generateContent_log.
    destruct (backend log request) as [e|response] eqn:E; cbv beta iota.
    - repeat split; try discriminate. now intros e' [= ->].
    - destruct (@decode_image_spec Log failure response (log ++ [request])) as [Hok Hfail].
      split; [|split; [|split; [|split]]].
      + destruct (geminiService.first_part response) as [p|] eqn:Ep.
        * destruct (inlineData p) as [b|] eqn:Eb.
          -- now rewrite (Hok p b).
          -- rewrite Hfail; [reflexivity|]. right. now exists p.
        * rewrite Hfail; [reflexivity|]. now left.
      + discriminate.
      + intros r p b [= <-] Ep Eb. split.
        * now apply (first_part_is_first_payload response p b).
        * now rewrite (Hok p b).
      + intros r [= <-] H. now rewrite Hfail.
      + intros r [= <-] H. rewrite Hfail; [reflexivity|].
        now apply no_payload_no_image_part. }
  destruct (G geminiService.no_thumbnail
              (geminiService.generateThumbnail_request title language numSubjects
                 mainSubject1Base64 mainSubject2Base64 backgroundImages layout
                 styleDescription styleStrength)) as (G1 & G2).
  destruct (G geminiService.no_edited_thumbnail
              (geminiService.editThumbnail_request currentThumbnailBase64 instruction language))
    as (E1 & E2).
  split; [exact G1|]. split; [exact E1|]. split; [exact G2|exact E2].
Qed.

End Client.

(** C7 on a model that paints: the one part of its answer is the image, and
    both calls return it; a model that rejects is passed on after one
    request. *)
Lemma image_call_reads_first_part_witness :
  let response := Examples.response_of [inline_part (str "RA==") (str "image/png")] in
  Examples.paints (str "RA==") []
    (geminiService.editThumbnail_request Examples.A (str "make the text yellow") en)
    = inr response
  /\ fst (geminiService.editThumbnail (Examples.paints (str "RA==")) Examples.A
            (str "make the text yellow") en [])
     = inr (png_url {| data := Some (str "RA=="); mimeType := Some (str "image/png") |})
  /\ snd (geminiService.editThumbnail (Examples.paints (str "RA==")) Examples.A
            (str "make the text yellow") en [])
     = [geminiService.editThumbnail_request Examples.A (str "make the text yellow") en].
Proof.
  intros response.
  destruct (image_call_reads_first_part (Examples.paints (str "RA==")) []
              (str "Learn React fast") en 1 None None [] (str "Default") None 80
              Examples.A (str "make the text yellow"))
    as (_ & Hlog & _ & (_ & Hok & _)).
  split; [reflexivity|]. split; [|exact Hlog].
  apply (Hok response (inline_part (str "RA==") (str "image/png"))); reflexivity.
Defined.

(** C7 as stated fails: the answer holds an image payload, after a text
    part; both calls fail with the no-output error instead of returning
    it. *)
Lemma image_after_text_is_not_returned :
  first_image_payload Examples.chatty_response
    = Some {| data := Some (str "RA=="); mimeType := Some (str "image/png") |}
  /\ fst (geminiService.generateThumbnail Examples.chatty (str "Learn React fast") en 1
            (Some (preview Examples.photo1)) None [] (str "Default") None 80 [])
     = inl (mkError geminiService.no_thumbnail)
  /\ fst (geminiService.editThumbnail Examples.chatty Examples.A
            (str "make the text yellow") en [])
     = inl (mkError geminiService.no_edited_thumbnail).
Proof.
  vm_compute. repeat split.
Qed.

End ImageCalls.

(** ** The prompt assembler: thumbnail requests *)

Module ThumbnailPrompt.
Import Eff genai React Notions.

Lemma includes_refl (p : jsstring) : includes p p = true.
Proof.
  rewrite <- (app_nil_r p) at 1. apply (JSFacts.includes_app [] p []).
Qed.

Lemma includes_head (p r : jsstring) : includes (p ++ r) p = true.
Proof. apply (JSFacts.includes_app [] p r). Qed.

Lemma startsWith_split (s p : jsstring) :
  startsWith s p = true -> exists post, s = p ++ post.
Proof.
  revert s. induction p as [|a p IH]; intros s H; [now exists s|].
  destruct s as [|b s]; [discriminate|]. cbn in H.
  apply andb_true_iff in H as [Hab H]. apply N.eqb_eq in Hab. subst b.
  destruct (IH s H) as [post ->]. now exists post.
Qed.

Lemma includes_split (s p : jsstring) :
  includes s p = true -> exists pre post, s = pre ++ p ++ post.
Proof.
  induction s as [|a s IH]; cbn [includes]; intros H.
  - rewrite orb_false_r in H. destruct (startsWith_split [] p H) as [post E].
    now exists [], post.
  - apply orb_true_iff in H as [H|H].
    + destruct (startsWith_split _ _ H) as [post E]. now exists [], post.
    + destruct (IH H) as (pre & post & ->). now exists (a :: pre), post.
Qed.

Lemma includes_trans (s m t : jsstring) :
  includes s m = true -> includes m t = true -> includes s t = true.
Proof.
  intros H1 H2.
  destruct (includes_split _ _ H1) as (pre & post & ->).
  destruct (includes_split _ _ H2) as (pre' & post' & ->).
  rewrite <- !app_assoc. rewrite app_assoc. apply JSFacts.includes_app.
Qed.

(** *** What is in the prompt stays in it under the later steps *)

Lemma includes_language (language : Language) (x a b t : jsstring) :
  includes x t = true ->
  includes (match language with ar => x ++ a | en => x ++ b end) t = true.
Proof. intros H. destruct language; now apply JSFacts.includes_prefix. Qed.

Lemma includes_layout (c1 c2 : bool) (x a b c t : jsstring) :
  includes x t = true ->
  includes (if c1 then x ++ a else if c2 then x ++ b else x ++ c) t = true.
Proof. intros H. destruct c1, c2; now apply JSFacts.includes_prefix. Qed.

Lemma includes_style (o : option jsstring) (x : jsstring) (f : jsstring -> jsstring)
    (t : jsstring) :
  includes x t = true ->
  includes (match o with
            | Some s => if truthy s then x ++ f s else x
            | None => x
            end) t = true.
Proof.
  intros H. destruct o as [s|]; [destruct (truthy s)|]; trivial.
  now apply JSFacts.includes_prefix.
Qed.

(** Finds a segment in a prompt built by appending: steps over the later
    appends and goes into the one that mentions the segment. *)
Ltac find_segment :=
  repeat match goal with
  | |- includes ?p ?p = true => apply includes_refl
  | |- includes (?p ++ _) ?p = true => apply includes_head
  | |- includes (match ?l with ar => ?x ++ ?a | en => ?x ++ ?b end) ?t = true =>
      apply (includes_language l x a b t)
  | |- includes (if ?c1 then ?x ++ ?a else if ?c2 then ?x ++ ?b else ?x ++ ?c) ?t = true =>
      apply (includes_layout c1 c2 x a b c t)
  | |- includes (match ?o with
                 | Some s => if truthy s then ?x ++ @?f s else ?x
                 | None => ?x
                 end) ?t = true =>
      apply (includes_style o x f t)
  | |- includes (?x ++ ?y) ?p = true =>
      match y with
      | context [p] => apply JSFacts.includes_suffix
      | _ => apply JSFacts.includes_prefix
      end
  end.

(** Splits the assembler into the cases of the steps that push parts. *)
(** Names the literals, so that the case analysis works on small terms. *)
Ltac name_literals :=
  repeat match goal with
  | |- context [str ?s] => let L := fresh "L" in set (L := str s) in *; clearbody L
  end.

Ltac cases ms1 ms2 n bgs :=
  unfold geminiService.generateThumbnail_parts_prompt;
  name_literals;
  let b1 := fresh "b" in
  let b2 := fresh "b" in
  destruct ms1 as [b1|]; [destruct (truthy b1)|];
  (destruct ms2 as [b2|]; [destruct (truthy b2 && (n =? 2))|]);
  destruct (0 <? Z.of_nat (List.length bgs));
  cbv beta iota zeta; cbn [fst snd].

Section Request.

Variables (title : jsstring) (language : Language) (numSubjects : Z).
Variables (mainSubject1Base64 mainSubject2Base64 : option jsstring).
Variables (backgroundImages : list jsstring) (layout : jsstring).
Variables (styleDescription : option jsstring) (styleStrength : Z).

Let assembled :=
  geminiService.generateThumbnail_parts_prompt title language numSubjects
    mainSubject1Base64 mainSubject2Base64 backgroundImages layout
    styleDescription styleStrength.

Lemma prompt_is_first_part : hd_error (fst assembled) = Some (text_part (snd assembled)).
Proof.
  subst assembled.
  cases mainSubject1Base64 mainSubject2Base64 numSubjects backgroundImages; reflexivity.
Qed.

Lemma title_embedded : includes (snd assembled) title = true.
Proof.
  subst assembled.
  cases mainSubject1Base64 mainSubject2Base64 numSubjects backgroundImages;
    find_segment.
Qed.

Lemma layout_wording :
  includes (snd assembled)
    (if strict_eq layout (str "Versus/Comparison") && (numSubjects =? 2) then opposing
     else if strict_eq layout (str "Collaboration") && (numSubjects =? 2) then friendly
     else prominent) = true.
Proof.
  subst assembled. unfold opposing, friendly, prominent.
  cases mainSubject1Base64 mainSubject2Base64 numSubjects backgroundImages;
    repeat match goal with
    | |- includes _ (if ?c then _ else _) = true => destruct c
    end;
    find_segment.
Qed.

Lemma both_subjects_pushed (a b : jsstring) :
  numSubjects = 2 ->
  mainSubject1Base64 = Some a -> mainSubject2Base64 = Some b ->
  truthy a = true -> truthy b = true ->
  fst assembled
  = text_part (snd assembled)
      :: geminiService.image_part a :: geminiService.image_part b
      :: map geminiService.image_part backgroundImages.
Proof.
  subst assembled. intros Hn H1 H2 Ha Hb.
  unfold geminiService.generateThumbnail_parts_prompt. name_literals.
  rewrite H1, H2, Ha, Hb, Hn. cbn [andb Z.eqb Pos.eqb].
  destruct backgroundImages as [|x l]; reflexivity.
Qed.

Lemma second_subject_ignored :
  numSubjects <> 2 ->
  assembled
  = geminiService.generateThumbnail_parts_prompt title language numSubjects
      mainSubject1Base64 None backgroundImages layout styleDescription styleStrength.
Proof.
  subst assembled. intros Hn. apply Z.eqb_neq in Hn.
  unfold geminiService.generateThumbnail_parts_prompt. name_literals.
  destruct mainSubject2Base64 as [b|]; [|reflexivity].
  rewrite Hn, andb_false_r. reflexivity.
Qed.

Lemma second_subject_line (b : jsstring) :
  numSubjects = 2 -> mainSubject2Base64 = Some b -> truthy b = true ->
  In (geminiService.image_part b) (fst assembled)
  /\ includes (snd assembled) (str "- Image 2 is subject 2.") = true.
Proof.
  subst assembled. intros Hn H2 Hb.
  unfold geminiService.generateThumbnail_parts_prompt. name_literals.
  rewrite H2, Hb, Hn. cbn [andb Z.eqb Pos.eqb].
  destruct mainSubject1Base64 as [a|]; [destruct (truthy a)|];
    destruct (0 <? Z.of_nat (List.length backgroundImages));
    cbv beta iota zeta; cbn [fst snd]; (split; [|find_segment]);
    cbn [app In]; rewrite ?in_app_iff; cbn [In]; tauto.
Qed.

Lemma one_subject_counted :
  numSubjects = 1 ->
  includes (snd assembled)
    (str "You are provided with 1 image(s) of the main subject(s).") = true.
Proof.
  subst assembled. intros Hn. rewrite Hn.
  assert (H : includes
                (str "**Main Subjects**: You are provided with " ++ toString 1 ++ str " image(s) of the main subject(s). You MUST use these images in the thumbnail. **CRITICAL RULE: DO NOT alter the facial features, expression, or likeness of the people in these photos.** You may perform background removal, cropping, and place them within the composition, but the person themselves must remain unchanged." ++ nl ++ nl)
                (str "You are provided with 1 image(s) of the main subject(s).") = true)
    by (vm_compute; reflexivity).
  revert H.
  cases mainSubject1Base64 mainSubject2Base64 1 backgroundImages;
    intros H; (eapply includes_trans; [|exact H]); find_segment.
Qed.

End Request.

(** C8, as the code has it.  The instruction is the first part of the
    request and embeds the title text as given.  With the versus preset and
    two subjects it has the opposing-sides wording; with the collaboration
    preset and two subjects the friendly side-by-side wording; in every other
    case, a subject count other than two included, the prominent-placement
    wording.  With two subjects, both supplied subject images follow the
    instruction in the request, each cut into media type and payload. *)
Theorem layout_wording_needs_two_subjects
    (title : jsstring) (language : Language) (numSubjects : Z)
    (mainSubject1Base64 mainSubject2Base64 : option jsstring)
    (backgroundImages : list jsstring) (layout : jsstring)
    (styleDescription : option jsstring) (styleStrength : Z) :
  let assembled :=
    geminiService.generateThumbnail_parts_prompt title language numSubjects
      mainSubject1Base64 mainSubject2Base64 backgroundImages layout
      styleDescription styleStrength in
  hd_error (fst assembled) = Some (text_part (snd assembled))
  /\ includes (snd assembled) title = true
  /\ (layout = str "Versus/Comparison" -> numSubjects = 2 ->
      includes (snd assembled) opposing = true)
  /\ (layout = str "Collaboration" -> numSubjects = 2 ->
      includes (snd assembled) friendly = true)
  /\ (numSubjects <> 2
      \/ (layout <> str "Versus/Comparison" /\ layout <> str "Collaboration") ->
      includes (snd assembled) prominent = true)
  /\ (numSubjects = 2 ->
      forall a b,
        mainSubject1Base64 = Some a -> mainSubject2Base64 = Some b ->
        truthy a = true -> truthy b = true ->
        fst assembled
        = text_part (snd assembled)
            :: geminiService.image_part a :: geminiService.image_part b
            :: map geminiService.image_part backgroundImages)
  /\ (forall mime payload,
        media_type mime = true ->
        geminiService.image_part (dataURL mime payload) = inline_part payload mime).
Proof.
  cbn zeta.
  pose proof (layout_wording title language numSubjects mainSubject1Base64
                mainSubject2Base64 backgroundImages layout styleDescription styleStrength)
    as W.
  split; [apply prompt_is_first_part|]. split; [apply title_embedded|].
  split; [|split; [|split; [|split]]].
  - intros Hl Hn. rewrite Hl, Hn in W. rewrite Hl, Hn.
    rewrite JSFacts.strict_eq_refl in W. exact W.
  - intros Hl Hn. rewrite Hl, Hn in W. rewrite Hl, Hn.
    rewrite JSFacts.strict_eq_refl in W. exact W.
  - intros H.
    assert (E1 : strict_eq layout (str "Versus/Comparison") && (numSubjects =? 2) = false).
    { destruct H as [H|[H _]].
      - apply Z.eqb_neq in H. rewrite H. apply andb_false_r.
      - destruct (strict_eq layout (str "Versus/Comparison")) eqn:E; [|reflexivity].
        apply JSFacts.strict_eq_spec in E. contradiction. }
    assert (E2 : strict_eq layout (str "Collaboration") && (numSubjects =? 2) = false).
    { destruct H as [H|[_ H]].
      - apply Z.eqb_neq in H. rewrite H. apply andb_false_r.
      - destruct (strict_eq layout (str "Collaboration")) eqn:E; [|reflexivity].
        apply JSFacts.strict_eq_spec in E. contradiction. }
    rewrite E1, E2 in W. exact W.
  - intros Hn a b. now apply both_subjects_pushed.
  - apply DataURL.image_part_dataURL.
Qed.

(** C8 on the versus preset with two subjects, both photos supplied. *)
Lemma layout_wording_needs_two_subjects_witness :
  let assembled :=
    geminiService.generateThumbnail_parts_prompt (str "Learn React fast") en 2
      (Some (preview Examples.photo1)) (Some (preview Examples.photo2)) []
      (str "Versus/Comparison") None 80 in
  includes (snd assembled) opposing = true
  /\ fst assembled
     = [text_part (snd assembled);
        inline_part (str "UDE=") (str "image/png");
        inline_part (str "UDI=") (str "image/jpeg")].
Proof.
  intros assembled.
  destruct (layout_wording_needs_two_subjects (str "Learn React fast") en 2
              (Some (preview Examples.photo1)) (Some (preview Examples.photo2)) []
              (str "Versus/Comparison") None 80)
    as (_ & _ & Hv & _ & _ & Hp & Hd).
  split; [apply Hv; reflexivity|].
  fold assembled in Hp.
  rewrite (Hp eq_refl _ _ eq_refl eq_refl eq_refl eq_refl).
  change (preview Examples.photo1) with (dataURL (str "image/png") (str "UDE=")).
  change (preview Examples.photo2) with (dataURL (str "image/jpeg") (str "UDI=")).
  rewrite !Hd by reflexivity. reflexivity.
Defined.

(** C8 as stated fails: with the versus preset still selected after the
    switch back to one subject, the instruction has the prominent-placement
    wording and not the opposing-sides one; this is the request the generate
    action sends. *)
Lemma versus_with_one_subject :
  let s := Examples.switched_back in
  let prompt :=
    snd (geminiService.generateThumbnail_parts_prompt (str "Learn React fast") en 1
           (Some (preview Examples.photo1)) (Some (preview Examples.photo2)) []
           (str "Versus/Comparison") None 80) in
  ThumbnailGenerator.layoutPreset s = ThumbnailGenerator.Versus_Comparison
  /\ calls (exec (ThumbnailGenerator.handleGenerateClick (Examples.paints (str "RA=="))
                    Examples.props s) (Examples.at_start s))
     = [generation_request Examples.props s None]
  /\ contents (generation_request Examples.props s None)
     = contents_parts [text_part prompt; inline_part (str "UDE=") (str "image/png")]
  /\ includes prompt opposing = false
  /\ includes prompt prominent = true.
Proof.
  vm_compute. repeat split.
Qed.

(** C10.  Outside two-subject mode the request is the one assembled with no
    second subject at all: a second photo that is still stored changes
    neither the parts nor the instruction, and the generate action behaves
    as if it were not there.  With one subject the instruction announces one
    image.  In two-subject mode a second photo is pushed and announced. *)
Theorem second_subject_only_in_two_subject_mode
    (title : jsstring) (language : Language) (numSubjects : Z)
    (mainSubject1Base64 mainSubject2Base64 : option jsstring)
    (backgroundImages : list jsstring) (layout : jsstring)
    (styleDescription : option jsstring) (styleStrength : Z) :
  let assembled :=
    geminiService.generateThumbnail_parts_prompt title language numSubjects
      mainSubject1Base64 mainSubject2Base64 backgroundImages layout
      styleDescription styleStrength in
  (numSubjects <> 2 ->
   geminiService.generateThumbnail_request title language numSubjects
     mainSubject1Base64 mainSubject2Base64 backgroundImages layout
     styleDescription styleStrength
   = geminiService.generateThumbnail_request title language numSubjects
       mainSubject1Base64 None backgroundImages layout styleDescription styleStrength)
  /\ (numSubjects = 1 ->
      includes (snd assembled)
        (str "You are provided with 1 image(s) of the main subject(s).") = true)
  /\ (numSubjects = 2 ->
      forall b,
        mainSubject2Base64 = Some b -> truthy b = true ->
        In (geminiService.image_part b) (fst assembled)
        /\ includes (snd assembled) (str "- Image 2 is subject 2.") = true)
  /\ (forall backend props (s : ThumbnailGenerator.State) (w : World ThumbnailGenerator.State),
        ThumbnailGenerator.numSubjects s <> 2 ->
        ThumbnailGenerator.handleGenerateClick backend props s w
        = ThumbnailGenerator.handleGenerateClick backend props
            (ThumbnailGenerator.set_mainSubject2 None s) w).
Proof.
  cbn zeta. split; [|split; [|split]].
  - intros Hn. unfold geminiService.generateThumbnail_request.
    now rewrite second_subject_ignored.
  - apply one_subject_counted.
  - intros Hn b. now apply second_subject_line.
  - intros backend props s w Hn.
    pose proof Hn as Hb. apply Z.eqb_neq in Hb.
    unfold ThumbnailGenerator.handleGenerateClick, ThumbnailGenerator.updateHistory.
    cbn [ThumbnailGenerator.set_mainSubject2 ThumbnailGenerator.numSubjects
         ThumbnailGenerator.mainSubject1 ThumbnailGenerator.mainSubject2
         ThumbnailGenerator.backgroundImages ThumbnailGenerator.layoutPreset
         ThumbnailGenerator.referencePreviews ThumbnailGenerator.analyzedStyle
         ThumbnailGenerator.styleStrength ThumbnailGenerator.thumbnailHistory
         ThumbnailGenerator.currentIndex option_map].
    rewrite Hb. cbn [andb].
    assert (G : forall st,
               geminiService.generateThumbnail backend (ThumbnailGenerator.title props)
                 (ThumbnailGenerator.language props) (ThumbnailGenerator.numSubjects s)
                 (option_map preview (ThumbnailGenerator.mainSubject1 s))
                 (option_map preview (ThumbnailGenerator.mainSubject2 s))
                 (map preview (ThumbnailGenerator.backgroundImages s))
                 (ThumbnailGenerator.LayoutPreset_string (ThumbnailGenerator.layoutPreset s))
                 st (ThumbnailGenerator.styleStrength s)
               = geminiService.generateThumbnail backend (ThumbnailGenerator.title props)
                   (ThumbnailGenerator.language props) (ThumbnailGenerator.numSubjects s)
                   (option_map preview (ThumbnailGenerator.mainSubject1 s))
                   None
                   (map preview (ThumbnailGenerator.backgroundImages s))
                   (ThumbnailGenerator.LayoutPreset_string (ThumbnailGenerator.layoutPreset s))
                   st (ThumbnailGenerator.styleStrength s)).
    { intros st.
      unfold geminiService.generateThumbnail, geminiService.generateThumbnail_request.
      now rewrite second_subject_ignored. }
    destruct (negb (is_object (ThumbnailGenerator.mainSubject1 s)) || false);
      [reflexivity|].
    unfold ThumbnailGenerator.setLoading, ThumbnailGenerator.setError,
      ThumbnailGenerator.setSuggestions, ThumbnailGenerator.setAnalyzedStyle,
      ThumbnailGenerator.setThumbnailHistory, ThumbnailGenerator.setCurrentIndex.
    run.
    destruct ((0 <? Z.of_nat (List.length (ThumbnailGenerator.referencePreviews s)))
              && negb (truthy_opt (ThumbnailGenerator.analyzedStyle s))); run.
    + destruct (geminiService.analyzeStyleReferences backend
                  (ThumbnailGenerator.referencePreviews s) (calls w)) as [[e|st] log1];
        cbn [calls ui fst snd]; [reflexivity|].
      rewrite G. reflexivity.
    + rewrite G. reflexivity.
Qed.

(** C10 on the example workspace after the switch back to one subject, the
    second photo still stored. *)
Lemma second_subject_only_in_two_subject_mode_witness :
  let s := Examples.switched_back in
  ThumbnailGenerator.numSubjects s <> 2
  /\ ThumbnailGenerator.mainSubject2 s = Some Examples.photo2
  /\ generation_request Examples.props s None
     = generation_request Examples.props (ThumbnailGenerator.set_mainSubject2 None s) None
  /\ ThumbnailGenerator.handleGenerateClick Examples.refuses Examples.props s
       (Examples.at_start s)
     = ThumbnailGenerator.handleGenerateClick Examples.refuses Examples.props
         (ThumbnailGenerator.set_mainSubject2 None s) (Examples.at_start s).
Proof.
  intros s.
  assert (Hn : ThumbnailGenerator.numSubjects s <> 2) by (cbn; lia).
  split; [exact Hn|]. split; [reflexivity|].
  destruct (second_subject_only_in_two_subject_mode
              (ThumbnailGenerator.title Examples.props)
              (ThumbnailGenerator.language Examples.props)
              (ThumbnailGenerator.numSubjects s)
              (option_map preview (ThumbnailGenerator.mainSubject1 s))
              (option_map preview (ThumbnailGenerator.mainSubject2 s))
              (map preview (ThumbnailGenerator.backgroundImages s))
              (ThumbnailGenerator.LayoutPreset_string (ThumbnailGenerator.layoutPreset s))
              None (ThumbnailGenerator.styleStrength s))
    as (Hreq & _ & _ & Hclick).
  split; [exact (Hreq Hn)|].
  apply Hclick. exact Hn.
Defined.

End ThumbnailPrompt.

(** ** The generation client: lists of strings, data URLs, request parts *)

Module Client.
Import Eff genai React Notions.

Lemma strings_of_strings (l : list jsstring) :
  geminiService.strings (JArray (map JString l)) = l.
Proof.
  cbn. induction l as [|s l IH]; [reflexivity|]. cbn. now rewrite IH.
Qed.

Lemma string_array_iff (v : JSON) :
  geminiService.isArray v && geminiService.every_string v = true
  <-> exists l, v = JArray (map JString l).
Proof.
  split.
  - destruct v as [| | | |l|]; cbn; try discriminate. intros H.
    exists (geminiService.strings (JArray l)). f_equal.
    induction l as [|x l IH]; [reflexivity|].
    cbn in H. apply andb_true_iff in H as [Hx Hl].
    destruct x; try discriminate. cbn. f_equal. now apply IH.
  - intros [l ->]. cbn. induction l as [|s l IH]; [reflexivity|]. exact IH.
Qed.

Lemma parse_strings_outcome (JSON_parse : jsstring -> option JSON)
    (invalid failure jsonText : jsstring) (log : Log) :
  geminiService.parse_strings JSON_parse invalid failure jsonText log
  = (match JSON_parse jsonText with
     | Some v =>
         if geminiService.isArray v && geminiService.every_string v
         then inr (geminiService.strings v)
         else inl (mkError failure)
     | None => inl (mkError failure)
     end, log).
Proof.
  unfold geminiService.parse_strings, try_catch, ret, throw.
  destruct (JSON_parse jsonText) as [v|]; [|reflexivity].
  destruct (geminiService.isArray v && geminiService.every_string v); reflexivity.
Qed.

Lemma strings_call_outcome (backend : Backend) (JSON_parse : jsstring -> option JSON)
    (request : GenerateContentParameters) (invalid failure : jsstring) (log : Log) :
  bind (geminiService.generateContent backend request)
       (fun response =>
          bind (geminiService.text_trim response)
               (geminiService.parse_strings JSON_parse invalid failure)) log
  = (match backend log request with
     | inl e => inl e
     | inr response =>
         match response_text response with
         | None => inl (mkError (str "TypeError"))
         | Some t =>
             match JSON_parse (trim t) with
             | Some v =>
                 if geminiService.isArray v && geminiService.every_string v
                 then inr (geminiService.strings v)
                 else inl (mkError failure)
             | None => inl (mkError failure)
             end
         end
     end, log ++ [request]).
Proof.
  unfold bind at 1. rewrite EffFacts.generateContent_log.
  destruct (backend log request) as [e|response]; [reflexivity|]. cbv beta iota.
  unfold geminiService.text_trim, bind.
  destruct (response_text response) as [t|]; [|reflexivity].
  change (ret (trim t) (log ++ [request])) with (@inr Error _ (trim t), log ++ [request]).
  cbv beta iota. apply parse_strings_outcome.
Qed.

Lemma getImprovementSuggestions_outcome (backend : Backend)
    (JSON_parse : jsstring -> option JSON) (title : jsstring) (language : Language)
    (log : Log) :
  geminiService.getImprovementSuggestions backend JSON_parse title language log
  = (match backend log (geminiService.getImprovementSuggestions_request title language) with
     | inl e => inl e
     | inr response =>
         match response_text response with
         | None => inl (mkError (str "TypeError"))
         | Some t =>
             match JSON_parse (trim t) with
             | Some v =>
                 if geminiService.isArray v && geminiService.every_string v
                 then inr (geminiService.strings v)
                 else inl (mkError (str "Could not parse suggestions from the AI."))
             | None => inl (mkError (str "Could not parse suggestions from the AI."))
             end
         end
     end, log ++ [geminiService.getImprovementSuggestions_request title language]).
Proof. apply strings_call_outcome. Qed.

(** X1.  [generateTitles] sends one request.  A rejected call is passed on;
    an answer without text fails.  Otherwise the trimmed text is parsed:
    when it is an array of strings, the empty array included, exactly these
    strings are returned, in order; in every other case, a syntax error, a
    value that is not an array, or an array with an element that is not a
    string, the call fails with the could-not-parse message. *)
Theorem generateTitles_outcomes
    (backend : Backend) (JSON_parse : jsstring -> option JSON)
    (topic : jsstring) (language : Language) (log : Log) :
  let request := geminiService.generateTitles_request topic language in
  let call := geminiService.generateTitles backend JSON_parse topic language log in
  let failure :=
    mkError (str "Could not parse the generated titles from the AI. Please try again.") in
  snd call = log ++ [request]
  /\ (forall e, backend log request = inl e -> fst call = inl e)
  /\ (forall response,
        backend log request = inr response -> response_text response = None ->
        exists e, fst call = inl e)
  /\ (forall response t titles,
        backend log request = inr response -> response_text response = Some t ->
        JSON_parse (trim t) = Some (JArray (map JString titles)) ->
        fst call = inr titles)
  /\ (forall response t,
        backend log request = inr response -> response_text response = Some t ->
        (forall titles, JSON_parse (trim t) <> Some (JArray (map JString titles))) ->
        fst call = inl failure).
Proof.
  cbn zeta. unfold geminiService.generateTitles, geminiService.text_trim, bind.
  rewrite EffFacts.generateContent_log.
  destruct (backend log (geminiService.generateTitles_request topic language))
    as [e|response]; cbv beta iota.
  - split; [reflexivity|]. split; [now intros e' [= ->]|].
    split; [intros r H; discriminate H|].
    split; [intros r t titles H|intros r t H]; discriminate H.
  - destruct (response_text response) as [t|] eqn:Et; cbv beta iota.
    + change (ret (trim t) (log ++ [geminiService.generateTitles_request topic language]))
        with (@inr Error _ (trim t),
              log ++ [geminiService.generateTitles_request topic language]).
      cbv beta iota. rewrite parse_strings_outcome. cbn [fst snd].
      split; [reflexivity|]. split; [discriminate|].
      split; [intros r [= <-] H; congruence|]. split.
      * intros r t' titles [= <-] Ht Hp.
        assert (t' = t) by congruence. subst t'. rewrite Hp.
        assert (H : geminiService.isArray (JArray (map JString titles))
                    && geminiService.every_string (JArray (map JString titles)) = true)
          by (apply string_array_iff; now exists titles).
        rewrite H. now rewrite strings_of_strings.
      * intros r t' [= <-] Ht Hno.
        assert (t' = t) by congruence. subst t'.
        destruct (JSON_parse (trim t)) as [v|]; [|reflexivity].
        destruct (geminiService.isArray v && geminiService.every_string v) eqn:E;
          [|reflexivity].
        apply string_array_iff in E as [l ->]. now destruct (Hno l).
    + unfold throw. cbn [fst snd].
      split; [reflexivity|]. split; [discriminate|]. split.
      * intros r _ _. eexists. reflexivity.
      * split; [intros r t titles [= <-] H|intros r t [= <-] H]; congruence.
Qed.

(** X1 on the model that answers with one title. *)
Lemma generateTitles_outcomes_witness :
  fst (geminiService.generateTitles Examples.flaky Examples.parse_one_title
         (str "React") en [])
  = inr [str "Learn React fast"].
Proof.
  destruct (generateTitles_outcomes Examples.flaky Examples.parse_one_title
              (str "React") en []) as (_ & _ & _ & Hok & _).
  apply (Hok (Examples.text_response Examples.one_title) Examples.one_title);
    reflexivity.
Defined.

Lemma indexOf_from_free (c : N) (s : jsstring) (i : Z) :
  free_of c s = true -> indexOf_from s c i = -1.
Proof.
  revert i. induction s as [|x s IH]; intros i H; [reflexivity|].
  cbn in H. apply andb_true_iff in H as [Hx H]. apply negb_true_iff in Hx.
  cbn [indexOf_from]. rewrite Hx. now apply IH.
Qed.

Lemma indexOf_from_range (c : N) (s : jsstring) (i : Z) :
  indexOf_from s c i = -1
  \/ i <= indexOf_from s c i < i + Z.of_nat (List.length s).
Proof.
  revert i. induction s as [|x s IH]; intros i; [now left|].
  cbn [indexOf_from List.length]. destruct (x =? c)%N; [right; lia|].
  destruct (IH (i + 1)) as [->|H]; [now left|right; lia].
Qed.

Lemma substring_to_minus_one (s : jsstring) (a : Z) :
  0 <= a <= Z.of_nat (List.length s) ->
  substring s a (-1) = firstn (Z.to_nat a) s.
Proof.
  intros H. unfold substring, clamp.
  replace (Z.min (Z.max a 0) (Z.of_nat (List.length s))) with a by lia.
  replace (Z.min (Z.max (-1) 0) (Z.of_nat (List.length s))) with 0 by lia.
  replace (Z.min a 0) with 0 by lia. replace (Z.max a 0) with a by lia.
  rewrite Z.sub_0_r. reflexivity.
Qed.

(** X2.  How a string that is not a well-formed data URL is cut.  Without a
    comma the whole string is taken as the payload.  Without a semicolon the
    media type is the text up to and including the first colon, and it is
    empty when there is no colon either. *)
Theorem cut_without_separators (s : jsstring) :
  (free_of 44 s = true -> geminiService.pureBase64_of s = s)
  /\ (free_of 59 s = true ->
      geminiService.mimeType_of s = firstn (Z.to_nat (indexOf s 58 + 1)) s)
  /\ (free_of 59 s = true -> free_of 58 s = true -> geminiService.mimeType_of s = []).
Proof.
  assert (Hsemi : free_of 59 s = true ->
                  geminiService.mimeType_of s = firstn (Z.to_nat (indexOf s 58 + 1)) s).
  { intros H. unfold geminiService.mimeType_of.
    unfold indexOf at 2. rewrite (indexOf_from_free _ _ _ H).
    apply substring_to_minus_one.
    unfold indexOf. destruct (indexOf_from_range 58 s 0) as [->|Hr]; lia. }
  split; [|split].
  - intros H. unfold geminiService.pureBase64_of, indexOf.
    rewrite (indexOf_from_free _ _ _ H).
    apply (DataURL.substring_from_app [] s).
  - exact Hsemi.
  - intros H1 H2. rewrite (Hsemi H1). unfold indexOf.
    rewrite (indexOf_from_free _ _ _ H2). reflexivity.
Qed.

(** X2 on a data URL that lost its encoding marker. *)
Lemma cut_without_separators_witness :
  geminiService.mimeType_of (str "data:image/png,QQ==") = str "data:"
  /\ geminiService.pureBase64_of (str "QQ==") = str "QQ==".
Proof.
  destruct (cut_without_separators (str "data:image/png,QQ==")) as (_ & Hm & _).
  destruct (cut_without_separators (str "QQ==")) as (Hp & _ & _).
  split; [rewrite Hm by reflexivity; reflexivity|apply Hp; reflexivity].
Defined.

Lemma png_url_dataURL (b : Blob) :
  png_url b = dataURL (str "image/png") (geminiService.template_opt (data b)).
Proof.
  unfold png_url, dataURL.
  change (str "data:image/png;base64,")
    with (str "data:" ++ str "image/png" ++ str ";base64,").
  now rewrite <- !app_assoc.
Qed.

(** X3.  An edit sends back what a generation returned.  For the data URL
    that an image call builds from a returned payload, the edit request
    holds two parts: first the image, with that payload (the text
    [undefined] when the payload had no data) and the media type image/png
    whatever media type the model had named, then the instruction text,
    which embeds the user's instruction as given. *)
Theorem edit_resends_returned_payload
    (b : Blob) (instruction : jsstring) (language : Language) :
  exists prompt,
    contents (geminiService.editThumbnail_request (png_url b) instruction language)
    = contents_parts
        [inline_part (geminiService.template_opt (data b)) (str "image/png");
         text_part prompt]
    /\ includes prompt instruction = true
    /\ includes prompt
         (match language with ar => str "Arabic" | en => str "English" end) = true.
Proof.
  unfold geminiService.editThumbnail_request. cbn [contents].
  eexists. split; [|split].
  - fold (geminiService.image_part (png_url b)).
    rewrite png_url_dataURL, DataURL.image_part_dataURL by reflexivity.
    reflexivity.
  - ThumbnailPrompt.name_literals. ThumbnailPrompt.find_segment.
  - ThumbnailPrompt.name_literals. destruct language; ThumbnailPrompt.find_segment.
Qed.

Lemma includes_run3 (x a n b r : jsstring) :
  includes (x ++ a ++ n ++ b ++ r) (a ++ n ++ b) = true.
Proof.
  replace (a ++ n ++ b ++ r) with ((a ++ n ++ b) ++ r) by (now rewrite <- !app_assoc).
  apply JSFacts.includes_app.
Qed.

Section Parts.

Variables (title : jsstring) (language : Language) (numSubjects : Z).
Variables (mainSubject1Base64 mainSubject2Base64 : option jsstring).
Variables (backgroundImages : list jsstring) (layout : jsstring).
Variables (styleStrength : Z).

(** X4.  The parts of a thumbnail request are always in this order: the
    instruction, the first subject image when it is a non-empty string, the
    second subject image when it is a non-empty string and two subjects are
    asked for, then every background image in the order given. *)
Theorem request_parts_in_order (styleDescription : option jsstring) :
  let assembled :=
    geminiService.generateThumbnail_parts_prompt title language numSubjects
      mainSubject1Base64 mainSubject2Base64 backgroundImages layout
      styleDescription styleStrength in
  let subject (b64 : option jsstring) (counted : bool) : list Part :=
    match b64 with
    | Some b => if truthy b && counted then [geminiService.image_part b] else []
    | None => []
    end in
  fst assembled
  = text_part (snd assembled)
      :: subject mainSubject1Base64 true
      ++ subject mainSubject2Base64 (numSubjects =? 2)
      ++ map geminiService.image_part backgroundImages.
Proof.
  cbn zeta. unfold geminiService.generateThumbnail_parts_prompt.
  ThumbnailPrompt.name_literals.
  destruct mainSubject1Base64 as [a|]; [destruct (truthy a)|];
    (destruct mainSubject2Base64 as [b|]; [destruct (truthy b && (numSubjects =? 2))|]);
    destruct backgroundImages as [|x l]; reflexivity.
Qed.

(** X5.  The style section of a thumbnail instruction.  An empty style
    description counts as none, and without a description the style
    strength has no effect on the request.  A non-empty description is
    embedded as given, after the strength written as a percentage. *)
Theorem style_section (styleDescription : jsstring) (otherStrength : Z) :
  let assemble style strength :=
    geminiService.generateThumbnail_parts_prompt title language numSubjects
      mainSubject1Base64 mainSubject2Base64 backgroundImages layout style strength in
  assemble (Some []) styleStrength = assemble None styleStrength
  /\ assemble None styleStrength = assemble None otherStrength
  /\ (truthy styleDescription = true ->
      includes (snd (assemble (Some styleDescription) styleStrength))
        (str "approximately " ++ toString styleStrength ++ str "% strength.") = true
      /\ includes (snd (assemble (Some styleDescription) styleStrength))
           styleDescription = true).
Proof.
  cbn zeta. split; [reflexivity|]. split; [reflexivity|].
  intros Hd. unfold geminiService.generateThumbnail_parts_prompt. rewrite Hd.
  change (str "**Design Style**: Adhere to the following design style with approximately ")
    with (str "**Design Style**: Adhere to the following design style with "
          ++ str "approximately ").
  change (str "% strength. This style should influence the colors, text, effects, and overall mood: ")
    with (str "% strength."
          ++ str " This style should influence the colors, text, effects, and overall mood: ").
  ThumbnailPrompt.name_literals.
  destruct mainSubject1Base64 as [a|]; [destruct (truthy a)|];
    (destruct mainSubject2Base64 as [b|]; [destruct (truthy b && (numSubjects =? 2))|]);
    destruct (0 <? Z.of_nat (List.length backgroundImages));
    cbv beta iota zeta; cbn [fst snd];
    (split;
     [ apply JSFacts.includes_prefix, JSFacts.includes_suffix;
       rewrite <- !app_assoc; apply includes_run3
     | ThumbnailPrompt.find_segment ]).
Qed.

End Parts.

(** X5 on a versus request with a style description and strength 80. *)
Lemma style_section_witness :
  includes
    (snd (geminiService.generateThumbnail_parts_prompt (str "Learn React fast") en 2
            (Some (preview Examples.photo1)) (Some (preview Examples.photo2)) []
            (str "Versus/Comparison") (Some (str "- bold yellow captions")) 80))
    (str "approximately " ++ toString 80 ++ str "% strength.") = true.
Proof.
  apply (style_section (str "Learn React fast") en 2
           (Some (preview Examples.photo1)) (Some (preview Examples.photo2)) []
           (str "Versus/Comparison") 80 (str "- bold yellow captions") 0).
  reflexivity.
Defined.

End Client.

(** ** The workspace: edits, uploads, removals, analysis *)

Module Actions.
Import Eff genai React Notions ThumbnailGenerator Workflow.

Ltac go :=
  unfold updateHistory, setNumSubjects, setMainSubject1, setMainSubject2,
    setBackgroundImages, setLayoutPreset, setReferenceFiles, setReferencePreviews,
    setAnalyzedStyle, setStyleStrength, setThumbnailHistory, setCurrentIndex,
    setEditInstruction, setSuggestions, setLoading, setError;
  run.

Lemma trimStart_nil (s : jsstring) : trimStart s = [] <-> blank s = true.
Proof.
  induction s as [|c s IH]; cbn; [tauto|].
  destruct (isWhiteSpace c); cbn; [exact IH|]. split; discriminate.
Qed.

Lemma trimStart_head (s : jsstring) (c : N) (r : jsstring) :
  trimStart s = c :: r -> isWhiteSpace c = false.
Proof.
  induction s as [|x s IH]; cbn; [discriminate|].
  destruct (isWhiteSpace x) eqn:E; [exact IH|]. now intros [= <- _].
Qed.

Lemma blank_trimStart (s : jsstring) : blank (trimStart s) = blank s.
Proof.
  induction s as [|c s IH]; cbn; [reflexivity|].
  destruct (isWhiteSpace c) eqn:E; cbn; [exact IH|]. now rewrite E.
Qed.

Lemma blank_rev (s : jsstring) : blank (rev s) = blank s.
Proof.
  unfold blank. induction s as [|c s IH]; [reflexivity|].
  cbn. rewrite forallb_app, IH. cbn. rewrite andb_true_r. apply andb_comm.
Qed.

(** [trim] leaves nothing exactly of the strings made of white space. *)
Lemma trim_blank (s : jsstring) : truthy (trim s) = negb (blank s).
Proof.
  unfold trim, trimEnd.
  destruct (blank s) eqn:B; cbn [negb].
  - apply trimStart_nil in B. rewrite B. reflexivity.
  - destruct (trimStart (rev (trimStart s))) as [|c r] eqn:E.
    + apply trimStart_nil in E. rewrite blank_rev, blank_trimStart in E. congruence.
    + destruct (rev (c :: r)) eqn:R; [|reflexivity].
      apply (f_equal (@List.length N)) in R. rewrite length_rev in R. discriminate.
Qed.

(** An image call leaves one more request in the log, whatever it returns. *)
Lemma image_call_log (backend : Backend) (failure : jsstring)
    (request : GenerateContentParameters) (log : Log) :
  snd (bind (geminiService.generateContent backend request)
            (geminiService.decode_image failure) log)
  = log ++ [request].
Proof.
  unfold bind. rewrite EffFacts.generateContent_log.
  destruct (backend log request) as [e|response]; [reflexivity|].
  unfold geminiService.decode_image.
  destruct (geminiService.first_part response) as [p|]; [|reflexivity].
  destruct (inlineData p); reflexivity.
Qed.

(** What an image call returns is never the empty string. *)
Lemma image_call_truthy (backend : Backend) (failure : jsstring)
    (request : GenerateContentParameters) (log : Log) (t : jsstring) :
  fst (bind (geminiService.generateContent backend request)
            (geminiService.decode_image failure) log) = inr t ->
  truthy t = true.
Proof.
  unfold bind. rewrite EffFacts.generateContent_log.
  destruct (backend log request) as [e|response]; [discriminate|].
  unfold geminiService.decode_image.
  destruct (geminiService.first_part response) as [p|]; [|discriminate].
  destruct (inlineData p); [|discriminate].
  intros [= <-]. reflexivity.
Qed.

Lemma analyzeStyleReferences_outcome (backend : Backend) (images : list jsstring)
    (log : Log) :
  geminiService.analyzeStyleReferences backend images log
  = (match backend log (geminiService.analyzeStyleReferences_request images) with
     | inl e => inl e
     | inr response => inr (response_text response)
     end,
     log ++ [geminiService.analyzeStyleReferences_request images]).
Proof.
  unfold geminiService.analyzeStyleReferences, bind.
  rewrite EffFacts.generateContent_log.
  destruct (backend log _); reflexivity.
Qed.

Section Edit.

Variable backend : Backend.
Variable props : Props.

(** X6.  An edit with no active thumbnail, or with an instruction made of
    white space only, does nothing at all: no request, no state change.
    Otherwise exactly one edit request is sent for the active thumbnail and
    the instruction as given, and the busy flag is down at the end.  When
    the call fails the error is set and the history, its cursor and the
    typed instruction are as before; when it returns a thumbnail there is no
    error and the typed instruction is emptied, also when the instruction
    applied was a suggestion and not the typed text. *)
Theorem edit_outcomes (instruction : jsstring) (s : State) (w : World State) :
  let w' := exec (handleApplyEdit backend props instruction s) w in
  (currentThumbnail s = None \/ blank instruction = true -> w' = w)
  /\ (forall cur,
        currentThumbnail s = Some cur -> blank instruction = false ->
        calls w' = calls w ++ [geminiService.editThumbnail_request cur instruction
                                 (language props)]
        /\ loading (ui w') = NONE
        /\ match fst (geminiService.editThumbnail backend cur instruction
                        (language props) (calls w)) with
           | inl _ =>
               error (ui w') = Some (str "Failed to apply the edit.")
               /\ same_history w w'
               /\ editInstruction (ui w') = editInstruction (ui w)
           | inr _ =>
               error (ui w') = None /\ editInstruction (ui w') = []
           end).
Proof.
  cbn zeta. split.
  - unfold handleApplyEdit, exec. intros [->|H]; [reflexivity|].
    rewrite trim_blank, H. cbn [negb]. destruct (currentThumbnail s); reflexivity.
  - intros cur Hc Hb. unfold handleApplyEdit. rewrite Hc, trim_blank, Hb.
    cbn [negb]. go.
    pose proof (image_call_log backend geminiService.no_edited_thumbnail
                  (geminiService.editThumbnail_request cur instruction (language props))
                  (calls w)) as Hlog.
    change (snd (geminiService.editThumbnail backend cur instruction (language props)
                   (calls w))
            = calls w ++ [geminiService.editThumbnail_request cur instruction
                            (language props)]) in Hlog.
    destruct (geminiService.editThumbnail backend cur instruction (language props)
                (calls w)) as [[e|t] log] eqn:E;
      cbn [snd] in Hlog; subst log; cbn; repeat split; reflexivity.
Qed.

End Edit.

Section Generate.

Variable backend : Backend.
Variable props : Props.

Lemma generation_log (s : State) (style : option jsstring) (log : Log) :
  snd (generation backend props s style log) = log ++ [generation_request props s style].
Proof. apply image_call_log. Qed.

Lemma generation_truthy (s : State) (style : option jsstring) (log : Log) (t : jsstring) :
  fst (generation backend props s style log) = inr t -> truthy t = true.
Proof. apply image_call_truthy. Qed.

Ltac generation_cases :=
  match goal with
  | |- context [geminiService.generateThumbnail ?b ?a1 ?a2 ?a3 ?a4 ?a5 ?a6 ?a7 ?a8 ?a9 ?log] =>
      let log' := fresh "log'" in
      let Hlog := fresh "Hlog" in
      let Ht := fresh "Ht" in
      pose proof (image_call_log b geminiService.no_thumbnail
                    (geminiService.generateThumbnail_request a1 a2 a3 a4 a5 a6 a7 a8 a9) log)
        as Hlog;
      pose proof (image_call_truthy b geminiService.no_thumbnail
                    (geminiService.generateThumbnail_request a1 a2 a3 a4 a5 a6 a7 a8 a9) log)
        as Ht;
      change (bind (geminiService.generateContent b
                      (geminiService.generateThumbnail_request a1 a2 a3 a4 a5 a6 a7 a8 a9))
                   (geminiService.decode_image geminiService.no_thumbnail) log)
        with (geminiService.generateThumbnail b a1 a2 a3 a4 a5 a6 a7 a8 a9 log) in Hlog, Ht;
      destruct (geminiService.generateThumbnail b a1 a2 a3 a4 a5 a6 a7 a8 a9 log)
        as [[?e|?t] log'];
      cbn [fst snd] in Hlog, Ht; subst log'
  end.

(** X7.  The style analysis is made once and then reused.  An accepted
    generate action sends only the thumbnail request, with the stored
    description, when there is no style reference or a description is
    stored.  Otherwise it first sends the analysis request: when that call
    fails no thumbnail request follows, the generation counts as failed and
    the history is as before; when it answers, its text is stored as the
    description and used in the thumbnail request that follows, and it stays
    stored whether or not the generation then succeeds.  The busy flag is
    down at the end. *)
Theorem generate_reuses_analysis (s : State) (w : World State) :
  accepted s = true ->
  let w' := exec (handleGenerateClick backend props s) w in
  loading (ui w') = NONE
  /\ (needs_analysis s = false ->
      calls w' = calls w ++ [generation_request props s (analyzedStyle s)]
      /\ analyzedStyle (ui w') = analyzedStyle (ui w))
  /\ (needs_analysis s = true ->
      match backend (calls w) (analysis_request s) with
      | inl _ =>
          calls w' = calls w ++ [analysis_request s]
          /\ analyzedStyle (ui w') = analyzedStyle (ui w)
          /\ error (ui w') = Some (str "Failed to generate thumbnail.")
          /\ same_history w w'
      | inr response =>
          calls w'
          = calls w ++ [analysis_request s;
                        generation_request props s (response_text response)]
          /\ analyzedStyle (ui w') = response_text response
      end).
Proof.
  intros Hacc. unfold accepted in Hacc. apply negb_true_iff in Hacc.
  cbn zeta. unfold handleGenerateClick. rewrite Hacc.
  unfold needs_analysis, analysis_request, generation_request.
  destruct ((0 <? Z.of_nat (List.length (referencePreviews s)))
            && negb (truthy_opt (analyzedStyle s))); go.
  - rewrite analyzeStyleReferences_outcome.
    destruct (backend (calls w) _) as [e|response]; cbn [fst snd calls ui].
    + split; [reflexivity|]. split; [discriminate|]. intros _.
      repeat split; reflexivity.
    + generation_cases; cbn [fst snd calls ui].
      * split; [reflexivity|]. split; [discriminate|]. intros _.
        rewrite <- app_assoc. split; reflexivity.
      * split; [reflexivity|]. split; [discriminate|]. intros _.
        rewrite <- app_assoc. split; reflexivity.
  - generation_cases; cbn [fst snd calls ui];
      (split; [reflexivity|]); (split; [|discriminate]); intros _; split; reflexivity.
Qed.

(** X8.  After an accepted generate action either no error is shown and the
    history is the old one cut after the cursor and followed by one new
    entry, a non-empty data URL, with the cursor on it; or the failure
    message is shown and the history and its cursor are exactly as
    before. *)
Theorem generate_grows_or_keeps_history (s : State) (w : World State) :
  accepted s = true -> ui w = s -> -1 <= currentIndex s ->
  let w' := exec (handleGenerateClick backend props s) w in
  (error (ui w') = None
   /\ exists t, truthy t = true /\ appended s t (ui w'))
  \/ (error (ui w') = Some (str "Failed to generate thumbnail.")
      /\ same_history w w').
Proof.
  intros Hacc Hs Hidx. unfold accepted in Hacc. apply negb_true_iff in Hacc.
  cbn zeta. unfold handleGenerateClick. rewrite Hacc.
  assert (Hgrow : forall t (u : State),
             appended s t
               (set_loading NONE
                  (set_currentIndex
                     (Z.of_nat (List.length (slice (thumbnailHistory s) 0
                                               (currentIndex s + 1) ++ [t])) - 1)
                     (set_thumbnailHistory
                        (slice (thumbnailHistory s) 0 (currentIndex s + 1) ++ [t]) u)))).
  { intros t u. unfold appended. cbn.
    rewrite JSFacts.slice_prefix by lia. split; reflexivity. }
  destruct ((0 <? Z.of_nat (List.length (referencePreviews s)))
            && negb (truthy_opt (analyzedStyle s))); go.
  - destruct (geminiService.analyzeStyleReferences backend (referencePreviews s) (calls w))
      as [[e|style] log1]; cbn [fst snd calls ui].
    + right. subst s. repeat split; reflexivity.
    + generation_cases; cbn [fst snd calls ui].
      * right. subst s. repeat split; reflexivity.
      * left. split; [reflexivity|]. exists t. split; [now apply Ht|]. apply Hgrow.
  - generation_cases; cbn [fst snd calls ui].
    + right. subst s. repeat split; reflexivity.
    + left. split; [reflexivity|]. exists t. split; [now apply Ht|]. apply Hgrow.
Qed.

End Generate.

Section Upload.

Variable fileToBase64 : File -> Error + jsstring.

(** X9.  Choosing a main-subject photo.  Only the first chosen file counts.
    Above 4 MB (4194304 bytes, the bound itself accepted) the size message
    is set and nothing else changes, without the file being read.  Otherwise
    the error is cleared first; then a file that is read fills the slot
    asked for and leaves the other slot alone, and a file that cannot be
    read leaves both slots alone. *)
Theorem main_subject_upload
    (f : File) (rest : list File) (s : State) (w : World State) :
  let pick type := exec (handleFileChange fileToBase64 (f :: rest) type s) w in
  (4194304 < size f ->
   ui (pick main1) = set_error (Some (str "Image file is too large. Max 4MB.")) (ui w)
   /\ ui (pick main2) = ui (pick main1))
  /\ (size f <= 4194304 ->
      match fileToBase64 f with
      | inr p =>
          ui (pick main1)
          = set_mainSubject1 (Some {| file := f; preview := p |}) (set_error None (ui w))
          /\ ui (pick main2)
             = set_mainSubject2 (Some {| file := f; preview := p |})
                 (set_error None (ui w))
      | inl _ =>
          ui (pick main1) = set_error None (ui w)
          /\ ui (pick main2) = set_error None (ui w)
      end).
Proof.
  cbn zeta. unfold handleFileChange.
  change (4 * 1024 * 1024) with 4194304. split.
  - intros H. apply Z.ltb_lt in H. rewrite H. split; reflexivity.
  - intros H. apply Z.ltb_ge in H. rewrite H. go. unfold encode.
    destruct (fileToBase64 f); split; reflexivity.
Qed.

(** Reading files leaves the world alone and, when every read succeeds,
    gives one result per file. *)
Lemma all_world {A B} (g : A -> M (World State) B) (l : list A) (w : World State) :
  (forall a w0, snd (g a w0) = w0) -> snd (all g l w) = w.
Proof.
  intros Hg. induction l as [|a l IH]; [reflexivity|].
  cbn [all]. unfold bind. specialize (Hg a w).
  destruct (g a w) as [[e|b] w1]; cbn in Hg; subst w1; [reflexivity|].
  destruct (all g l w) as [[e|bs] w2]; cbn in IH; subst w2; reflexivity.
Qed.

Lemma all_results {A B} (g : A -> M (World State) B) (P : A -> B -> Prop)
    (l : list A) (w : World State) (bs : list B) :
  (forall a w0, snd (g a w0) = w0) ->
  (forall a w0 b, fst (g a w0) = inr b -> P a b) ->
  fst (all g l w) = inr bs -> Forall2 P l bs.
Proof.
  intros Hw Hg. revert bs. induction l as [|a l IH]; intros bs.
  - intros [= <-]. constructor.
  - cbn [all]. unfold bind.
    pose proof (Hw a w) as Ha. pose proof (Hg a w) as Hb.
    destruct (g a w) as [[e|b] w1]; cbn in Ha, Hb; subst w1; [discriminate|].
    pose proof (all_world g l w Hw) as Hl.
    destruct (all g l w) as [[e|bs'] w2]; cbn in Hl; subst w2; [discriminate|].
    intros [= <-]. constructor; [now apply Hb|now apply IH].
Qed.

Lemma all_readable {B} (g : File -> M (World State) B) (h : File -> B)
    (l : list File) (w : World State) :
  (forall f w0, g f w0 = (match fileToBase64 f with
                          | inr _ => inr (h f)
                          | inl e => inl e
                          end, w0)) ->
  match fst (all g l w) with
  | inr bs => forallb (readable fileToBase64) l = true /\ bs = map h l
  | inl _ => forallb (readable fileToBase64) l = false
  end
  /\ snd (all g l w) = w.
Proof.
  intros Hg. induction l as [|f l IH]; [now cbn|].
  cbn [all forallb map]. unfold bind, readable at 1 3. rewrite Hg.
  destruct (fileToBase64 f) as [e|p]; [now cbn|].
  destruct (all g l w) as [[e|bs] w1]; cbn in IH |- *; destruct IH as [IH ->].
  - now split.
  - destruct IH as [-> ->]. now split.
Qed.

(** X10.  Choosing background images.  When every chosen file is read, the
    new images, each a chosen file with its encoding, in the order chosen,
    are put after the images already there and the list is cut to its first
    five: the list size is the sum of both, at most 5, and up to five images
    already there keep their places.  When a file cannot be read, or no file
    was chosen, nothing changes. *)
Theorem background_upload (files : list File) (s : State) (w : World State) :
  let w' := exec (handleFileChange fileToBase64 files background s) w in
  let old := backgroundImages (ui w) in
  (files = [] \/ forallb (readable fileToBase64) files = false -> w' = w)
  /\ (files <> [] -> forallb (readable fileToBase64) files = true ->
      ui w' = set_backgroundImages
                (firstn 5 (old ++ map (uploaded fileToBase64) files)) (ui w)
      /\ List.length (backgroundImages (ui w'))
         = Nat.min 5 (List.length old + List.length files)
      /\ firstn (List.length old) (backgroundImages (ui w')) = firstn 5 old).
Proof.
  cbn zeta. unfold handleFileChange.
  destruct files as [|f rest]; [split; [reflexivity|congruence]|].
  set (files := f :: rest). go.
  match goal with |- context [all ?g0 files w] => set (g := g0) end.
  assert (Hg : forall x w0,
             g x w0 = (match fileToBase64 x with
                       | inr _ => inr (uploaded fileToBase64 x)
                       | inl e => inl e
                       end, w0)).
  { intros x w0. unfold g, encode, uploaded, read.
    destruct (fileToBase64 x); reflexivity. }
  pose proof (all_readable g (uploaded fileToBase64) files w Hg) as [Hr Hw].
  destruct (all g files w) as [[e|imgs] w1]; cbn [fst snd] in Hr, Hw |- *; subst w1.
  - split; [reflexivity|]. intros _ H. congruence.
  - destruct Hr as [Hr ->]. split; [intros [H|H]; [discriminate|congruence]|].
    intros _ _. rewrite JSFacts.slice_prefix by lia. change (Z.to_nat 5) with 5%nat. cbn [ui calls snd backgroundImages set_backgroundImages].
    split; [reflexivity|]. split.
    + rewrite length_firstn, length_app, length_map. reflexivity.
    + rewrite firstn_firstn, firstn_app.
      replace (Nat.min (List.length (backgroundImages (ui w))) 5
               - List.length (backgroundImages (ui w)))%nat with 0%nat by lia.
      rewrite firstn_O, app_nil_r.
      destruct (Nat.le_gt_cases (List.length (backgroundImages (ui w))) 5) as [H|H].
      * rewrite Nat.min_l by exact H.
        rewrite firstn_all. symmetry. now apply firstn_all2.
      * rewrite Nat.min_r by lia. reflexivity.
Qed.

(** X11.  Choosing style references.  The chosen files are put after the
    files already there and the list is cut to its first three, whatever
    happens next.  Then every file of the new list is read again: when all
    are read, the previews become their encodings, one for one, and the
    stored style description is dropped; when one cannot be read, the
    previews and the description stay as they were, so that the files and
    the previews no longer go together. *)
Theorem reference_upload (f : File) (rest : list File) (s : State) (w : World State) :
  let w' := exec (handleFileChange fileToBase64 (f :: rest) reference s) w in
  let newFiles := firstn 3 (referenceFiles s ++ f :: rest) in
  referenceFiles (ui w') = newFiles
  /\ List.length newFiles = Nat.min 3 (List.length (referenceFiles s) + 1 + List.length rest)
  /\ (forallb (readable fileToBase64) newFiles = true ->
      referencePreviews (ui w') = map (read fileToBase64) newFiles
      /\ analyzedStyle (ui w') = None
      /\ aligned fileToBase64 (ui w'))
  /\ (forallb (readable fileToBase64) newFiles = false ->
      referencePreviews (ui w') = referencePreviews (ui w)
      /\ analyzedStyle (ui w') = analyzedStyle (ui w)).
Proof.
  cbn zeta. unfold handleFileChange. rewrite JSFacts.slice_prefix by lia. change (Z.to_nat 3) with 3%nat.
  set (newFiles := firstn 3 (referenceFiles s ++ f :: rest)).
  assert (Hg : forall x w0,
             encode fileToBase64 x w0
             = (match fileToBase64 x with
                | inr _ => inr (read fileToBase64 x)
                | inl e => inl e
                end, w0)).
  { intros x w0. unfold encode, read. destruct (fileToBase64 x); reflexivity. }
  go.
  match goal with
  | |- context [all _ newFiles ?w0] =>
      pose proof (all_readable (encode fileToBase64) (read fileToBase64) newFiles w0 Hg)
        as [Hr Hw];
      destruct (all (encode fileToBase64) newFiles w0) as [[e|ps] w1]
  end; cbn [fst snd] in Hr, Hw |- *; subst w1; cbn [ui calls].
  - split; [reflexivity|]. split.
    + subst newFiles. rewrite length_firstn, length_app. cbn [List.length]. lia.
    + split; [congruence|]. intros _. split; reflexivity.
  - destruct Hr as [Hr ->]. split; [reflexivity|]. split.
    + subst newFiles. rewrite length_firstn, length_app. cbn [List.length]. lia.
    + split; [|congruence]. intros _. repeat split; reflexivity.
Qed.

Lemma filter_index_from_without {A} (l : list A) (k i : Z) :
  i <= k ->
  filter_index_from l k i
  = firstn (Z.to_nat (k - i)) l ++ skipn (S (Z.to_nat (k - i))) l.
Proof.
  revert i. induction l as [|x l IH]; intros i H.
  - cbn. now rewrite firstn_nil.
  - cbn [filter_index_from]. destruct (Z.eqb_spec i k) as [->|Hne].
    + rewrite Z.sub_diag. cbn.
      assert (G : forall j, k < j -> filter_index_from l k j = l).
      { clear. induction l as [|y l IH]; intros j Hj; [reflexivity|].
        cbn. destruct (Z.eqb_spec j k); [lia|]. f_equal. apply IH. lia. }
      apply G. lia.
    + rewrite IH by lia.
      replace (Z.to_nat (k - i)) with (S (Z.to_nat (k - (i + 1)))) by lia.
      reflexivity.
Qed.

Lemma filter_index_neq_without {A} (l : list A) (k : Z) :
  filter_index_neq l k = without k l.
Proof.
  unfold filter_index_neq, without. destruct (Z.ltb_spec k 0) as [H|H].
  - revert H. generalize 0. induction l as [|x l IH]; intros i H; [reflexivity|].
    cbn. destruct (Z.eqb_spec i k); [lia|]. f_equal. apply IH. lia.
  - rewrite filter_index_from_without by lia. now rewrite Z.sub_0_r.
Qed.

Lemma without_length {A} (l : list A) (k : Z) :
  List.length (without k l)
  = if (0 <=? k) && (k <? Z.of_nat (List.length l))
    then Nat.pred (List.length l) else List.length l.
Proof.
  unfold without. destruct (Z.ltb_spec k 0) as [H|H].
  - replace (0 <=? k) with false by (symmetry; apply Z.leb_gt; lia). reflexivity.
  - replace (0 <=? k) with true by (symmetry; apply Z.leb_le; lia). cbn [andb].
    rewrite length_app, length_firstn, length_skipn.
    destruct (Z.ltb_spec k (Z.of_nat (List.length l))); lia.
Qed.

Lemma without_map {A B} (h : A -> B) (l : list A) (k : Z) :
  without k (map h l) = map h (without k l).
Proof.
  unfold without. destruct (k <? 0); [reflexivity|].
  now rewrite map_app, firstn_map, skipn_map.
Qed.

(** X12.  Removing by index.  Removing a background image or a style
    reference takes out the entry at the index given and keeps the others in
    order; an index that is negative or past the end removes nothing.  A
    background image is taken out of the list as it is now, a reference out
    of the files and the previews of the render, at the same index: previews
    that were the encodings of the files still are. *)
Theorem removal_by_index (k : Z) (s : State) (w : World State) :
  let b := exec (handleRemoveBackgroundImage k s) w in
  let r := exec (handleRemoveReference k s) w in
  ui b = set_backgroundImages (without k (backgroundImages (ui w))) (ui w)
  /\ List.length (backgroundImages (ui b))
     = (if (0 <=? k) && (k <? Z.of_nat (List.length (backgroundImages (ui w))))
        then Nat.pred (List.length (backgroundImages (ui w)))
        else List.length (backgroundImages (ui w)))
  /\ referenceFiles (ui r) = without k (referenceFiles s)
  /\ referencePreviews (ui r) = without k (referencePreviews s)
  /\ (aligned fileToBase64 s -> aligned fileToBase64 (ui r)).
Proof.
  cbn zeta. unfold handleRemoveBackgroundImage, handleRemoveReference. go.
  rewrite !filter_index_neq_without.
  split; [reflexivity|]. split; [cbn; apply without_length|].
  assert (H : forall u : World State,
             referenceFiles (ui u) = without k (referenceFiles s) ->
             referencePreviews (ui u) = without k (referencePreviews s) ->
             referenceFiles (ui u) = without k (referenceFiles s)
             /\ referencePreviews (ui u) = without k (referencePreviews s)
             /\ (aligned fileToBase64 s -> aligned fileToBase64 (ui u))).
  { intros u Hf Hp. split; [exact Hf|]. split; [exact Hp|].
    unfold aligned. intros Ha. rewrite Hf, Hp, Ha. apply without_map. }
  destruct (truthy_opt (analyzedStyle s)); apply H; reflexivity.
Qed.

End Upload.

Section Refresh.

Variable backend : Backend.
Variable JSON_parse : jsstring -> option JSON.
Variable props : Props.

(** X13.  An explicit style analysis.  Without reference previews it does
    nothing.  Otherwise it sends exactly the analysis request, leaves the
    history alone and ends with the busy flag down: when the call fails the
    error is set and the stored description is kept; when it answers, the
    error is cleared and the answer's text is stored, which is no
    description at all when the answer carries no text. *)
Theorem analyze_style_outcomes (s : State) (w : World State) :
  let w' := exec (handleAnalyzeStyle backend s) w in
  (referencePreviews s = [] -> w' = w)
  /\ (referencePreviews s <> [] ->
      calls w' = calls w ++ [analysis_request s]
      /\ loading (ui w') = NONE
      /\ same_history w w'
      /\ match backend (calls w) (analysis_request s) with
         | inl _ =>
             error (ui w') = Some (str "Failed to analyze style references.")
             /\ analyzedStyle (ui w') = analyzedStyle (ui w)
         | inr response =>
             error (ui w') = None /\ analyzedStyle (ui w') = response_text response
         end).
Proof.
  cbn zeta. unfold handleAnalyzeStyle, analysis_request.
  destruct (referencePreviews s) as [|p ps] eqn:E.
  - split; [reflexivity|congruence].
  - split; [discriminate|]. intros _.
    replace (Z.of_nat (List.length (p :: ps)) =? 0) with false
      by (symmetry; apply Z.eqb_neq; cbn [List.length]; lia).
    go. rewrite analyzeStyleReferences_outcome.
    destruct (backend (calls w) _) as [e|response]; cbn [fst snd ui calls];
      repeat split; reflexivity.
Qed.

(** X14.  The suggestion refresh.  It sends exactly the suggestion request
    and ends with the busy flag down; it never touches the error or the
    history.  When the answer is an array of strings, of whatever size,
    these become the suggestions; when the call fails in any way the
    suggestions are as before and no error is shown.  The automatic refresh
    does nothing when there is no active thumbnail, when suggestions are on
    display, or when the workspace is busy. *)
Theorem suggestion_refresh (s : State) (w : World State) :
  let w' := exec (handleGetSuggestions backend JSON_parse props s) w in
  let request :=
    geminiService.getImprovementSuggestions_request (title props) (language props) in
  calls w' = calls w ++ [request]
  /\ loading (ui w') = NONE
  /\ error (ui w') = error (ui w)
  /\ same_history w w'
  /\ match fst (geminiService.getImprovementSuggestions backend JSON_parse
                  (title props) (language props) (calls w)) with
     | inr newSuggestions => suggestions (ui w') = newSuggestions
     | inl _ => suggestions (ui w') = suggestions (ui w)
     end
  /\ (forall response t newSuggestions,
        backend (calls w) request = inr response ->
        response_text response = Some t ->
        JSON_parse (trim t) = Some (JArray (map JString newSuggestions)) ->
        suggestions (ui w') = newSuggestions)
  /\ (currentThumbnail s = None \/ suggestions s <> [] \/ loading s <> NONE ->
      exec (currentThumbnail_effect backend JSON_parse props s) w = w).
Proof.
  cbn zeta.
  pose proof (Client.getImprovementSuggestions_outcome backend JSON_parse
                (title props) (language props) (calls w)) as Hcall.
  unfold handleGetSuggestions. go. rewrite Hcall. cbn [fst snd].
  assert (Heff : currentThumbnail s = None \/ suggestions s <> [] \/ loading s <> NONE ->
                 currentThumbnail_effect backend JSON_parse props s w = (inr tt, w)).
  { unfold currentThumbnail_effect. intros [->|[H|H]]; [reflexivity| |].
    - destruct (suggestions s) as [|x l]; [congruence|].
      replace (Z.of_nat (List.length (x :: l)) =? 0) with false
        by (symmetry; apply Z.eqb_neq; cbn [List.length]; lia).
      now rewrite andb_false_r.
    - destruct (loading s); [congruence| | | |]; now rewrite andb_false_r. }
  destruct (backend (calls w) _) as [e|response] eqn:Eb; cbn [fst snd ui calls].
  - repeat split; try reflexivity; [discriminate|].
    intros H. now rewrite (Heff H).
  - destruct (response_text response) as [t|] eqn:Et; cbn [fst snd ui calls].
    + destruct (JSON_parse (trim t)) as [v|] eqn:Ep; cbn [fst snd ui calls].
      * destruct (geminiService.isArray v && geminiService.every_string v) eqn:Ev;
          cbn [fst snd ui calls]; repeat split; try reflexivity.
        -- intros r t' l [= <-] Ht Hp. assert (t' = t) by congruence. subst t'.
           assert (v = JArray (map JString l)) by congruence. subst v.
           apply Client.strings_of_strings.
        -- intros H. now rewrite (Heff H).
        -- intros r t' l [= <-] Ht Hp. assert (t' = t) by congruence. subst t'.
           assert (v = JArray (map JString l)) by congruence. subst v.
           assert (geminiService.isArray (JArray (map JString l))
                   && geminiService.every_string (JArray (map JString l)) = true)
             by (apply Client.string_array_iff; now exists l).
           congruence.
        -- intros H. now rewrite (Heff H).
      * repeat split; try reflexivity.
        -- intros r t' l [= <-] Ht Hp. congruence.
        -- intros H. now rewrite (Heff H).
    + repeat split; try reflexivity.
      * intros r t' l [= <-] Ht Hp. congruence.
      * intros H. now rewrite (Heff H).
Qed.

End Refresh.

Lemma at_index_prefix (h : list jsstring) (t : jsstring) (i : Z) :
  0 <= i < Z.of_nat (List.length h) ->
  at_index (firstn (Z.to_nat (i + 1)) h ++ [t]) i = at_index h i.
Proof.
  intros H. unfold at_index. destruct (Z.ltb_spec i 0); [lia|].
  rewrite nth_error_app1 by (rewrite length_firstn; lia).
  rewrite nth_error_firstn.
  destruct (Nat.ltb_spec (Z.to_nat i) (Z.to_nat (i + 1))); [reflexivity|lia].
Qed.

Lemma at_index_last (h : list jsstring) (t : jsstring) :
  at_index (h ++ [t]) (Z.of_nat (List.length h)) = Some t.
Proof.
  unfold at_index. destruct (Z.ltb_spec (Z.of_nat (List.length h)) 0); [lia|].
  rewrite Nat2Z.id, nth_error_app2 by lia. now rewrite Nat.sub_diag.
Qed.

(** X15.  Undo and redo undo each other: with the cursor on an entry, a
    redo after an undo that moved, and an undo after a redo that moved,
    give back the very same world.  After a new thumbnail is appended at a
    cursor inside the history there is nothing to redo, the new thumbnail is
    the active one, and one undo makes the thumbnail that was active before
    the append active again. *)
Theorem undo_redo_inverse (w : World State) (newThumbnail : jsstring) :
  let s := ui w in
  let last := Z.of_nat (List.length (thumbnailHistory s)) - 1 in
  let undo := exec (dispatch handleUndo) in
  let redo := exec (dispatch handleRedo) in
  let grown := exec (dispatch (fun s => updateHistory s newThumbnail)) w in
  (0 < currentIndex s <= last -> redo (undo w) = w)
  /\ (0 <= currentIndex s < last -> undo (redo w) = w)
  /\ (0 <= currentIndex s <= last ->
      redo grown = grown
      /\ at_index (thumbnailHistory (ui grown)) (currentIndex (ui grown))
         = Some newThumbnail
      /\ at_index (thumbnailHistory (ui (undo grown))) (currentIndex (ui (undo grown)))
         = at_index (thumbnailHistory s) (currentIndex s)
      /\ redo (undo grown) = grown).
Proof.
  cbn zeta. destruct w as [s c]. cbn [ui].
  unfold dispatch, handleUndo, handleRedo, canUndo, canRedo, exec.
  split; [|split].
  - intros H. cbn [ui].
    destruct (Z.ltb_spec 0 (currentIndex s)); [|lia].
    unfold setCurrentIndex, setState. cbn.
    destruct (Z.ltb_spec (currentIndex s - 1)
                (Z.of_nat (List.length (thumbnailHistory s)) - 1)); [|lia].
    cbn. replace (currentIndex s - 1 + 1) with (currentIndex s) by lia.
    destruct s; reflexivity.
  - intros H. cbn [ui].
    destruct (Z.ltb_spec (currentIndex s)
                (Z.of_nat (List.length (thumbnailHistory s)) - 1)); [|lia].
    unfold setCurrentIndex, setState. cbn.
    destruct (Z.ltb_spec 0 (currentIndex s + 1)); [|lia].
    cbn. replace (currentIndex s + 1 - 1) with (currentIndex s) by lia.
    destruct s; reflexivity.
  - intros H. go. cbn [ui calls snd].
    rewrite JSFacts.slice_prefix by lia.
    set (h := firstn (Z.to_nat (currentIndex s + 1)) (thumbnailHistory s)).
    assert (Hlen : Z.of_nat (List.length (h ++ [newThumbnail])) = currentIndex s + 2).
    { subst h. rewrite length_app, length_firstn. cbn [List.length]. lia. }
    cbn [thumbnailHistory currentIndex set_currentIndex set_thumbnailHistory].
    rewrite !Hlen.
    replace (currentIndex s + 2 - 1) with (currentIndex s + 1) by lia.
    rewrite Z.ltb_irrefl.
    destruct (Z.ltb_spec 0 (currentIndex s + 1)); [|lia].
    cbn [snd ui calls thumbnailHistory currentIndex set_currentIndex
         set_thumbnailHistory].
    replace (currentIndex s + 1 - 1) with (currentIndex s) by lia.
    rewrite !Hlen.
    destruct (Z.ltb_spec (currentIndex s) (currentIndex s + 2 - 1)); [|lia].
    cbn [snd ui calls thumbnailHistory currentIndex set_currentIndex
         set_thumbnailHistory].
    split; [reflexivity|]. split; [|split].
    + replace (currentIndex s + 1) with (Z.of_nat (List.length h))
        by (subst h; rewrite length_firstn; lia).
      apply at_index_last.
    + subst h. apply at_index_prefix. lia.
    + reflexivity.
Qed.

(** X6 on the example workspace: an edit the model answers, and a blank
    instruction. *)
Lemma edit_outcomes_witness :
  let s := Examples.workspace in
  let w := Examples.at_start s in
  let w' := exec (handleApplyEdit (Examples.paints (str "RA==")) Examples.props
                    (str "make the text yellow") s) w in
  calls w' = [geminiService.editThumbnail_request Examples.A
                (str "make the text yellow") en]
  /\ editInstruction (ui w') = []
  /\ exec (handleApplyEdit (Examples.paints (str "RA==")) Examples.props (str "  ") s) w
     = w.
Proof.
  intros s w w'.
  destruct (edit_outcomes (Examples.paints (str "RA==")) Examples.props
              (str "make the text yellow") s w) as [_ Hrun].
  destruct (edit_outcomes (Examples.paints (str "RA==")) Examples.props (str "  ") s w)
    as [Hblank _].
  destruct (Hrun Examples.A) as (Hc & _ & Hm); [reflexivity|reflexivity|].
  split; [exact Hc|]. split; [|apply Hblank; right; reflexivity].
  change (fst (geminiService.editThumbnail (Examples.paints (str "RA==")) Examples.A
                 (str "make the text yellow") (language Examples.props) (calls w)))
    with (@inr Error jsstring Examples.D) in Hm.
  exact (proj2 Hm).
Defined.

(** X7 on a workspace with one style reference not yet analysed. *)
Lemma generate_reuses_analysis_witness :
  let s := set_analyzedStyle None Examples.styled in
  let w' := exec (handleGenerateClick stylist Examples.props s) (Examples.at_start s) in
  accepted s = true
  /\ calls w'
     = [analysis_request s;
        generation_request Examples.props s (Some (str "- bold captions"))]
  /\ analyzedStyle (ui w') = Some (str "- bold captions").
Proof.
  intros s w'.
  assert (Ha : accepted s = true) by reflexivity.
  split; [exact Ha|].
  destruct (generate_reuses_analysis stylist Examples.props s (Examples.at_start s) Ha)
    as (_ & _ & H).
  exact (H eq_refl).
Defined.

(** X8 on the example workspace with a model that rejects every call. *)
Lemma generate_grows_or_keeps_history_witness :
  let s := Examples.workspace in
  let w := Examples.at_start s in
  let w' := exec (handleGenerateClick Examples.refuses Examples.props s) w in
  accepted s = true
  /\ ((error (ui w') = None /\ exists t, truthy t = true /\ appended s t (ui w'))
      \/ (error (ui w') = Some (str "Failed to generate thumbnail.")
          /\ same_history w w')).
Proof.
  intros s w w'.
  assert (Ha : accepted s = true) by reflexivity.
  split; [exact Ha|].
  apply (generate_grows_or_keeps_history Examples.refuses Examples.props s w Ha eq_refl).
  cbn. lia.
Defined.

(** X9 on a file above the cap and on a file below it. *)
Lemma main_subject_upload_witness :
  let s := Examples.workspace in
  let w := Examples.at_start s in
  mainSubject1 (ui (exec (handleFileChange Examples.reads_all [big_file] main1 s) w))
  = Some Examples.photo1
  /\ error (ui (exec (handleFileChange Examples.reads_all [big_file] main1 s) w))
     = Some (str "Image file is too large. Max 4MB.")
  /\ mainSubject2
       (ui (exec (handleFileChange Examples.reads_all [Examples.reference1] main2 s) w))
     = Some {| file := Examples.reference1;
               preview := str "data:image/png;base64," ++ name Examples.reference1 |}.
Proof.
  intros s w.
  destruct (main_subject_upload Examples.reads_all big_file [] s w) as [Hbig _].
  destruct (main_subject_upload Examples.reads_all Examples.reference1 [] s w)
    as [_ Hok].
  destruct Hbig as [Hb _]; [cbn; lia|].
  destruct Hok as [_ Ho]; [cbn; lia|].
  rewrite Hb, Ho. repeat split; reflexivity.
Defined.

(** X10 on seven files chosen at once, and on a choice with a file that
    cannot be read. *)
Lemma background_upload_witness :
  let s := Examples.workspace in
  let w := Examples.at_start s in
  List.length
    (backgroundImages
       (ui (exec (handleFileChange Examples.reads_all (repeat Examples.reference1 7)
                    background s) w)))
  = 5%nat
  /\ exec (handleFileChange reads_small [Examples.reference1; big_file] background s) w
     = w.
Proof.
  intros s w.
  destruct (background_upload Examples.reads_all (repeat Examples.reference1 7) s w)
    as [_ Hok].
  destruct (background_upload reads_small [Examples.reference1; big_file] s w)
    as [Hfail _].
  split.
  - destruct Hok as (_ & Hl & _); [discriminate|reflexivity|]. rewrite Hl. reflexivity.
  - apply Hfail. right. reflexivity.
Defined.

(** X11 on the workspace with one analysed reference: a second, readable
    file, and a file that cannot be read. *)
Lemma reference_upload_witness :
  let s := Examples.styled in
  let w := Examples.at_start s in
  let ok := exec (handleFileChange Examples.reads_all [Examples.reference1] reference s) w in
  let ko := exec (handleFileChange reads_small [big_file] reference s) w in
  List.length (referencePreviews (ui ok)) = 2%nat
  /\ analyzedStyle (ui ok) = None
  /\ List.length (referenceFiles (ui ko)) = 2%nat
  /\ List.length (referencePreviews (ui ko)) = 1%nat
  /\ analyzedStyle (ui ko) = Some (str "- bold yellow captions").
Proof.
  intros s w ok ko.
  destruct (reference_upload Examples.reads_all Examples.reference1 [] s w)
    as (_ & _ & Hok & _).
  destruct (reference_upload reads_small big_file [] s w) as (Hf & _ & _ & Hko).
  destruct (Hok eq_refl) as (Hp & Ha & _).
  destruct (Hko eq_refl) as (Hp' & Ha').
  fold ok in Hp, Ha. fold ko in Hf, Hp', Ha'.
  rewrite Hp, Ha, Hf, Hp', Ha'. repeat split; reflexivity.
Defined.

(** X12 on the workspace with one reference: its removal keeps files and
    previews together, and an index past the end removes nothing. *)
Lemma removal_by_index_witness :
  let s := set_referencePreviews
             [read Examples.reads_all Examples.reference1] Examples.styled in
  let w := Examples.at_start s in
  aligned Examples.reads_all s
  /\ aligned Examples.reads_all (ui (exec (handleRemoveReference 0 s) w))
  /\ referenceFiles (ui (exec (handleRemoveReference 0 s) w)) = []
  /\ referenceFiles (ui (exec (handleRemoveReference 1 s) w)) = [Examples.reference1].
Proof.
  intros s w.
  assert (Ha : aligned Examples.reads_all s) by reflexivity.
  split; [exact Ha|].
  destruct (removal_by_index Examples.reads_all 0 s w) as (_ & _ & Hf & _ & Hal).
  destruct (removal_by_index Examples.reads_all 1 s w) as (_ & _ & Hf1 & _).
  split; [exact (Hal Ha)|]. rewrite Hf, Hf1. split; reflexivity.
Defined.

(** X13 on the workspace with one reference and a model that rejects. *)
Lemma analyze_style_outcomes_witness :
  let s := Examples.styled in
  let w := Examples.at_start s in
  let w' := exec (handleAnalyzeStyle Examples.refuses s) w in
  calls w' = [analysis_request s]
  /\ error (ui w') = Some (str "Failed to analyze style references.")
  /\ analyzedStyle (ui w') = Some (str "- bold yellow captions")
  /\ exec (handleAnalyzeStyle Examples.refuses Examples.workspace)
       (Examples.at_start Examples.workspace)
     = Examples.at_start Examples.workspace.
Proof.
  intros s w w'.
  destruct (analyze_style_outcomes Examples.refuses s w) as [_ Hrun].
  destruct (analyze_style_outcomes Examples.refuses Examples.workspace
              (Examples.at_start Examples.workspace)) as [Hnone _].
  destruct Hrun as (Hc & _ & _ & He & Ha); [discriminate|].
  split; [exact Hc|]. split; [exact He|]. split; [exact Ha|].
  apply Hnone. reflexivity.
Defined.

(** X14 on the example workspace: the model's one-string answer becomes the
    suggestions, and the automatic refresh is skipped while a suggestion is
    on display. *)
Lemma suggestion_refresh_witness :
  let s := Examples.workspace in
  let w := Examples.at_start s in
  suggestions (ui (exec (handleGetSuggestions Examples.flaky Examples.parse_one_title
                           Examples.props s) w))
  = [str "Learn React fast"]
  /\ exec (currentThumbnail_effect Examples.flaky Examples.parse_one_title
             Examples.props s) w = w.
Proof.
  intros s w.
  destruct (suggestion_refresh Examples.flaky Examples.parse_one_title Examples.props s w)
    as (_ & _ & _ & _ & _ & Hok & Heff).
  split.
  - apply (Hok (Examples.text_response Examples.one_title) Examples.one_title);
      reflexivity.
  - apply Heff. right. left. discriminate.
Defined.

(** X15 on the example workspace moved to its second entry. *)
Lemma undo_redo_inverse_witness :
  let w := Examples.at_start (set_currentIndex 1 Examples.workspace) in
  let grown := exec (dispatch (fun s => updateHistory s Examples.D)) w in
  exec (dispatch handleRedo) (exec (dispatch handleUndo) w) = w
  /\ thumbnailHistory (ui grown) = [Examples.A; Examples.B; Examples.D]
  /\ at_index (thumbnailHistory (ui (exec (dispatch handleUndo) grown)))
       (currentIndex (ui (exec (dispatch handleUndo) grown)))
     = Some Examples.B.
Proof.
  intros w grown.
  destruct (undo_redo_inverse w Examples.D) as (Hur & _ & Hg).
  split; [apply Hur; cbn; lia|]. split; [reflexivity|].
  destruct Hg as (_ & _ & Hprev & _); [cbn; lia|].
  fold grown in Hprev. rewrite Hprev. reflexivity.
Defined.

End Actions.

(** ** The session: the title form, selection, what is rendered *)

Module Navigation.
Import Eff genai React Notions App Render.

Ltac go :=
  unfold handleGenerateTitles, handleGenerateTitles_begin, handleGenerateTitles_settle,
    handleStartOver, handleTitleSelect, onBack,
    setAppState, setTopic, setGeneratedTitles, setSelectedTitle, setLanguage, setError;
  run.

(** X16.  Selecting a title enters the workspace state with that title
    recorded; the titles, the topic and the language stay.  The next render
    shows the thumbnail workspace for that title and the session language,
    and changes nothing, when the title is not empty; for the empty title it
    shows nothing and starts the session over, which drops the titles.  Going
    back from the workspace shows the title form again with the titles and
    the recorded selection kept. *)
Theorem select_render_back (title : jsstring) (w : World State) :
  let selected := exec (handleTitleSelect title) w in
  let back := exec onBack selected in
  ui selected
  = {| appState := THUMBNAIL_INPUT; topic := topic (ui w);
       generatedTitles := generatedTitles (ui w); selectedTitle := Some title;
       language := language (ui w); error := error (ui w) |}
  /\ (truthy title = true ->
      dispatch renderContent selected
      = (inr (ThumbnailGeneratorView title (language (ui w))), selected))
  /\ (title = [] ->
      fst (dispatch renderContent selected) = inr NoView
      /\ ui (exec (dispatch renderContent) selected)
         = {| appState := TITLE_INPUT; topic := []; generatedTitles := [];
              selectedTitle := None; language := language (ui w); error := None |})
  /\ dispatch renderContent back
     = (inr (TitleGeneratorView (generatedTitles (ui w)) false (topic (ui w))
               (language (ui w))), back)
  /\ selectedTitle (ui back) = Some title.
Proof.
  cbn zeta. unfold dispatch, renderContent. go. cbn.
  split; [reflexivity|]. split; [|split; [|split; reflexivity]].
  - intros ->. reflexivity.
  - intros ->. split; reflexivity.
Qed.

(** X16 on a session that shows one title. *)
Lemma select_render_back_witness :
  let w := exec (handleGenerateTitles Examples.flaky Examples.parse_one_title
                   (str "React") en) (Examples.at_start initial) in
  fst (dispatch renderContent (exec (handleTitleSelect (str "Learn React fast")) w))
  = inr (ThumbnailGeneratorView (str "Learn React fast") en)
  /\ generatedTitles (ui (exec (dispatch renderContent) (exec (handleTitleSelect []) w)))
     = [].
Proof.
  intros w.
  destruct (select_render_back (str "Learn React fast") w) as (_ & Hshow & _).
  destruct (select_render_back [] w) as (_ & _ & Hreset & _).
  split.
  - rewrite (Hshow eq_refl). reflexivity.
  - destruct (Hreset eq_refl) as [_ ->]. reflexivity.
Defined.

Section Form.

Variable backend : Backend.
Variable JSON_parse : jsstring -> option JSON.

(** X17.  A submission of the title form does nothing at all, no state
    change and no request, when the topic is made of white space only, and
    while titles are being generated.  In the two other states that show the
    form it runs the title generation with the topic exactly as typed, not
    trimmed, and that topic is what the one request sent carries. *)
Theorem submit_guard (form : TitleGenerator.State) (w : World State) :
  let w' := exec (dispatch (submitTitleForm backend JSON_parse form)) w in
  (Workflow.blank (TitleGenerator.topic form) = true \/ appState (ui w) = GENERATING_TITLES ->
   w' = w)
  /\ (Workflow.blank (TitleGenerator.topic form) = false ->
      appState (ui w) = TITLE_INPUT \/ appState (ui w) = TITLES_DISPLAYED ->
      w' = exec (handleGenerateTitles backend JSON_parse (TitleGenerator.topic form)
                   (TitleGenerator.language form)) w
      /\ topic (ui w') = TitleGenerator.topic form
      /\ calls w'
         = calls w ++ [geminiService.generateTitles_request (TitleGenerator.topic form)
                         (TitleGenerator.language form)]).
Proof.
  cbn zeta. unfold dispatch, submitTitleForm, TitleGenerator.handleSubmit, exec.
  rewrite Actions.trim_blank. split.
  - intros [H|H]; rewrite H.
    + destruct (appState (ui w)); reflexivity.
    + cbn [negb]. now rewrite andb_false_r.
  - intros Hb Hs. rewrite Hb.
    assert (E : snd (geminiService.generateTitles backend JSON_parse
                       (TitleGenerator.topic form) (TitleGenerator.language form)
                       (calls w))
                = calls w ++ [geminiService.generateTitles_request
                                (TitleGenerator.topic form)
                                (TitleGenerator.language form)]).
    { unfold geminiService.generateTitles.
      now rewrite Client.strings_call_outcome. }
    destruct Hs as [Hs|Hs]; rewrite Hs; cbn [negb andb];
      (split; [reflexivity|]); go;
      destruct (geminiService.generateTitles backend JSON_parse
                  (TitleGenerator.topic form) (TitleGenerator.language form) (calls w))
        as [[e|titles] log]; cbn [snd] in E; subst log; split; reflexivity.
Qed.

End Form.

(** X17 on a topic of spaces and on a topic with spaces around it. *)
Lemma submit_guard_witness :
  let form topic :=
    {| TitleGenerator.topic := topic; TitleGenerator.language := en;
       TitleGenerator.copiedIndex := None |} in
  let w := Examples.at_start initial in
  exec (dispatch (submitTitleForm Examples.flaky Examples.parse_one_title
                    (form (str "   ")))) w = w
  /\ topic (ui (exec (dispatch (submitTitleForm Examples.flaky Examples.parse_one_title
                                  (form (str " React ")))) w))
     = str " React ".
Proof.
  intros form w.
  destruct (submit_guard Examples.flaky Examples.parse_one_title (form (str "   ")) w)
    as [Hblank _].
  destruct (submit_guard Examples.flaky Examples.parse_one_title (form (str " React ")) w)
    as [_ Hrun].
  split.
  - apply Hblank. left. reflexivity.
  - destruct Hrun as (_ & Ht & _); [reflexivity|left; reflexivity|exact Ht].
Defined.

End Navigation.

(** ** What holds of the workspace after any sequence of events *)

Module Reachability.
Import Eff genai React Notions ThumbnailGenerator Workflow.

Ltac go :=
  unfold updateHistory, setNumSubjects, setMainSubject1, setMainSubject2,
    setBackgroundImages, setLayoutPreset, setReferenceFiles, setReferencePreviews,
    setAnalyzedStyle, setStyleStrength, setThumbnailHistory, setCurrentIndex,
    setEditInstruction, setSuggestions, setLoading, setError;
  run.

(** [settled] only looks at six fields. *)
Lemma settled_fields (s u : State) :
  thumbnailHistory u = thumbnailHistory s ->
  currentIndex u = currentIndex s ->
  (List.length (backgroundImages u) <= List.length (backgroundImages s))%nat ->
  (List.length (referenceFiles u) <= List.length (referenceFiles s))%nat ->
  (List.length (referencePreviews u) <= List.length (referencePreviews s))%nat ->
  loading u = NONE ->
  settled s -> settled u.
Proof.
  intros Hh Hi Hb Hf Hp Hl [Hc He Hbg Hfi Hpr _].
  constructor; try lia; try assumption.
  - unfold cursor_valid in *. rewrite Hh, Hi. exact Hc.
  - now rewrite Hh.
Qed.

(** The state after an append is settled in its history, whatever the
    history was. *)
Lemma settled_grown (s u : State) (t : jsstring) :
  settled s -> truthy t = true ->
  (List.length (backgroundImages u) <= List.length (backgroundImages s))%nat ->
  (List.length (referenceFiles u) <= List.length (referenceFiles s))%nat ->
  (List.length (referencePreviews u) <= List.length (referencePreviews s))%nat ->
  let h := slice (thumbnailHistory s) 0 (currentIndex s + 1) ++ [t] in
  settled (set_loading NONE
             (set_currentIndex (Z.of_nat (List.length h) - 1)
                (set_thumbnailHistory h u))).
Proof.
  intros [Hc He Hbg Hfi Hpr Hl] Ht Hb Hf Hp h.
  assert (Hidx : -1 <= currentIndex s) by (destruct Hc as [[_ ->]|H]; lia).
  constructor; unfold cursor_valid;
    cbn [thumbnailHistory currentIndex backgroundImages referenceFiles
         referencePreviews loading set_loading set_currentIndex set_thumbnailHistory];
    try lia.
  - right. subst h. rewrite length_app. cbn [List.length]. lia.
  - subst h. rewrite JSFacts.slice_prefix by lia.
    apply Forall_app. split; [|now constructor].
    rewrite <- (firstn_skipn (Z.to_nat (currentIndex s + 1)) (thumbnailHistory s)) in He.
    now apply Forall_app in He.
  - reflexivity.
Qed.

Section Steps.

Variable backend : Backend.
Variable JSON_parse : jsstring -> option JSON.
Variable fileToBase64 : File -> Error + jsstring.
Variable props : Props.

Ltac same := apply settled_fields; cbn; try reflexivity; try lia; try assumption.

Lemma settled_undo_redo (w : World State) :
  settled (ui w) ->
  settled (ui (step backend JSON_parse fileToBase64 props ClickUndo w))
  /\ settled (ui (step backend JSON_parse fileToBase64 props ClickRedo w)).
Proof.
  intros H. pose proof H as [Hc He Hbg Hfi Hpr Hl].
  unfold step, dispatch, react, exec. cbv beta iota.
  unfold handleUndo, handleRedo, canUndo, canRedo.
  split.
  - destruct (Z.ltb_spec 0 (currentIndex (ui w))); [|exact H]. go.
    constructor; unfold cursor_valid in *;
      cbn [thumbnailHistory currentIndex backgroundImages referenceFiles
           referencePreviews loading set_currentIndex ui snd];
      try assumption.
    right. destruct Hc as [[_ Hc]|Hc]; lia.
  - destruct (Z.ltb_spec (currentIndex (ui w))
                (Z.of_nat (List.length (thumbnailHistory (ui w))) - 1)); [|exact H].
    go. constructor; unfold cursor_valid in *;
      cbn [thumbnailHistory currentIndex backgroundImages referenceFiles
           referencePreviews loading set_currentIndex ui snd];
      try assumption.
    right. destruct Hc as [[_ Hc]|Hc]; lia.
Qed.

Lemma settled_generate (w : World State) :
  settled (ui w) ->
  settled (ui (step backend JSON_parse fileToBase64 props ClickGenerate w)).
Proof.
  intros H. pose proof H as [Hc He Hbg Hfi Hpr Hl].
  unfold step, dispatch, react, exec. cbv beta iota. unfold handleGenerateClick.
  match goal with |- context [if ?c then _ else _] => destruct c end;
    [go; revert H; same|].
  match goal with |- context [if ?c then _ else _] => destruct c end; go.
  - destruct (geminiService.analyzeStyleReferences backend _ (calls w))
      as [[e|style] log1]; cbn [fst snd calls ui]; [revert H; same|].
    match goal with
    | |- context [geminiService.generateThumbnail ?b ?a1 ?a2 ?a3 ?a4 ?a5 ?a6 ?a7 ?a8 ?a9 ?log] =>
        pose proof (Actions.image_call_truthy b geminiService.no_thumbnail
                      (geminiService.generateThumbnail_request a1 a2 a3 a4 a5 a6 a7 a8 a9)
                      log) as Ht;
        change (bind (geminiService.generateContent b
                        (geminiService.generateThumbnail_request a1 a2 a3 a4 a5 a6 a7 a8 a9))
                     (geminiService.decode_image geminiService.no_thumbnail) log)
          with (geminiService.generateThumbnail b a1 a2 a3 a4 a5 a6 a7 a8 a9 log) in Ht;
        destruct (geminiService.generateThumbnail b a1 a2 a3 a4 a5 a6 a7 a8 a9 log)
          as [[e|t] log2]
    end; cbn [fst snd calls ui] in Ht |- *; [revert H; same|].
    apply (settled_grown (ui w)); cbn; auto.
  - match goal with
    | |- context [geminiService.generateThumbnail ?b ?a1 ?a2 ?a3 ?a4 ?a5 ?a6 ?a7 ?a8 ?a9 ?log] =>
        pose proof (Actions.image_call_truthy b geminiService.no_thumbnail
                      (geminiService.generateThumbnail_request a1 a2 a3 a4 a5 a6 a7 a8 a9)
                      log) as Ht;
        change (bind (geminiService.generateContent b
                        (geminiService.generateThumbnail_request a1 a2 a3 a4 a5 a6 a7 a8 a9))
                     (geminiService.decode_image geminiService.no_thumbnail) log)
          with (geminiService.generateThumbnail b a1 a2 a3 a4 a5 a6 a7 a8 a9 log) in Ht;
        destruct (geminiService.generateThumbnail b a1 a2 a3 a4 a5 a6 a7 a8 a9 log)
          as [[e|t] log2]
    end; cbn [fst snd calls ui] in Ht |- *; [revert H; same|].
    apply (settled_grown (ui w)); cbn; auto.
Qed.

Lemma settled_edit (instruction : jsstring) (w : World State) :
  settled (ui w) ->
  settled (ui (exec (handleApplyEdit backend props instruction (ui w)) w)).
Proof.
  intros H. pose proof H as [Hc He Hbg Hfi Hpr Hl].
  unfold handleApplyEdit.
  destruct (currentThumbnail (ui w)) as [cur|]; [|exact H].
  destruct (negb (truthy (trim instruction))); [exact H|]. go.
  pose proof (Actions.image_call_truthy backend geminiService.no_edited_thumbnail
                (geminiService.editThumbnail_request cur instruction (language props))
                (calls w)) as Ht.
  change (bind (geminiService.generateContent backend
                  (geminiService.editThumbnail_request cur instruction (language props)))
               (geminiService.decode_image geminiService.no_edited_thumbnail) (calls w))
    with (geminiService.editThumbnail backend cur instruction (language props) (calls w))
    in Ht.
  destruct (geminiService.editThumbnail backend cur instruction (language props) (calls w))
    as [[e|t] log]; cbn [fst snd calls ui] in Ht |- *; [revert H; same|].
  pose proof (settled_grown (ui w) (set_editInstruction [] (ui w)) t H (Ht t eq_refl))
    as G. cbn in G. specialize (G (le_n _) (le_n _) (le_n _)).
  revert G. apply settled_fields; reflexivity || (cbn; lia).
Qed.

Lemma settled_files (files : list File) (type : UploadType) (w : World State) :
  settled (ui w) ->
  settled (ui (step backend JSON_parse fileToBase64 props (ChooseFiles files type) w)).
Proof.
  intros H. pose proof H as [Hc He Hbg Hfi Hpr Hl].
  unfold step, dispatch, react, exec. cbv beta iota. unfold handleFileChange.
  destruct files as [|f rest]; [exact H|].
  destruct type.
  - destruct (4 * 1024 * 1024 <? size f); go; [revert H; same|].
    unfold encode. destruct (fileToBase64 f); cbn [fst snd ui calls]; revert H; same.
  - destruct (4 * 1024 * 1024 <? size f); go; [revert H; same|].
    unfold encode. destruct (fileToBase64 f); cbn [fst snd ui calls]; revert H; same.
  - go.
    match goal with
    | |- context [all ?g ?l w] =>
        pose proof (Actions.all_world g l w) as Hw;
        destruct (all g l w) as [[e|imgs] w1]
    end; cbn [fst snd ui calls] in Hw |- *;
      (rewrite Hw;
       [|intros a w0; unfold encode; destruct (fileToBase64 a); reflexivity]);
      [exact H|].
    constructor; cbn [thumbnailHistory currentIndex backgroundImages referenceFiles
                      referencePreviews loading set_backgroundImages];
      try assumption.
    rewrite JSFacts.slice_prefix by lia. rewrite length_firstn. lia.
  - go. rewrite JSFacts.slice_prefix by lia. change (Z.to_nat 3) with 3%nat.
    match goal with
    | |- context [all ?g ?l ?w0] =>
        pose proof (Actions.all_readable fileToBase64 g (read fileToBase64) l w0) as Ha;
        destruct (all g l w0) as [[e|ps] w1]
    end;
      (destruct Ha as [Ha Hw];
       [intros x w0; unfold encode, read; destruct (fileToBase64 x); reflexivity|]);
      cbn [fst snd ui calls] in Ha, Hw |- *; subst w1; cbn [ui calls];
      constructor;
      cbn [thumbnailHistory currentIndex backgroundImages referenceFiles
           referencePreviews loading set_referenceFiles set_referencePreviews
           set_analyzedStyle];
      try assumption; try (rewrite length_firstn; lia).
    destruct Ha as [_ ->]. rewrite length_map, length_firstn. lia.
Qed.

Lemma settled_removals (k : Z) (w : World State) :
  settled (ui w) ->
  settled (ui (step backend JSON_parse fileToBase64 props (RemoveReference k) w))
  /\ settled (ui (step backend JSON_parse fileToBase64 props (RemoveBackground k) w)).
Proof.
  intros H. unfold step, dispatch, react, exec. cbv beta iota.
  unfold handleRemoveReference, handleRemoveBackgroundImage. go.
  rewrite !Actions.filter_index_neq_without.
  assert (L : forall A (l : list A), (List.length (without k l) <= List.length l)%nat).
  { intros A l. rewrite Actions.without_length.
    destruct ((0 <=? k) && (k <? Z.of_nat (List.length l))); lia. }
  pose proof H as [Hc He Hbg Hfi Hpr Hl].
  split.
  - destruct (truthy_opt (analyzedStyle (ui w))); cbn [fst snd ui calls];
      revert H; apply settled_fields; cbn; try reflexivity; try apply L; assumption.
  - revert H; apply settled_fields; cbn; try reflexivity; try apply L; try lia;
      assumption.
Qed.

Lemma settled_analyze (w : World State) :
  settled (ui w) ->
  settled (ui (step backend JSON_parse fileToBase64 props ClickAnalyze w)).
Proof.
  intros H. pose proof H as [Hc He Hbg Hfi Hpr Hl].
  unfold step, dispatch, react, exec. cbv beta iota. unfold handleAnalyzeStyle.
  match goal with |- context [if ?c then _ else _] => destruct c end; [exact H|].
  go. destruct (geminiService.analyzeStyleReferences backend _ (calls w))
    as [[e|style] log]; cbn [fst snd ui calls]; revert H; same.
Qed.

Lemma settled_effect (w : World State) :
  settled (ui w) ->
  settled (ui (step backend JSON_parse fileToBase64 props ThumbnailChanged w)).
Proof.
  intros H. pose proof H as [Hc He Hbg Hfi Hpr Hl].
  unfold step, dispatch, react, exec. cbv beta iota.
  unfold currentThumbnail_effect, handleGetSuggestions.
  match goal with |- context [if ?c then _ else _] => destruct c end; [|exact H].
  go. destruct (geminiService.getImprovementSuggestions backend JSON_parse _ _ (calls w))
    as [[e|l] log]; cbn [fst snd ui calls]; revert H; same.
Qed.

Lemma settled_step (e : Event) (w : World State) :
  settled (ui w) -> settled (ui (step backend JSON_parse fileToBase64 props e w)).
Proof.
  intros H. destruct e.
  - pose proof H as [Hc He Hbg Hfi Hpr Hl]. revert H. same.
  - pose proof H as [Hc He Hbg Hfi Hpr Hl]. revert H. same.
  - pose proof H as [Hc He Hbg Hfi Hpr Hl]. revert H. same.
  - pose proof H as [Hc He Hbg Hfi Hpr Hl]. revert H. same.
  - now apply settled_files.
  - now apply settled_removals.
  - now apply settled_removals.
  - now apply settled_analyze.
  - now apply settled_generate.
  - now apply settled_edit.
  - now apply settled_edit.
  - now apply settled_undo_redo.
  - now apply settled_undo_redo.
  - now apply settled_effect.
Qed.

Lemma settled_active (s : State) :
  settled s ->
  currentThumbnail s = at_index (thumbnailHistory s) (currentIndex s)
  /\ (currentThumbnail s = None <-> thumbnailHistory s = []).
Proof.
  intros [Hc He _ _ _ _]. unfold currentThumbnail.
  destruct Hc as [[Hh Hi]|Hi].
  - rewrite Hh, Hi. cbn. tauto.
  - unfold at_index. destruct (Z.ltb_spec (currentIndex s) 0); [lia|].
    destruct (nth_error (thumbnailHistory s) (Z.to_nat (currentIndex s))) as [t|] eqn:E.
    + rewrite Forall_forall in He. rewrite (He t (nth_error_In _ _ E)).
      split; [reflexivity|]. split; [discriminate|]. intros Hn. rewrite Hn in Hi.
      cbn in Hi. lia.
    + apply nth_error_None in E. lia.
Qed.

(** X18.  Whatever the model answers and whatever files are chosen, after
    any sequence of workspace events handled one after the other: the
    cursor is on an entry of the history, or the history is empty and the
    cursor is -1; every history entry is a non-empty string, so the active
    thumbnail is the entry under the cursor and there is none exactly when
    the history is empty; there are at most 5 background images, at most 3
    reference files and at most 3 reference previews; and the busy flag is
    down. *)
Theorem workspace_invariant (w : World State) :
  reachable backend JSON_parse fileToBase64 props w ->
  settled (ui w)
  /\ currentThumbnail (ui w) = at_index (thumbnailHistory (ui w)) (currentIndex (ui w))
  /\ (currentThumbnail (ui w) = None <-> thumbnailHistory (ui w) = []).
Proof.
  intros R.
  assert (S : settled (ui w)).
  { induction R as [log|w e R IH].
    - constructor; cbn; try lia; try reflexivity; [now left|constructor].
    - now apply settled_step. }
  split; [exact S|]. now apply settled_active.
Qed.

End Steps.

(** X18 on a workspace where a photo is chosen, a thumbnail generated and
    then seven background images chosen at once. *)
Lemma workspace_invariant_witness :
  let next := step (Examples.paints (str "RA==")) Examples.parse_one_title
                Examples.reads_all Examples.props in
  let w := next (ChooseFiles (repeat Examples.reference1 7) background)
             (next ClickGenerate
                (next (ChooseFiles [Examples.reference1] main1)
                   (Examples.at_start initial))) in
  currentThumbnail (ui w) = Some Examples.D
  /\ List.length (backgroundImages (ui w)) = 5%nat
  /\ settled (ui w).
Proof.
  intros next w.
  assert (R : reachable (Examples.paints (str "RA==")) Examples.parse_one_title
                Examples.reads_all Examples.props w)
    by (repeat apply reachable_step; apply reachable_mount).
  destruct (workspace_invariant (Examples.paints (str "RA==")) Examples.parse_one_title
              Examples.reads_all Examples.props w R) as (S & _ & _).
  split; [reflexivity|]. split; [reflexivity|exact S].
Defined.

End Reachability.
